(** * Trend analyzer: a shallow embedding of [src/trend_analyzer.py]

    The development follows the Python class [TrendAnalyzer] method by
    method.  Conventions of the embedding:

    - a Python [dict] whose iteration order is observable is an association
      list with the insertion discipline of [dict_set] (a key is updated in
      place, a new key is appended);
    - a record of the dataset is a Rocq record of optional fields, one per
      key the analyzer reads; an absent key is [None], so [item.get(k, d)]
      is a [match] with default [d].  Field values have the types of the
      collectors in [src/data_collectors]: text for [title], [published_at],
      [keyword], [platform]; integers for the four metrics read from
      [engagement_metrics];
    - Python integers are [Z]; a Python [float] is the rational number
      it denotes, and the true division [/] of two integers, the product of
      two floats and a float literal are rounded to the nearest binary64
      value, ties to even ([Float.round]); [a / b] raises
      [ZeroDivisionError] on a zero divisor and [int(x)] truncates towards
      zero.  The exponent of a double is not bounded in the model: results
      beyond about 1.8e308 (where Python raises [OverflowError] or yields
      an infinity) or below about 2.2e-308 are outside it, as is the sign
      of a zero; quotients and products of 64-bit counters are far inside;
    - text is [string], holding the UTF-8 encoding of the Python [str]; a
      character is a code point, that is a lead byte with its continuation
      bytes ([Text.chars]), so [len] and slices count characters.  Tests for
      an ASCII substring, equality and concatenation act on the bytes;
    - an exception is a value of [exception] carried by the [result] monad;
      [try ... except] is a [match] on the result;
    - the functions of the interpreter's libraries that the analyzer calls
      ([datetime.fromisoformat], [datetime.strptime],
      [pandas.Series.value_counts], and the Unicode tables behind
      [str.lower] and the class [\w] of [re]) are the methods of the class
      [Libraries], with the laws their documentation gives; the draws of
      [random.randint(9, 17)] are derived from a stream of raw numbers;
    - console output ([print]) is modelled where it matters, in [analyze]:
      a [print] may raise, and two of them run outside the protection of
      the [try] block. *)

From Stdlib Require Import ZArith QArith List String Ascii Bool Lia Arith.
From Stdlib Require Import Permutation Sorted DecimalString.
Import ListNotations.
Local Open Scope string_scope.
Local Open Scope Z_scope.

(* ================================================================= *)
(** ** Text *)

Module Text.

(** [needle in hay] for two strings. *)
Fixpoint contains (needle hay : string) : bool :=
  if prefix needle hay then true
  else match hay with
       | EmptyString => false
       | String _ rest => contains needle rest
       end.

(** [s.endswith(suffix)]. *)
Definition endswith (suffix s : string) : bool :=
  let n := String.length s in
  let m := String.length suffix in
  if (m <=? n)%nat then String.eqb (substring (n - m) m s) suffix else false.

(** [s.replace(c, by)] for a one-character pattern [c]. *)
Fixpoint replace_char (c : ascii) (by_ : string) (s : string) : string :=
  match s with
  | EmptyString => EmptyString
  | String a rest =>
      if Ascii.eqb a c then by_ ++ replace_char c by_ rest
      else String a (replace_char c by_ rest)
  end.

Definition in_range (lo hi : nat) (c : ascii) : bool :=
  let n := nat_of_ascii c in ((lo <=? n) && (n <=? hi))%nat.

Definition is_digit (c : ascii) : bool := in_range 48 57 c.

(** *** Characters

    In UTF-8 a character is a lead byte followed by the continuation bytes
    [10xxxxxx] that belong to it. *)
Definition is_continuation (c : ascii) : bool := in_range 128 191 c.

Definition flush_char (cur : string) : list string :=
  match cur with EmptyString => [] | _ => [cur] end.

(** The characters of the text after the bytes [cur] of the character
    being read. *)
Fixpoint split_chars (cur : string) (s : string) : list string :=
  match s with
  | EmptyString => flush_char cur
  | String c rest =>
      if is_continuation c then split_chars (cur ++ String c EmptyString) rest
      else (flush_char cur ++ split_chars (String c EmptyString) rest)%list
  end.

(** [list(s)]: the characters of a text, each with its bytes. *)
Definition chars (s : string) : list string := split_chars EmptyString s.

(** [len(s)]. *)
Definition length (s : string) : nat := List.length (chars s).

(** [s[:n]]. *)
Definition take (n : nat) (s : string) : string :=
  String.concat EmptyString (firstn n (chars s)).

(** *** ASCII letters *)

Definition is_upper (c : ascii) : bool := in_range 65 90 c.
Definition is_lower (c : ascii) : bool := in_range 97 122 c.
Definition is_ascii (c : ascii) : bool := in_range 0 127 c.

(** The class [\w] on the ASCII range: letters, digits and the
    underscore. *)
Definition ascii_word (c : ascii) : bool :=
  is_upper c || is_lower c || is_digit c || Ascii.eqb c "_"%char.

Definition ascii_lower_char (c : ascii) : ascii :=
  if is_upper c then ascii_of_nat (nat_of_ascii c + 32) else c.

(** [s.lower()] for a text of ASCII characters. *)
Fixpoint ascii_lower (s : string) : string :=
  match s with
  | EmptyString => EmptyString
  | String a rest => String (ascii_lower_char a) (ascii_lower rest)
  end.

Fixpoint all_bytes (p : ascii -> bool) (s : string) : bool :=
  match s with
  | EmptyString => true
  | String c rest => p c && all_bytes p rest
  end.

(** *** Words

    A finished run of word characters is a match of [\b\w{4,}\b] when it
    has at least four characters. *)
Definition flush (run : list string) : list string :=
  if (4 <=? List.length run)%nat then [String.concat EmptyString run] else [].

(** The matches in the characters [cs], left to right; [run] is the run of
    word characters being read. *)
Fixpoint word_runs (is_word : string -> bool) (cs : list string) (run : list string)
  : list string :=
  match cs with
  | [] => flush run
  | c :: rest =>
      if is_word c then word_runs is_word rest (run ++ [c])%list
      else (flush run ++ word_runs is_word rest [])%list
  end.

(** [re.findall(r'\b\w{4,}\b', s)], for the class [\w] given by
    [is_word]. *)
Definition findall_words4 (is_word : string -> bool) (s : string) : list string :=
  word_runs is_word (chars s) [].

(** [str(z)] for an integer. *)
Definition of_Z (z : Z) : string := NilZero.string_of_int (Z.to_int z).

(** Groups of three digits from the right, separated by commas; [fuel]
    bounds the number of groups. *)
Fixpoint group3 (fuel : nat) (digits : string) : string :=
  let n := String.length digits in
  match fuel with
  | O => digits
  | S fuel' =>
      if (n <=? 3)%nat then digits
      else group3 fuel' (substring 0 (n - 3) digits) ++ "," ++ substring (n - 3) 3 digits
  end.

(** [f"{z:,}"]: the decimal digits with a thousands separator. *)
Definition of_Z_commas (z : Z) : string :=
  let digits := of_Z (Z.abs z) in
  (if z <? 0 then "-" else "") ++ group3 (String.length digits) digits.

(** [f"{z:0{w}d}"] for a non-negative [z]. *)
Fixpoint zeros (n : nat) : string :=
  match n with O => EmptyString | S n' => String "0"%char (zeros n') end.

Definition pad (w : nat) (z : Z) : string :=
  let d := of_Z z in zeros (w - String.length d) ++ d.

End Text.

Infix "+++" := String.append (right associativity, at level 60).
Local Open Scope list_scope.

(* ================================================================= *)
(** ** Exceptions *)

Inductive exception : Type :=
| ZeroDivisionError
| TypeError
| ValueError
| UnicodeEncodeError.

Inductive result (A : Type) : Type :=
| Ok (a : A)
| Raise (e : exception).
Arguments Ok {A} a.
Arguments Raise {A} e.

Definition bind {A B : Type} (c : result A) (k : A -> result B) : result B :=
  match c with
  | Ok a => k a
  | Raise e => Raise e
  end.

Notation "x <- c ;; k" := (bind c (fun x => k))
  (at level 61, c at next level, right associativity).

(** A [for] loop whose body may raise: the accumulator is threaded through
    the elements in order and the first exception ends the loop. *)
Fixpoint for_each {A S : Type} (body : S -> A -> result S) (l : list A) (s : S)
  : result S :=
  match l with
  | [] => Ok s
  | a :: rest => s' <- body s a ;; for_each body rest s'
  end.

(* ================================================================= *)
(** ** Floating point

    A double is the rational it denotes.  [Float.round q] is the double
    nearest to [q]: [q] is scaled by a power of two into [[2^52, 2^53)],
    rounded to the nearest integer, ties to the even one, and scaled
    back. *)

Module Float.

(** [2^e] for an integer exponent. *)
Definition pow2 (e : Z) : Q :=
  if 0 <=? e then inject_Z (2 ^ e) else 1 # Z.to_pos (2 ^ (- e)).

(** The integer part of the binary logarithm of [a / b], for positive [a]
    and [b]. *)
Definition ilog2 (a b : Z) : Z :=
  let l := Z.log2 a - Z.log2 b in
  if b * 2 ^ Z.max 0 l <=? a * 2 ^ Z.max 0 (- l) then l else l - 1.

(** [n / d] rounded to the nearest integer, ties to even, for [n >= 0] and
    [d > 0]. *)
Definition nearest_even (n d : Z) : Z :=
  let m := n / d in
  let r := n mod d in
  if 2 * r <? d then m
  else if d <? 2 * r then m + 1
  else if Z.even m then m else m + 1.

Definition round_pos (a b : Z) : Q :=
  let e := ilog2 a b - 52 in
  let m := nearest_even (a * 2 ^ Z.max 0 (- e)) (b * 2 ^ Z.max 0 e) in
  Qred (inject_Z m * pow2 e).

Definition round (q : Q) : Q :=
  match Qnum q with
  | Z0 => 0
  | Zpos a => round_pos (Zpos a) (Zpos (Qden q))
  | Zneg a => - round_pos (Zpos a) (Zpos (Qden q))
  end.

(** [x * y] on floats. *)
Definition mul (x y : Q) : Q := round (x * y).

(** The literals [1.2] and [0.8]. *)
Definition lit_1_2 : Q := round (12 # 10).
Definition lit_0_8 : Q := round (8 # 10).

End Float.

(** [a / b] on integers: the exact quotient, correctly rounded. *)
Definition truediv (a b : Z) : result Q :=
  if b =? 0 then Raise ZeroDivisionError
  else Ok (Float.round (inject_Z a / inject_Z b)).

(** [int(x)]: truncation towards zero. *)
Definition int_of (q : Q) : Z := Z.quot (Qnum q) (Zpos (Qden q)).

Definition Qlt_bool (x y : Q) : bool := negb (Qle_bool y x).

Definition sum (l : list Z) : Z := fold_left Z.add l 0.

Definition len {A : Type} (l : list A) : Z := Z.of_nat (List.length l).

(** [max(l)] and [min(l)]: [ValueError] on an empty sequence; among equal
    elements the first is kept. *)
Definition py_max (l : list Z) : result Z :=
  match l with
  | [] => Raise ValueError
  | x :: rest => Ok (fold_left (fun m y => if m <? y then y else m) rest x)
  end.

Definition py_min (l : list Z) : result Z :=
  match l with
  | [] => Raise ValueError
  | x :: rest => Ok (fold_left (fun m y => if y <? m then y else m) rest x)
  end.

(* ================================================================= *)
(** ** Dictionaries in insertion order *)

Section Dict.
Context {V : Type}.

Definition dict := list (string * V).

Fixpoint dict_get (k : string) (d : dict) : option V :=
  match d with
  | [] => None
  | (k', v) :: rest => if String.eqb k k' then Some v else dict_get k rest
  end.

(** [d[k] = v]. *)
Fixpoint dict_set (k : string) (v : V) (d : dict) : dict :=
  match d with
  | [] => [(k, v)]
  | (k', v') :: rest =>
      if String.eqb k k' then (k, v) :: rest else (k', v') :: dict_set k v rest
  end.

Definition keys (d : dict) : list string := map fst d.

Definition has_key (k : string) (d : dict) : Prop := In k (keys d).

End Dict.
Arguments dict V : clear implicits.

(* ================================================================= *)
(** ** The dataset *)

(** The four entries of [engagement_metrics] that the analyzer reads. *)
Record metrics : Type := mk_metrics {
  views : option Z;
  likes : option Z;
  upvotes : option Z;
  comments : option Z
}.

Record item : Type := mk_item {
  title : option string;
  published_at : option string;
  keyword : option string;
  platform : option string;
  engagement_metrics : option metrics
}.

(** [Dict[str, List[Dict]]]: platform name to its records. *)
Definition Dataset : Type := dict (list item).

(** [item.get("engagement_metrics", {}).get(field, 0)]. *)
Definition metric (field : metrics -> option Z) (it : item) : Z :=
  match engagement_metrics it with
  | Some m => match field m with Some v => v | None => 0 end
  | None => 0
  end.

(** [item.get(field, "")]. *)
Definition text (field : item -> option string) (it : item) : string :=
  match field it with Some s => s | None => EmptyString end.

(** Truth value of a string. *)
Definition truthy (s : string) : bool :=
  match s with EmptyString => false | _ => true end.

(* ================================================================= *)
(** ** Counters *)

Section Counting.
Context {K : Type} (eqb : K -> K -> bool).

(** [c[w] += 1] on a [Counter]: a new key is appended with count 1. *)
Fixpoint count_add (w : K) (c : list (K * nat)) : list (K * nat) :=
  match c with
  | [] => [(w, 1%nat)]
  | (w', n) :: rest =>
      if eqb w w' then (w', S n) :: rest else (w', n) :: count_add w rest
  end.

(** [Counter(words)]: the keys in order of first occurrence with their
    number of occurrences. *)
Definition Counter (words : list K) : list (K * nat) :=
  fold_left (fun c w => count_add w c) words [].

(** Insertion in a list sorted by decreasing count, before the first entry
    whose count is not larger. *)
Fixpoint insert_desc (x : K * nat) (l : list (K * nat)) : list (K * nat) :=
  match l with
  | [] => [x]
  | y :: rest =>
      if (snd y <=? snd x)%nat then x :: y :: rest else y :: insert_desc x rest
  end.

(** [sorted(items, key=count, reverse=True)]: a stable sort, so entries of
    equal count keep their order. *)
Fixpoint sort_desc (l : list (K * nat)) : list (K * nat) :=
  match l with
  | [] => []
  | x :: rest => insert_desc x (sort_desc rest)
  end.

(** [Counter.most_common(n)]. *)
Definition most_common (n : nat) (c : list (K * nat)) : list (K * nat) :=
  firstn n (sort_desc c).

End Counting.

(** [list.sort()] on integers. *)
Fixpoint insert_asc (x : Z) (l : list Z) : list Z :=
  match l with
  | [] => [x]
  | y :: rest => if x <=? y then x :: y :: rest else y :: insert_asc x rest
  end.

Fixpoint sort_asc (l : list Z) : list Z :=
  match l with
  | [] => []
  | x :: rest => insert_asc x (sort_asc rest)
  end.

(* ================================================================= *)
(** ** Dates and times *)

(** A [datetime.datetime]; [utcoffset] is [None] for a naive value and the
    offset east of UTC, in seconds, for an aware one. *)
Record datetime : Type := mk_datetime {
  year : Z;
  month : Z;
  day : Z;
  hour : Z;
  minute : Z;
  second : Z;
  microsecond : Z;
  utcoffset : option Z
}.

Definition is_leap (y : Z) : bool :=
  ((y mod 4 =? 0) && negb (y mod 100 =? 0)) || (y mod 400 =? 0).

Definition days_in_month (y m : Z) : Z :=
  if m =? 2 then (if is_leap y then 29 else 28)
  else if (m =? 4) || (m =? 6) || (m =? 9) || (m =? 11) then 30
  else 31.

Definition days_before_year (y : Z) : Z :=
  let p := y - 1 in 365 * p + p / 4 - p / 100 + p / 400.

Definition days_before_month (y m : Z) : Z :=
  sum (map (days_in_month y) (map Z.of_nat (seq 1 (Z.to_nat (m - 1))))).

(** [date.toordinal()]. *)
Definition toordinal (dt : datetime) : Z :=
  days_before_year (year dt) + days_before_month (year dt) (month dt) + day dt.

(** The number by which two datetimes of the same kind are ordered:
    microseconds of wall-clock time for naive values, of UTC for aware
    ones. *)
Definition instant (dt : datetime) : Z :=
  let off := match utcoffset dt with Some o => o | None => 0 end in
  (toordinal dt * 86400 + hour dt * 3600 + minute dt * 60 + second dt - off)
  * 1000000 + microsecond dt.

Definition aware (dt : datetime) : bool :=
  match utcoffset dt with Some _ => true | None => false end.

(** [a < b]: comparing a naive with an aware datetime raises [TypeError]. *)
Definition dt_lt (a b : datetime) : result bool :=
  if Bool.eqb (aware a) (aware b) then Ok (instant a <? instant b)
  else Raise TypeError.

(** [min(dates)] and [max(dates)] after the first element. *)
Fixpoint min_from (cur : datetime) (rest : list datetime) : result datetime :=
  match rest with
  | [] => Ok cur
  | d :: rest' => b <- dt_lt d cur ;; min_from (if b then d else cur) rest'
  end.

Fixpoint max_from (cur : datetime) (rest : list datetime) : result datetime :=
  match rest with
  | [] => Ok cur
  | d :: rest' => b <- dt_lt cur d ;; max_from (if b then d else cur) rest'
  end.

(** [str(dt.date())]. *)
Definition date_str (dt : datetime) : string :=
  Text.pad 4 (year dt) +++ "-" +++ Text.pad 2 (month dt) +++ "-" +++ Text.pad 2 (day dt).

(** [list.sort(key=lambda x: x[0])] on (datetime, engagement) pairs: a
    stable sort; every comparison is a [dt_lt] and may raise. *)
Fixpoint insert_dated (x : datetime * Z) (l : list (datetime * Z))
  : result (list (datetime * Z)) :=
  match l with
  | [] => Ok [x]
  | y :: rest =>
      b <- dt_lt (fst y) (fst x) ;;
      if b then (r <- insert_dated x rest ;; Ok (y :: r)) else Ok (x :: y :: rest)
  end.

Fixpoint sort_dated (l : list (datetime * Z)) : result (list (datetime * Z)) :=
  match l with
  | [] => Ok []
  | x :: rest => s <- sort_dated rest ;; insert_dated x s
  end.

(* ================================================================= *)
(** ** The libraries the analyzer calls *)

(** What the analyzer uses of [datetime], [pandas], [str] and [re], with
    the guarantees their documentation gives.  [value_counts] returns the
    distinct values with their number of occurrences, most frequent first;
    the order among values of equal frequency is left to the library.
    [str_lower] is [str.lower] and [word_char] tells whether a character
    is in the class [\w] of a [str] pattern; both follow the Unicode
    tables of the interpreter, and on ASCII text they are the familiar
    ones. *)
Class Libraries : Type := {
  fromisoformat : string -> option datetime;
  strptime : string -> option datetime;
  value_counts : list Z -> list (Z * nat);
  str_lower : string -> string;
  word_char : string -> bool;
  fromisoformat_hour :
    forall s dt, fromisoformat s = Some dt -> 0 <= hour dt < 24;
  strptime_hour :
    forall s dt, strptime s = Some dt -> 0 <= hour dt < 24;
  value_counts_nodup :
    forall l, NoDup (map fst (value_counts l));
  value_counts_count :
    forall l h c, In (h, c) (value_counts l) <->
                  (c = count_occ Z.eq_dec l h /\ (0 < c)%nat);
  value_counts_sorted :
    forall l, StronglySorted (fun a b => (snd b <= snd a)%nat) (value_counts l);
  str_lower_ascii :
    forall s, Text.all_bytes Text.is_ascii s = true ->
              str_lower s = Text.ascii_lower s;
  word_char_ascii :
    forall c, Text.is_ascii c = true ->
              word_char (String c EmptyString) = Text.ascii_word c
}.

(** [random.randint(9, 17)] computed from one raw number of the generator. *)
Definition randint_9_17 (raw : nat) : Z := 9 + Z.of_nat (raw mod 9).

(* ================================================================= *)
(** ** The insight blocks *)

Record posting_entry : Type := mk_posting_entry {
  peak_hours : list Z;
  best_time_range : string;
  sample_size : nat;
  peak_hour : Z
}.

(** A value of the [viral_content_patterns] dictionary: a list of strings,
    or the empty mapping [{}] (the only mapping the analyzer stores). *)
Inductive pattern_value : Type :=
| PList (l : list string)
| PEmptyDict.

(** The three shapes of an [engagement_insights] entry. *)
Inductive engagement_entry : Type :=
| VideoStats (avg_views avg_likes : Z) (view_to_like_ratio : Q)
             (max_views min_views : Z) (total_items : nat)
| ForumStats (avg_upvotes avg_comments : Z) (engagement_rate : Q)
             (total_items : nat)
| OtherStats (total_items : nat) (avg_title_length : Q).

Record keyword_stats : Type := mk_keyword_stats {
  count : nat;
  total_engagement : Z;
  avg_engagement : Z
}.

Record platform_summary : Type := mk_platform_summary {
  total_items : nat;
  date_range : string;
  top_keywords : list string;
  engagement_trend : string
}.

Record Insights : Type := mk_insights {
  best_posting_times : dict posting_entry;
  viral_content_patterns : dict pattern_value;
  engagement_insights : dict engagement_entry;
  keyword_performance : dict (dict keyword_stats);
  platform_insights : dict platform_summary
}.

(** The value of the [except] branch of [analyze]. *)
Definition empty_insights : Insights :=
  mk_insights [] [] [] [] [].

(* ================================================================= *)
(** ** The analyzer *)

Section Analyzer.
Context {L : Libraries}.

(** The [try] block that reads [published_at]: [Some dt] when a datetime
    was parsed, [None] when an exception was raised. *)
Definition parse_published (pub_time : string) : option datetime :=
  if Text.contains "T" pub_time then
    if Text.endswith "Z" pub_time
    then fromisoformat (Text.replace_char "Z"%char "+00:00" pub_time)
    else fromisoformat pub_time
  else strptime pub_time.

(** *** [_analyze_posting_times] *)

(** One iteration of the loop over the records of a platform: the hours
    collected so far and the number of random draws made so far. *)
Definition extract_hour (entropy : nat -> nat) (acc : list Z * nat) (it : item)
  : list Z * nat :=
  let (hours, drawn) := acc in
  let pub_time := text published_at it in
  if truthy pub_time then
    match parse_published pub_time with
    | Some dt => (hours ++ [hour dt], drawn)
    | None => (hours ++ [randint_9_17 (entropy drawn)], S drawn)
    end
  else (hours, drawn).

Definition extract_hours (entropy : nat -> nat) (items : list item) (drawn : nat)
  : list Z * nat :=
  fold_left (extract_hour entropy) items ([], drawn).

Definition default_times : posting_entry :=
  mk_posting_entry [10; 14; 19] "10:00 - 19:00" 0 14.

Definition time_range (peak : list Z) : string :=
  if (2 <=? List.length peak)%nat
  then Text.of_Z (hd 0 peak) +++ ":00 - " +++ Text.of_Z (last peak 0) +++ ":00"
  else Text.of_Z (hd 0 peak) +++ ":00 - " +++ Text.of_Z ((hd 0 peak + 3) mod 24) +++ ":00".

(** [hour_counts.idxmax()]: the label of the first row with the largest
    count. *)
Definition idxmax (top : Z * nat) (others : list (Z * nat)) : Z :=
  fst (fold_left (fun best x => if (snd best <? snd x)%nat then x else best)
                 others top).

Definition posting_entry_of (hours : list Z) : posting_entry :=
  match hours with
  | [] => default_times
  | _ :: _ =>
      let hour_counts := value_counts hours in
      match hour_counts with
      | [] => default_times
      | top :: others =>
          let peak := sort_asc (map fst (firstn 3 hour_counts)) in
          mk_posting_entry peak (time_range peak) (List.length hours)
                           (idxmax top others)
      end
  end.

Definition posting_times_step (entropy : nat -> nat)
    (acc : dict posting_entry * nat) (entry : string * list item)
  : dict posting_entry * nat :=
  let (times_by_platform, drawn) := acc in
  let (platform_name, items) := entry in
  match items with
  | [] => (times_by_platform, drawn)
  | _ :: _ =>
      let (hours, drawn') := extract_hours entropy items drawn in
      (dict_set platform_name (posting_entry_of hours) times_by_platform, drawn')
  end.

Definition _analyze_posting_times (entropy : nat -> nat) (data : Dataset)
  : dict posting_entry :=
  fst (fold_left (posting_times_step entropy) data ([], 0%nat)).

(** *** [_analyze_viral_patterns] *)

Definition initial_patterns : dict pattern_value :=
  [ ("high_engagement_titles", PList []);
    ("common_keywords_in_viral", PList []);
    ("content_length_pattern", PEmptyDict);
    ("emotional_triggers", PList []) ].

(** [patterns[key].append(x)]. *)
Definition pattern_append (key : string) (x : string) (patterns : dict pattern_value)
  : dict pattern_value :=
  match dict_get key patterns with
  | Some (PList l) => dict_set key (PList (l ++ [x])) patterns
  | _ => patterns
  end.

Definition collect_title (patterns : dict pattern_value) (video : item)
  : dict pattern_value :=
  let t := text title video in
  if truthy t then pattern_append "high_engagement_titles" (Text.take 100 t) patterns
  else patterns.

(** The records whose views are above the mean of [youtube_data]. *)
Definition viral_videos (youtube_data : list item) (avg_views : Q) : list item :=
  filter (fun it => Qlt_bool avg_views (inject_Z (metric views it))) youtube_data.

Definition viral_titles (viral : list item) : list string :=
  map (text title) (filter (fun v => truthy (text title v)) viral).

Definition _analyze_viral_patterns (data : Dataset) : result (dict pattern_value) :=
  let patterns := initial_patterns in
  let youtube_data :=
    match dict_get "youtube" data with Some items => items | None => [] end in
  match youtube_data with
  | [] => Ok patterns
  | _ :: _ =>
      let all_views := map (metric views) youtube_data in
      avg_views <- truediv (sum all_views) (len all_views) ;;
      let viral := viral_videos youtube_data avg_views in
      match viral with
      | [] => Ok patterns
      | _ :: _ =>
          let patterns := fold_left collect_title (firstn 5 viral) patterns in
          let all_titles := String.concat " " (viral_titles viral) in
          if truthy all_titles then
            let words := Text.findall_words4 word_char (str_lower all_titles) in
            match words with
            | [] => Ok patterns
            | _ :: _ =>
                let common_words := most_common 10 (Counter String.eqb words) in
                Ok (dict_set "common_keywords_in_viral"
                             (PList (map fst common_words)) patterns)
            end
          else Ok patterns
      end
  end.

(** *** [_analyze_engagement] *)

Definition engagement_step (acc : dict engagement_entry) (entry : string * list item)
  : result (dict engagement_entry) :=
  let (platform_name, items) := entry in
  match items with
  | [] => Ok acc
  | _ :: _ =>
      if String.eqb platform_name "youtube" then
        let vs := map (metric views) items in
        let ls := map (metric likes) items in
        avg_v <- truediv (sum vs) (len vs) ;;
        avg_l <- truediv (sum ls) (len ls) ;;
        ratio <- (if 0 <? sum vs
                  then truediv (sum ls) (sum vs)
                  else Ok (inject_Z 0)) ;;
        mx <- py_max vs ;;
        mn <- py_min vs ;;
        Ok (dict_set platform_name
              (VideoStats (int_of avg_v) (int_of avg_l) ratio mx mn (List.length items))
              acc)
      else if String.eqb platform_name "reddit" then
        let us := map (metric upvotes) items in
        let cs := map (metric comments) items in
        avg_u <- truediv (sum us) (len us) ;;
        avg_c <- truediv (sum cs) (len cs) ;;
        rate <- (if 0 <? sum us
                 then truediv (sum cs) (sum us)
                 else Ok (inject_Z 0)) ;;
        Ok (dict_set platform_name
              (ForumStats (int_of avg_u) (int_of avg_c) rate (List.length items))
              acc)
      else if String.eqb platform_name "google_news" then
        let lengths := map (fun it => Z.of_nat (Text.length (text title it))) items in
        avg_len <- truediv (sum lengths) (len items) ;;
        Ok (dict_set platform_name (OtherStats (List.length items) avg_len) acc)
      else Ok acc
  end.

Definition _analyze_engagement (data : Dataset) : result (dict engagement_entry) :=
  for_each engagement_step data [].

(** *** [_analyze_keywords] *)

(** The engagement of a record for the keyword statistics of a platform. *)
Definition keyword_engagement (platform_name : string) (it : item) : Z :=
  if String.eqb platform_name "youtube" then metric views it
  else if String.eqb platform_name "reddit" then metric upvotes it
  else 0.

(** One iteration of the grouping loop; [avg_engagement] is filled in
    afterwards and is 0 until then. *)
Definition keyword_step (platform_name : string) (stats : dict keyword_stats)
    (it : item) : dict keyword_stats :=
  let kw := match keyword it with Some k => k | None => "unknown" end in
  let cur := match dict_get kw stats with
             | Some st => st
             | None => mk_keyword_stats 0 0 0
             end in
  dict_set kw
    (mk_keyword_stats (S (count cur))
                      (total_engagement cur + keyword_engagement platform_name it) 0)
    stats.

Definition with_average (st : keyword_stats) : result keyword_stats :=
  if (0 <? count st)%nat then
    avg <- truediv (total_engagement st) (Z.of_nat (count st)) ;;
    Ok (mk_keyword_stats (count st) (total_engagement st) (int_of avg))
  else Ok (mk_keyword_stats (count st) (total_engagement st) 0).

Fixpoint with_averages (stats : dict keyword_stats) : result (dict keyword_stats) :=
  match stats with
  | [] => Ok []
  | (kw, st) :: rest =>
      st' <- with_average st ;;
      rest' <- with_averages rest ;;
      Ok ((kw, st') :: rest')
  end.

Definition keywords_step (acc : dict (dict keyword_stats)) (entry : string * list item)
  : result (dict (dict keyword_stats)) :=
  let (platform_name, items) := entry in
  match items with
  | [] => Ok acc
  | _ :: _ =>
      stats <- with_averages (fold_left (keyword_step platform_name) items []) ;;
      Ok (dict_set platform_name stats acc)
  end.

Definition _analyze_keywords (data : Dataset) : result (dict (dict keyword_stats)) :=
  for_each keywords_step data [].

(** *** [_analyze_platforms] and its helpers *)

(** The datetimes of the records whose [published_at] is non-empty and
    parses. *)
Definition parsed_dates (items : list item) : list datetime :=
  flat_map (fun it =>
              let pub_date := text published_at it in
              if truthy pub_date then
                match parse_published pub_date with
                | Some dt => [dt]
                | None => []
                end
              else []) items.

Definition _get_date_range (items : list item) : result string :=
  match parsed_dates items with
  | [] => Ok "Unknown"
  | d :: rest =>
      lo <- min_from d rest ;;
      hi <- max_from d rest ;;
      Ok (date_str lo +++ " to " +++ date_str hi)
  end.

Definition _get_top_keywords (items : list item) : list string :=
  let keywords := filter truthy (map (text keyword) items) in
  match keywords with
  | [] => []
  | _ :: _ => map fst (most_common 5 (Counter String.eqb keywords))
  end.

(** The engagement the trend reads from a record; the branch is chosen by
    the [platform] field of the first record of the sequence. *)
Definition trend_engagement (tag : string) (it : item) : Z :=
  if Text.contains "youtube" tag then metric views it
  else if Text.contains "reddit" tag then metric upvotes it
  else 0.

Definition dated_items (items : list item) : list (datetime * Z) :=
  let tag := match items with it0 :: _ => text platform it0 | [] => EmptyString end in
  flat_map (fun it =>
              let pub_date := text published_at it in
              if truthy pub_date then
                match parse_published pub_date with
                | Some dt => [(dt, trend_engagement tag it)]
                | None => []
                end
              else []) items.

(** The comparison of the two halves. *)
Definition compare_halves (first_half second_half : list Z) : result string :=
  match first_half, second_half with
  | _ :: _, _ :: _ =>
      avg_first <- truediv (sum first_half) (len first_half) ;;
      avg_second <- truediv (sum second_half) (len second_half) ;;
      if Qlt_bool (Float.mul avg_first Float.lit_1_2) avg_second then Ok "Increasing"
      else if Qlt_bool avg_second (Float.mul avg_first Float.lit_0_8) then Ok "Decreasing"
      else Ok "Stable"
  | _, _ => Ok "Stable"
  end.

(** The body of the outer [try] of [_get_engagement_trend], after the loop. *)
Definition trend_of_dated (dated : list (datetime * Z)) : result string :=
  if (5 <=? List.length dated)%nat then
    sorted <- sort_dated dated ;;
    let mid := (List.length sorted / 2)%nat in
    compare_halves (map snd (firstn mid sorted)) (map snd (skipn mid sorted))
  else Ok "Stable".

Definition _get_engagement_trend (items : list item) : string :=
  if (List.length items <? 5)%nat then "Insufficient data"
  else match trend_of_dated (dated_items items) with
       | Ok trend => trend
       | Raise _ => "Stable"
       end.

Definition platforms_step (acc : dict platform_summary) (entry : string * list item)
  : result (dict platform_summary) :=
  let (platform_name, items) := entry in
  match items with
  | [] => Ok acc
  | _ :: _ =>
      range <- _get_date_range items ;;
      Ok (dict_set platform_name
            (mk_platform_summary (List.length items) range
               (_get_top_keywords items) (_get_engagement_trend items))
            acc)
  end.

Definition _analyze_platforms (data : Dataset) : result (dict platform_summary) :=
  for_each platforms_step data [].

(** *** [analyze] *)

(** The body of the [try] block. *)
Definition analyze_body (entropy : nat -> nat) (data : Dataset) : result Insights :=
  let times := _analyze_posting_times entropy data in
  patterns <- _analyze_viral_patterns data ;;
  engagement <- _analyze_engagement data ;;
  keywords <- _analyze_keywords data ;;
  platforms <- _analyze_platforms data ;;
  Ok (mk_insights times patterns engagement keywords platforms).

Definition analyze (entropy : nat -> nat) (data : Dataset) : Insights :=
  match analyze_body entropy data with
  | Ok insights => insights
  | Raise _ => empty_insights
  end.

(** *** [analyze] with its console output

    [print] encodes the text for the console and may raise (a console
    that has no emoji raises [UnicodeEncodeError]); [describe] is [str(e)].
    The first message is printed before the [try] block is entered and the
    last one inside the handler; the others are covered by the [try].
    [analyze] above is the value returned when every [print] succeeds. *)



End Analyzer.

(* ================================================================= *)
(** ** [get_recommendations] *)

Definition posting_recommendation (platform_name range : string) : string :=
  "📅 Post on " +++ platform_name +++ " between " +++ range +++ " for maximum reach".

Definition keywords_recommendation (viral_keywords : list string) : string :=
  "🔥 Include these keywords in content: " +++ String.concat ", " (firstn 3 viral_keywords).

Definition platform_recommendation (best_platform : string) (best_engagement : Z)
  : string :=
  "🎯 Focus on " +++ best_platform +++ " for highest engagement (avg: "
  +++ Text.of_Z_commas best_engagement +++ ")".

Definition keyword_recommendation (platform_name kw : string) (avg : Z) : string :=
  "🔑 On " +++ platform_name +++ ", '" +++ kw +++ "' performs best ("
  +++ Text.of_Z_commas avg +++ " avg engagement)".

Definition generic_recommendations : list string :=
  [ "📅 Post during business hours (9 AM - 5 PM) for maximum reach";
    "🔥 Use emotional triggers in your headlines";
    "🎯 Include clear call-to-actions in your content";
    "📊 Use data and statistics to build credibility" ].

(** Rule 1: the loop over [best_posting_times]. *)
Definition posting_rule (recs : list string) (entry : string * posting_entry)
  : list string :=
  let (platform_name, times) := entry in
  if truthy (best_time_range times)
  then recs ++ [posting_recommendation platform_name (best_time_range times)]
  else recs.

(** Rule 2: [viral_patterns.get("common_keywords_in_viral", [])]. *)
Definition viral_keywords_of (viral_patterns : dict pattern_value) : list string :=
  match dict_get "common_keywords_in_viral" viral_patterns with
  | Some (PList l) => l
  | _ => []
  end.

Definition viral_rule (recs : list string) (viral_patterns : dict pattern_value)
  : list string :=
  match viral_keywords_of viral_patterns with
  | [] => recs
  | kws => recs ++ [keywords_recommendation kws]
  end.

(** Rule 3: [stats.get("avg_views", stats.get("avg_upvotes", 0))]. *)
Definition headline_engagement (stats : engagement_entry) : Z :=
  match stats with
  | VideoStats avg_views _ _ _ _ _ => avg_views
  | ForumStats avg_upvotes _ _ _ => avg_upvotes
  | OtherStats _ _ => 0
  end.

Definition best_step (best : option string * Z) (entry : string * engagement_entry)
  : option string * Z :=
  let (platform_name, stats) := entry in
  if snd best <? headline_engagement stats
  then (Some platform_name, headline_engagement stats)
  else best.

Definition platform_rule (recs : list string) (engagement_stats : dict engagement_entry)
  : list string :=
  match fold_left best_step engagement_stats (None, 0) with
  | (Some best_platform, best_engagement) =>
      if truthy best_platform && (0 <? best_engagement)
      then recs ++ [platform_recommendation best_platform best_engagement]
      else recs
  | (None, _) => recs
  end.

(** Rule 4: [max(keywords.items(), key=avg_engagement)] keeps the first of
    the entries with the largest key. *)
Definition max_keyword (first : string * keyword_stats)
    (rest : list (string * keyword_stats)) : string * keyword_stats :=
  fold_left (fun best x =>
               if avg_engagement (snd best) <? avg_engagement (snd x) then x else best)
            rest first.

Definition keyword_rule (recs : list string) (entry : string * dict keyword_stats)
  : list string :=
  let (platform_name, keywords) := entry in
  match keywords with
  | [] => recs
  | first :: rest =>
      let best_keyword := max_keyword first rest in
      if 0 <? avg_engagement (snd best_keyword)
      then recs ++ [keyword_recommendation platform_name (fst best_keyword)
                      (avg_engagement (snd best_keyword))]
      else recs
  end.

Definition get_recommendations (insights : Insights) : list string :=
  let recs := fold_left posting_rule (best_posting_times insights) [] in
  let recs := viral_rule recs (viral_content_patterns insights) in
  let recs := platform_rule recs (engagement_insights insights) in
  let recs := fold_left keyword_rule (keyword_performance insights) recs in
  let recs := match recs with [] => generic_recommendations | _ :: _ => recs end in
  firstn 5 recs.

(* ================================================================= *)
(** ** Facts about counters *)

Section CountingFacts.
Context {K : Type} (eqb : K -> K -> bool).
Hypothesis eqb_spec : forall a b, reflect (a = b) (eqb a b).

(** The count a counter records for a key, 0 when the key is absent. *)
Fixpoint count_of (k : K) (c : list (K * nat)) : nat :=
  match c with
  | [] => 0
  | (k', n) :: rest => if eqb k k' then n else count_of k rest
  end.

Lemma eqb_refl' k : eqb k k = true.
Proof. destruct (eqb_spec k k); congruence. Qed.

Lemma count_of_add k w c :
  count_of k (count_add eqb w c) =
  if eqb k w then S (count_of k c) else count_of k c.
Proof.
  induction c as [|[k' n] c IH]; simpl.
  - destruct (eqb k w); reflexivity.
  - destruct (eqb_spec w k') as [->|Hw]; simpl.
    + destruct (eqb k k'); reflexivity.
    + destruct (eqb_spec k k') as [->|Hk].
      * destruct (eqb_spec k' w); [congruence | reflexivity].
      * exact IH.
Qed.

Lemma keys_count_add w c :
  map fst (count_add eqb w c) =
  if existsb (eqb w) (map fst c) then map fst c else map fst c ++ [w].
Proof.
  induction c as [|[k' n] c IH]; simpl; [reflexivity|].
  destruct (eqb w k'); simpl; [reflexivity|].
  rewrite IH. destruct (existsb (eqb w) (map fst c)); reflexivity.
Qed.

Lemma existsb_eqb_In w l : existsb (eqb w) l = true <-> In w l.
Proof.
  rewrite existsb_exists. split.
  - intros [x [Hin Hx]]. destruct (eqb_spec w x); [subst; assumption | discriminate].
  - intros Hin. exists w. split; [assumption | apply eqb_refl'].
Qed.

Lemma nodup_count_add w c :
  NoDup (map fst c) -> NoDup (map fst (count_add eqb w c)).
Proof.
  intros Hnd. rewrite keys_count_add.
  destruct (existsb (eqb w) (map fst c)) eqn:E; [assumption|].
  apply NoDup_app; [assumption | repeat constructor; intros [] | ].
  intros x Hx [<-|[]].
  apply existsb_eqb_In in Hx. congruence.
Qed.

Lemma positive_count_add w c :
  Forall (fun p => (0 < snd p)%nat) c ->
  Forall (fun p => (0 < snd p)%nat) (count_add eqb w c).
Proof.
  induction 1 as [|[k n] c Hk Hc IH]; simpl.
  - repeat constructor.
  - destruct (eqb w k); constructor; simpl in *; try lia; assumption.
Qed.

Lemma Counter_acc (dec : forall a b : K, {a = b} + {a <> b}) l : forall c,
  NoDup (map fst c) ->
  Forall (fun p => (0 < snd p)%nat) c ->
  let c' := fold_left (fun c w => count_add eqb w c) l c in
  NoDup (map fst c') /\
  Forall (fun p => (0 < snd p)%nat) c' /\
  forall k, count_of k c' = (count_of k c + count_occ dec l k)%nat.
Proof.
  induction l as [|w l IH]; intros c Hnd Hpos; simpl.
  - repeat split; auto.
  - destruct (IH (count_add eqb w c)) as (H1 & H2 & H3);
      [apply nodup_count_add; assumption | apply positive_count_add; assumption |].
    repeat split; [assumption | assumption |].
    intros k. rewrite H3, count_of_add.
    destruct (eqb_spec k w) as [->|Hk].
    + destruct (dec w w); [lia | congruence].
    + destruct (dec w k); [congruence | lia].
Qed.

Lemma In_count_of k n c :
  NoDup (map fst c) -> In (k, n) c -> count_of k c = n.
Proof.
  induction c as [|[k' n'] c IH]; simpl; intros Hnd Hin; [contradiction|].
  inversion Hnd as [|? ? Hnotin Hnd']; subst.
  destruct Hin as [Heq|Hin].
  - inversion Heq; subst. now rewrite eqb_refl'.
  - destruct (eqb_spec k k') as [->|Hk]; [|auto].
    exfalso. apply Hnotin. apply in_map_iff. exists (k', n). auto.
Qed.

Lemma count_of_In k c :
  (0 < count_of k c)%nat -> In (k, count_of k c) c.
Proof.
  induction c as [|[k' n'] c IH]; simpl; intros H; [lia|].
  destruct (eqb_spec k k') as [->|Hk]; auto.
Qed.

Lemma Counter_spec (dec : forall a b : K, {a = b} + {a <> b}) l :
  NoDup (map fst (Counter eqb l)) /\
  forall k n, In (k, n) (Counter eqb l) <-> (n = count_occ dec l k /\ (0 < n)%nat).
Proof.
  destruct (Counter_acc dec l [] (NoDup_nil _) (Forall_nil _)) as (H1 & H2 & H3).
  fold (Counter eqb l) in *. split; [assumption|].
  intros k n. split.
  - intros Hin. split.
    + rewrite <- (In_count_of _ _ _ H1 Hin), H3. reflexivity.
    + rewrite Forall_forall in H2. apply (H2 _ Hin).
  - intros [-> Hpos]. specialize (H3 k). simpl in H3. rewrite <- H3.
    apply count_of_In. rewrite H3. assumption.
Qed.

Lemma insert_desc_perm (x : K * nat) l : Permutation (insert_desc x l) (x :: l).
Proof.
  induction l as [|y l IH]; simpl; [reflexivity|].
  destruct (snd y <=? snd x)%nat; [reflexivity|].
  rewrite IH. apply perm_swap.
Qed.

Lemma sort_desc_perm (l : list (K * nat)) : Permutation (sort_desc l) l.
Proof.
  induction l as [|x l IH]; simpl; [reflexivity|].
  rewrite insert_desc_perm. now constructor.
Qed.

Definition by_count_desc (a b : K * nat) : Prop := (snd b <= snd a)%nat.

Lemma insert_desc_sorted (x : K * nat) l :
  StronglySorted by_count_desc l -> StronglySorted by_count_desc (insert_desc x l).
Proof.
  induction 1 as [|y l Hs IH Hy]; simpl.
  - repeat constructor.
  - destruct (Nat.leb_spec (snd y) (snd x)) as [Hle|Hgt].
    + constructor; [constructor; assumption|].
      constructor; [exact Hle|].
      rewrite Forall_forall in *. intros z Hz. specialize (Hy z Hz).
      unfold by_count_desc in *. lia.
    + constructor; [exact IH|].
      rewrite Forall_forall in *. intros z Hz.
      apply (Permutation_in _ (insert_desc_perm x l)) in Hz.
      destruct Hz as [<-|Hz]; [unfold by_count_desc; lia | auto].
Qed.

Lemma sort_desc_sorted (l : list (K * nat)) : StronglySorted by_count_desc (sort_desc l).
Proof.
  induction l; simpl; [constructor | now apply insert_desc_sorted].
Qed.

End CountingFacts.

(* ================================================================= *)
(** ** A reference implementation of the libraries

    Used to evaluate the analyzer on concrete datasets.
    - [parse_iso] reads the grammar of [datetime.isoformat],
      [YYYY-MM-DD[*HH[:MM[:SS[.fff[fff]]]][+HH:MM[:SS]]]], which every
      version of [fromisoformat] accepts; the further ISO 8601 forms that
      later versions accept are rejected.
    - [parse_ymd_hms] reads ['%Y-%m-%d %H:%M:%S'] with fields of one or two
      digits (four for the year) and one or more blanks between date and
      time, on ASCII digits.
    - [first_seen_counts] lists values of equal frequency in order of first
      appearance.
    - [lower] and [is_word] are the Unicode tables up to U+00FF (ASCII
      and Latin-1); a character beyond is left unchanged and is taken not
      to be a word character. *)

Module Reference.

Definition digit_value (c : ascii) : option Z :=
  if Text.is_digit c then Some (Z.of_nat (nat_of_ascii c) - 48) else None.

(** The value of a non-empty string of decimal digits. *)
Fixpoint digits_from (acc : Z) (s : string) : option Z :=
  match s with
  | EmptyString => Some acc
  | String c rest =>
      match digit_value c with
      | Some d => digits_from (acc * 10 + d) rest
      | None => None
      end
  end.

Definition number (s : string) : option Z :=
  match s with
  | EmptyString => None
  | _ => digits_from 0 s
  end.

Definition obind {A B : Type} (o : option A) (k : A -> option B) : option B :=
  match o with Some a => k a | None => None end.

(** Exactly [width] digits at the head of [s]: their value and the rest. *)
Definition read_digits (width : nat) (s : string) : option (Z * string) :=
  let d := substring 0 width s in
  if (String.length d =? width)%nat
  then obind (number d) (fun v => Some (v, substring width (String.length s - width) s))
  else None.

(** Two digits, or one when the second character is no digit. *)
Definition read_upto2 (s : string) : option (Z * string) :=
  match read_digits 2 s with
  | Some r => Some r
  | None => read_digits 1 s
  end.

Definition expect (c : ascii) (s : string) : option string :=
  match s with
  | String c' rest => if Ascii.eqb c c' then Some rest else None
  | EmptyString => None
  end.

Definition valid_date (y m d : Z) : bool :=
  (1 <=? y) && (1 <=? m) && (m <=? 12) && (1 <=? d) && (d <=? days_in_month y m).

Definition valid_clock (h mi sec : Z) : bool :=
  (h <? 24) && (mi <? 60) && (sec <? 60).

(** [YYYY-MM-DD] and what follows it. *)
Definition read_date (s : string) : option (Z * Z * Z * string) :=
  obind (read_digits 4 s) (fun '(y, s) =>
  obind (expect "-" s) (fun s =>
  obind (read_digits 2 s) (fun '(m, s) =>
  obind (expect "-" s) (fun s =>
  obind (read_digits 2 s) (fun '(d, s) =>
    if valid_date y m d then Some (y, m, d, s) else None))))).

(** The fraction of a second: six digits, or three. *)
Definition read_fraction (s : string) : option (Z * string) :=
  match read_digits 6 s with
  | Some r => Some r
  | None => obind (read_digits 3 s) (fun '(ms, s) => Some (ms * 1000, s))
  end.

(** [HH[:MM[:SS[.fff[fff]]]]] and what follows it. *)
Definition read_clock (s : string) : option (Z * Z * Z * Z * string) :=
  obind (read_digits 2 s) (fun '(h, s1) =>
    if negb (h <? 24) then None else
    match expect ":" s1 with
    | None => Some (h, 0, 0, 0, s1)
    | Some s2 =>
        obind (read_digits 2 s2) (fun '(mi, s3) =>
          if negb (mi <? 60) then None else
          match expect ":" s3 with
          | None => Some (h, mi, 0, 0, s3)
          | Some s4 =>
              obind (read_digits 2 s4) (fun '(sec, s5) =>
                if negb (sec <? 60) then None else
                match expect "." s5 with
                | None => Some (h, mi, sec, 0, s5)
                | Some s6 =>
                    obind (read_fraction s6) (fun '(us, s7) =>
                      Some (h, mi, sec, us, s7))
                end)
          end)
    end).

(** [+HH:MM[:SS]] or [-HH:MM[:SS]] up to the end of the text, in
    seconds. *)
Definition read_offset (s : string) : option Z :=
  match s with
  | String sign rest =>
      obind (read_digits 2 rest) (fun '(h, s1) =>
      obind (expect ":" s1) (fun s2 =>
      obind (read_digits 2 s2) (fun '(mi, s3) =>
      obind (match s3 with
             | EmptyString => Some 0
             | _ => obind (expect ":" s3) (fun s4 =>
                    obind (read_digits 2 s4) (fun '(sec, s5) =>
                      match s5 with EmptyString => Some sec | _ => None end))
             end) (fun sec =>
        if valid_clock h mi sec then
          if Ascii.eqb sign "+" then Some (h * 3600 + mi * 60 + sec)
          else if Ascii.eqb sign "-" then Some (- (h * 3600 + mi * 60 + sec))
          else None
        else None))))
  | EmptyString => None
  end.

(** [datetime.fromisoformat]. *)
Definition parse_iso (s : string) : option datetime :=
  obind (read_date s) (fun '(y, m, d, rest) =>
    match rest with
    | EmptyString => Some (mk_datetime y m d 0 0 0 0 None)
    | String _ clock =>
        obind (read_clock clock) (fun '(h, mi, sec, us, rest') =>
          match rest' with
          | EmptyString => Some (mk_datetime y m d h mi sec us None)
          | _ => obind (read_offset rest') (fun off =>
                   Some (mk_datetime y m d h mi sec us (Some off)))
          end)
    end).

Definition is_blank (c : ascii) : bool :=
  Ascii.eqb c " " || Text.in_range 9 13 c.

Fixpoint skip_blanks (s : string) : string :=
  match s with
  | String c rest => if is_blank c then skip_blanks rest else s
  | EmptyString => EmptyString
  end.

(** [datetime.strptime(s, '%Y-%m-%d %H:%M:%S')]. *)
Definition parse_ymd_hms (s : string) : option datetime :=
  obind (read_digits 4 s) (fun '(y, s) =>
  obind (expect "-" s) (fun s =>
  obind (read_upto2 s) (fun '(m, s) =>
  obind (expect "-" s) (fun s =>
  obind (read_upto2 s) (fun '(d, s) =>
    match s with
    | String c rest =>
        if is_blank c then
          obind (read_upto2 (skip_blanks rest)) (fun '(h, s) =>
          obind (expect ":" s) (fun s =>
          obind (read_upto2 s) (fun '(mi, s) =>
          obind (expect ":" s) (fun s =>
          obind (read_upto2 s) (fun '(sec, s) =>
            match s with
            | EmptyString =>
                if valid_date y m d && valid_clock h mi sec
                then Some (mk_datetime y m d h mi sec 0 None) else None
            | _ => None
            end)))))
        else None
    | EmptyString => None
    end))))).

(** [value_counts] as a counter in order of first appearance, sorted by
    decreasing count with a stable sort. *)
Definition first_seen_counts (l : list Z) : list (Z * nat) :=
  sort_desc (Counter Z.eqb l).

(** Whether a character up to U+00FF is a letter, a digit (in the wide
    sense of [str.isalnum]) or the underscore. *)
Definition is_word (character : string) : bool :=
  match character with
  | String c EmptyString => Text.is_ascii c && Text.ascii_word c
  | String lead (String c EmptyString) =>
      let n := nat_of_ascii c in
      if (nat_of_ascii lead =? 194)%nat then
        existsb (Nat.eqb n) [170; 178; 179; 181; 185; 186; 188; 189; 190]%nat
      else if (nat_of_ascii lead =? 195)%nat then
        Text.in_range 128 191 c && negb (n =? 151)%nat && negb (n =? 183)%nat
      else false
  | _ => false
  end.

(** The lowercase form of a character up to U+00FF. *)
Definition lower_character (character : string) : string :=
  match character with
  | String c EmptyString =>
      if Text.is_ascii c then String (Text.ascii_lower_char c) EmptyString
      else character
  | String lead (String c EmptyString) =>
      let n := nat_of_ascii c in
      if (nat_of_ascii lead =? 195)%nat && Text.in_range 128 158 c && negb (n =? 151)%nat
      then String lead (String (ascii_of_nat (n + 32)) EmptyString)
      else character
  | _ => character
  end.

Definition lower (s : string) : string :=
  String.concat EmptyString (map lower_character (Text.chars s)).

Lemma digit_value_nonneg c d : digit_value c = Some d -> 0 <= d.
Proof.
  unfold digit_value, Text.is_digit, Text.in_range.
  destruct (Nat.leb_spec 48 (nat_of_ascii c)) as [Hlo|Hlo]; simpl; [|discriminate].
  destruct (nat_of_ascii c <=? 57)%nat; [|discriminate].
  intros Hd. inversion Hd. lia.
Qed.

Lemma digits_from_nonneg s : forall acc v,
  0 <= acc -> digits_from acc s = Some v -> 0 <= v.
Proof.
  induction s as [|c s IH]; intros acc v Hacc H; simpl in H.
  - inversion H. lia.
  - destruct (digit_value c) as [d|] eqn:E; [|discriminate].
    apply digit_value_nonneg in E. apply (IH (acc * 10 + d) v); [lia | exact H].
Qed.

Lemma read_digits_nonneg w s v rest : read_digits w s = Some (v, rest) -> 0 <= v.
Proof.
  unfold read_digits, obind, number.
  destruct (String.length (substring 0 w s) =? w)%nat; [|discriminate].
  destruct (substring 0 w s) as [|c d] eqn:E; [discriminate|].
  destruct (digits_from 0 (String c d)) as [v'|] eqn:Ev; [|discriminate].
  intros H. inversion H; subst. apply (digits_from_nonneg _ _ _ (Z.le_refl 0) Ev).
Qed.

Lemma read_upto2_nonneg s v rest : read_upto2 s = Some (v, rest) -> 0 <= v.
Proof.
  unfold read_upto2. destruct (read_digits 2 s) as [[v' r']|] eqn:E.
  - intros H. inversion H; subst. apply (read_digits_nonneg _ _ _ _ E).
  - apply read_digits_nonneg.
Qed.

(** Case analysis on every test of a parser that returned a value. *)
Ltac parsed H :=
  repeat match type of H with
         | context [match ?x with _ => _ end] => destruct x eqn:?; try discriminate H
         end.

Lemma read_clock_hour s h mi sec us rest :
  read_clock s = Some (h, mi, sec, us, rest) -> 0 <= h < 24.
Proof.
  unfold read_clock, obind. intros H.
  destruct (read_digits 2 s) as [[h' s1]|] eqn:Eh; [|discriminate].
  pose proof (read_digits_nonneg _ _ _ _ Eh) as Hh.
  destruct (Z.ltb_spec h' 24); [|discriminate]. cbn [negb] in H.
  parsed H; inversion H; subst; lia.
Qed.

Lemma ref_fromisoformat_hour s dt :
  parse_iso s = Some dt -> 0 <= hour dt < 24.
Proof.
  unfold parse_iso, obind. intros H.
  destruct (read_date s) as [[[[y m] d] rest]|]; [|discriminate].
  destruct rest as [|sep clock]; [inversion H; subst; simpl; lia|].
  destruct (read_clock clock) as [[[[[h mi] sec] us] rest']|] eqn:T; [|discriminate].
  apply read_clock_hour in T.
  parsed H; inversion H; subst; exact T.
Qed.

Lemma ref_strptime_hour s dt :
  parse_ymd_hms s = Some dt -> 0 <= hour dt < 24.
Proof.
  unfold parse_ymd_hms, obind. intros H.
  destruct (read_digits 4 s) as [[y s1]|]; [|discriminate].
  destruct (expect "-" s1) as [s2|]; [|discriminate].
  destruct (read_upto2 s2) as [[m s3]|]; [|discriminate].
  destruct (expect "-" s3) as [s4|]; [|discriminate].
  destruct (read_upto2 s4) as [[d s5]|]; [|discriminate].
  destruct s5 as [|c rest]; [discriminate|].
  destruct (is_blank c); [|discriminate].
  destruct (read_upto2 (skip_blanks rest)) as [[h s6]|] eqn:Eh; [|discriminate].
  apply read_upto2_nonneg in Eh.
  destruct (expect ":" s6) as [s7|]; [|discriminate].
  destruct (read_upto2 s7) as [[mi s8]|]; [|discriminate].
  destruct (expect ":" s8) as [s9|]; [|discriminate].
  destruct (read_upto2 s9) as [[sec s10]|]; [|discriminate].
  destruct s10; [|discriminate].
  destruct (valid_date y m d && valid_clock h mi sec) eqn:E; [|discriminate].
  inversion H; subst. cbn [hour]. unfold valid_clock in E.
  repeat rewrite andb_true_iff in E. lia.
Qed.

Lemma ref_value_counts_nodup l : NoDup (map fst (first_seen_counts l)).
Proof.
  unfold first_seen_counts.
  apply (Permutation_NoDup (l := map fst (Counter Z.eqb l))).
  - apply Permutation_map, Permutation_sym, sort_desc_perm.
  - apply (Counter_spec Z.eqb Z.eqb_spec Z.eq_dec l).
Qed.

Lemma ref_value_counts_count l h c :
  In (h, c) (first_seen_counts l) <-> (c = count_occ Z.eq_dec l h /\ (0 < c)%nat).
Proof.
  unfold first_seen_counts.
  rewrite <- (proj2 (Counter_spec Z.eqb Z.eqb_spec Z.eq_dec l) h c).
  split; apply Permutation_in;
    [apply sort_desc_perm | apply Permutation_sym, sort_desc_perm].
Qed.

Lemma ref_value_counts_sorted l :
  StronglySorted (fun a b => (snd b <= snd a)%nat) (first_seen_counts l).
Proof. apply sort_desc_sorted. Qed.

Lemma ascii_not_continuation c :
  Text.is_ascii c = true -> Text.is_continuation c = false.
Proof.
  unfold Text.is_ascii, Text.is_continuation, Text.in_range. cbv zeta.
  rewrite andb_true_iff, andb_false_iff, !Nat.leb_le, !Nat.leb_gt. lia.
Qed.

(** ASCII text has one character per byte. *)
Lemma split_chars_ascii s : forall cur,
  Text.all_bytes Text.is_ascii s = true ->
  Text.split_chars cur s
  = Text.flush_char cur
    ++ map (fun c => String c EmptyString) (list_ascii_of_string s).
Proof.
  induction s as [|c s IH]; intros cur Hall; cbn [Text.split_chars].
  - cbn. now rewrite app_nil_r.
  - cbn [Text.all_bytes] in Hall. apply andb_true_iff in Hall.
    destruct Hall as [Hc Hs].
    rewrite (ascii_not_continuation c Hc), (IH _ Hs). reflexivity.
Qed.

Lemma ref_lower_ascii s :
  Text.all_bytes Text.is_ascii s = true -> lower s = Text.ascii_lower s.
Proof.
  intros Hall. unfold lower, Text.chars. rewrite (split_chars_ascii s _ Hall).
  cbn [Text.flush_char app].
  induction s as [|c s IH]; [reflexivity|].
  cbn [Text.all_bytes] in Hall. apply andb_true_iff in Hall.
  destruct Hall as [Hc Hs].
  cbn [list_ascii_of_string map Text.ascii_lower lower_character]. rewrite Hc.
  specialize (IH Hs).
  destruct (map lower_character
              (map (fun c0 => String c0 EmptyString) (list_ascii_of_string s)))
    as [|x xs] eqn:E.
  - cbn [String.concat] in *. rewrite <- IH. reflexivity.
  - cbn [String.concat]. rewrite <- IH. reflexivity.
Qed.

Lemma ref_word_ascii c :
  Text.is_ascii c = true -> is_word (String c EmptyString) = Text.ascii_word c.
Proof. intros Hc. cbn [is_word]. now rewrite Hc. Qed.

#[export] Instance libraries : Libraries := {|
  fromisoformat := parse_iso;
  strptime := parse_ymd_hms;
  value_counts := first_seen_counts;
  str_lower := lower;
  word_char := is_word;
  fromisoformat_hour := ref_fromisoformat_hour;
  strptime_hour := ref_strptime_hour;
  value_counts_nodup := ref_value_counts_nodup;
  value_counts_count := ref_value_counts_count;
  value_counts_sorted := ref_value_counts_sorted;
  str_lower_ascii := ref_lower_ascii;
  word_char_ascii := ref_word_ascii
|}.

End Reference.

(* ================================================================= *)
(** ** Facts about rounding to a double *)

Module FloatFacts.
Import Float.

Lemma pow2_pos x : 0 <= x -> 0 < 2 ^ x.
Proof. intros. apply Z.pow_pos_nonneg; lia. Qed.

(** [ilog2 a b] is the integer part of the binary logarithm of [a / b]. *)
Lemma ilog2_spec a b :
  0 < a -> 0 < b ->
  let l := ilog2 a b in
  b * 2 ^ Z.max 0 l <= a * 2 ^ Z.max 0 (- l) < 2 * (b * 2 ^ Z.max 0 l).
Proof.
  intros Ha Hb. unfold ilog2.
  destruct (Z.log2_spec a Ha) as [Ha1 Ha2].
  destruct (Z.log2_spec b Hb) as [Hb1 Hb2].
  pose proof (Z.log2_nonneg a) as Hla. pose proof (Z.log2_nonneg b) as Hlb.
  set (la := Z.log2 a) in *. set (lb := Z.log2 b) in *.
  rewrite <- Z.add_1_r in Ha2, Hb2.
  rewrite Z.pow_add_r in Ha2, Hb2 by lia. change (2 ^ 1) with 2 in *.
  destruct (Z_le_gt_dec 0 (la - lb)) as [Hl|Hl].
  - (* la = lb + l with l >= 0 *)
    assert (Hla' : 2 ^ la = 2 ^ lb * 2 ^ (la - lb)).
    { rewrite <- Z.pow_add_r by lia. f_equal. lia. }
    pose proof (pow2_pos lb Hlb) as HB. pose proof (pow2_pos (la - lb) Hl) as HP.
    replace (Z.max 0 (la - lb)) with (la - lb) by lia.
    replace (Z.max 0 (- (la - lb))) with 0 by lia.
    rewrite Hla' in Ha1, Ha2. clear Hla'.
    destruct (Z.eq_dec la lb) as [Heq|Hne].
    + replace (la - lb) with 0 in * by lia. rewrite Z.pow_0_r in *.
      destruct (Z.leb_spec (b * 1) (a * 1)) as [Hge|Hlt]; cbv zeta.
      * replace (Z.max 0 0) with 0 by lia. replace (Z.max 0 (- 0)) with 0 by lia.
        rewrite Z.pow_0_r. lia.
      * replace (Z.max 0 (0 - 1)) with 0 by lia.
        replace (Z.max 0 (- (0 - 1))) with 1 by lia.
        rewrite Z.pow_0_r. change (2 ^ 1) with 2. lia.
    + assert (Hp : 2 ^ (la - lb) = 2 * 2 ^ (la - lb - 1)).
      { replace (la - lb) with (1 + (la - lb - 1)) at 1 by lia.
        rewrite Z.pow_add_r by lia. reflexivity. }
      pose proof (pow2_pos (la - lb - 1) ltac:(lia)) as HP'.
      set (B := 2 ^ lb) in *. set (P := 2 ^ (la - lb)) in *.
      set (P' := 2 ^ (la - lb - 1)) in *.
      assert (H1 : B * P <= b * P) by (apply Z.mul_le_mono_nonneg_r; lia).
      assert (H2 : b * P' < 2 * B * P').
      { apply Z.mul_lt_mono_pos_r; lia. }
      destruct (Z.leb_spec (b * P) (a * 2 ^ 0)) as [Hge|Hlt]; cbv zeta.
      * replace (Z.max 0 (la - lb)) with (la - lb) by lia.
        replace (Z.max 0 (- (la - lb))) with 0 by lia.
        fold P. rewrite Z.pow_0_r in *. lia.
      * replace (Z.max 0 (la - lb - 1)) with (la - lb - 1) by lia.
        replace (Z.max 0 (- (la - lb - 1))) with 0 by lia.
        fold P'. rewrite Z.pow_0_r in *. nia.
  - (* lb = la + k with k > 0 *)
    assert (Hlb' : 2 ^ lb = 2 ^ la * 2 ^ (lb - la)).
    { rewrite <- Z.pow_add_r by lia. f_equal. lia. }
    pose proof (pow2_pos la Hla) as HA.
    pose proof (pow2_pos (lb - la) ltac:(lia)) as HK.
    replace (Z.max 0 (la - lb)) with 0 by lia.
    replace (Z.max 0 (- (la - lb))) with (lb - la) by lia.
    rewrite Hlb' in Hb1, Hb2. clear Hlb'.
    set (A := 2 ^ la) in *. set (K := 2 ^ (lb - la)) in *.
    assert (H1 : A * K <= a * K) by (apply Z.mul_le_mono_nonneg_r; lia).
    assert (H2 : a * K < 2 * A * K).
    { apply Z.mul_lt_mono_pos_r; lia. }
    rewrite Z.pow_0_r.
    destruct (Z.leb_spec (b * 1) (a * K)) as [Hge|Hlt]; cbv zeta.
    + replace (Z.max 0 (la - lb)) with 0 by lia.
      replace (Z.max 0 (- (la - lb))) with (lb - la) by lia.
      fold K. rewrite Z.pow_0_r. lia.
    + replace (Z.max 0 (la - lb - 1)) with 0 by lia.
      replace (Z.max 0 (- (la - lb - 1))) with (1 + (lb - la)) by lia.
      rewrite Z.pow_0_r, Z.pow_add_r by lia. change (2 ^ 1) with 2. fold K. lia.
Qed.

(** The scaled quotient lies in [[2^52, 2^53)]. *)
Lemma scaled_spec a b :
  0 < a -> 0 < b ->
  let e := ilog2 a b - 52 in
  let N := a * 2 ^ Z.max 0 (- e) in
  let D := b * 2 ^ Z.max 0 e in
  0 < D /\ 2 ^ 52 * D <= N < 2 ^ 53 * D.
Proof.
  intros Ha Hb. pose proof (ilog2_spec a b Ha Hb) as Hl. cbv zeta in Hl.
  set (l := ilog2 a b) in *. cbv zeta.
  destruct (Z_le_gt_dec 52 l) as [Hbig|Hsmall].
  - replace (Z.max 0 (- (l - 52))) with 0 by lia.
    replace (Z.max 0 (l - 52)) with (l - 52) by lia.
    replace (Z.max 0 l) with (52 + (l - 52)) in Hl by lia.
    replace (Z.max 0 (- l)) with 0 in Hl by lia.
    rewrite Z.pow_add_r in Hl by lia. rewrite Z.pow_0_r in *.
    pose proof (pow2_pos (l - 52) ltac:(lia)) as HP.
    set (P := 2 ^ (l - 52)) in *.
    assert (0 < b * P) by (apply Z.mul_pos_pos; lia).
    change (2 ^ 53) with (2 * 2 ^ 52). lia.
  - replace (Z.max 0 (l - 52)) with 0 by lia.
    replace (Z.max 0 (- (l - 52))) with (52 - l) by lia.
    rewrite Z.pow_0_r. split; [lia|].
    destruct (Z_le_gt_dec 0 l) as [Hpos|Hneg].
    + replace (Z.max 0 l) with l in Hl by lia.
      replace (Z.max 0 (- l)) with 0 in Hl by lia. rewrite Z.pow_0_r in Hl.
      assert (Hp : 2 ^ 52 = 2 ^ l * 2 ^ (52 - l)).
      { rewrite <- Z.pow_add_r by lia. f_equal. lia. }
      change (2 ^ 53) with (2 * 2 ^ 52). rewrite Hp.
      pose proof (pow2_pos (52 - l) ltac:(lia)) as HP.
      set (P := 2 ^ (52 - l)) in *. set (Lp := 2 ^ l) in *.
      assert (H1 : b * Lp * P <= a * 1 * P) by (apply Z.mul_le_mono_nonneg_r; lia).
      assert (H2 : a * 1 * P < 2 * (b * Lp) * P) by (apply Z.mul_lt_mono_pos_r; lia).
      lia.
    + replace (Z.max 0 l) with 0 in Hl by lia.
      replace (Z.max 0 (- l)) with (- l) in Hl by lia. rewrite Z.pow_0_r in Hl.
      replace (52 - l) with (- l + 52) by lia. rewrite Z.pow_add_r by lia.
      change (2 ^ 53) with (2 * 2 ^ 52).
      set (K := 2 ^ (- l)) in *.
      assert (H1 : b * 1 * 2 ^ 52 <= a * K * 2 ^ 52)
        by (apply Z.mul_le_mono_nonneg_r; lia).
      assert (H2 : a * K * 2 ^ 52 < 2 * (b * 1) * 2 ^ 52)
        by (apply Z.mul_lt_mono_pos_r; lia).
      lia.
Qed.

(** Rounding a non-negative quotient to the nearest integer, ties to the
    even one. *)
Lemma nearest_even_spec n d :
  0 <= n -> 0 < d ->
  let m := nearest_even n d in
  n / d <= m <= n / d + 1 /\ (2 * m - 1) * d <= 2 * n <= (2 * m + 1) * d.
Proof.
  intros Hn Hd. unfold nearest_even.
  pose proof (Z.div_mod n d ltac:(lia)) as Hdm.
  pose proof (Z.mod_pos_bound n d Hd) as Hr.
  set (q := n / d) in *. set (r := n mod d) in *. cbv zeta.
  destruct (Z.ltb_spec (2 * r) d); [split; nia|].
  destruct (Z.ltb_spec d (2 * r)); [split; nia|].
  destruct (Z.even q); split; nia.
Qed.

Lemma pow2_nonpos e :
  e <= 0 -> pow2 e == 1 # Z.to_pos (2 ^ (- e)).
Proof.
  intros He. unfold pow2. destruct (Z.leb_spec 0 e); [|reflexivity].
  replace e with 0 by lia. reflexivity.
Qed.

(** Below [2^53] the rounded quotient stays between the two integers that
    enclose the exact quotient. *)
Lemma round_pos_small a b :
  0 < a < 2 ^ 53 -> 0 < b ->
  exists m g,
    0 < g /\ round_pos a b == m # Z.to_pos g /\
    (a / b) * g <= m < (a / b + 1) * g.
Proof.
  intros Ha Hb. unfold round_pos.
  pose proof (scaled_spec a b ltac:(lia) Hb) as Hs. cbv zeta in Hs.
  set (e := ilog2 a b - 52) in *.
  assert (He : e <= 0).
  { destruct (Z_le_gt_dec e 0) as [|Hpos]; [assumption | exfalso].
    replace (Z.max 0 (- e)) with 0 in Hs by lia.
    replace (Z.max 0 e) with (1 + (e - 1)) in Hs by lia.
    rewrite Z.pow_add_r, Z.pow_0_r in Hs by lia. change (2 ^ 1) with 2 in Hs.
    pose proof (pow2_pos (e - 1) ltac:(lia)) as HP. set (P := 2 ^ (e - 1)) in *.
    change (2 ^ 53) with (2 * 2 ^ 52) in Ha. nia. }
  replace (Z.max 0 e) with 0 in * by lia.
  replace (Z.max 0 (- e)) with (- e) in * by lia.
  rewrite Z.pow_0_r, Z.mul_1_r in *.
  pose proof (pow2_pos (- e) ltac:(lia)) as Hg. set (g := 2 ^ (- e)) in *.
  destruct Hs as [_ [Hlo Hhi]].
  pose proof (nearest_even_spec (a * g) b ltac:(nia) Hb) as [[Hm1 Hm2] [Hn1 Hn2]].
  set (m := nearest_even (a * g) b) in *.
  exists m, g. split; [exact Hg|]. split.
  { rewrite Qred_correct, (pow2_nonpos e He). fold g.
    unfold Qeq, Qmult, inject_Z. cbn [Qnum Qden]. lia. }
  pose proof (Z.div_mod a b ltac:(lia)) as Hdm.
  pose proof (Z.mod_pos_bound a b Hb) as Hr.
  set (k := a / b) in *. set (r := a mod b) in *.
  assert (Hbg : b < 2 * g).
  { change (2 ^ 53) with (2 * 2 ^ 52) in Ha. nia. }
  split.
  - (* k g <= (a g) / b <= m *)
    assert (k * g <= a * g / b); [|lia].
    apply Z.div_le_lower_bound; [lia|]. nia.
  - (* (2m - 1) b <= 2 a g, a <= (k+1) b - 1 and b < 2 g *)
    assert (H2 : (2 * m) * b < 2 * ((k + 1) * g) * b); [nia|].
    apply Z.mul_lt_mono_pos_r in H2; lia.
Qed.

Lemma int_of_between q k :
  0 <= k -> (inject_Z k <= q)%Q -> (q < inject_Z (k + 1))%Q -> int_of q = k.
Proof.
  destruct q as [n d]. unfold Qle, Qlt, int_of, inject_Z. cbn [Qnum Qden].
  intros Hk Hlo Hhi. rewrite Z.quot_div_nonneg by lia.
  symmetry. apply (Z.div_unique_pos n (Zpos d) k (n - k * Zpos d)); lia.
Qed.

Lemma int_of_opp q : int_of (- q) = - int_of q.
Proof. destruct q as [n d]. unfold int_of. cbn. apply Z.quot_opp_l. lia. Qed.

Lemma round_pos_bracket a b :
  0 < a < 2 ^ 53 -> 0 < b ->
  (inject_Z (a / b) <= round_pos a b)%Q /\ (round_pos a b < inject_Z (a / b + 1))%Q.
Proof.
  intros Ha Hb. destruct (round_pos_small a b Ha Hb) as (m & g & Hg & Heq & Hlo & Hhi).
  rewrite Heq. unfold Qle, Qlt, inject_Z. cbn [Qnum Qden].
  rewrite Z2Pos.id by exact Hg. lia.
Qed.

(** [int(a / b)] agrees with the truncated exact quotient as long as the
    dividend is below [2^53] in absolute value. *)
Theorem int_of_round a b :
  0 < b -> Z.abs a < 2 ^ 53 ->
  int_of (round (inject_Z a / inject_Z b)) = Z.quot a b.
Proof.
  intros Hb Ha. destruct b as [|p|p]; try lia.
  unfold round. cbn [Qdiv Qinv Qmult inject_Z Qnum Qden]. rewrite Z.mul_1_r.
  assert (Hpos : forall x, 0 < Zpos x < 2 ^ 53 ->
                           int_of (round_pos (Zpos x) (Zpos p)) = Zpos x / Zpos p).
  { intros x Hx. destruct (round_pos_bracket (Zpos x) (Zpos p) Hx ltac:(lia)).
    apply int_of_between; try assumption. apply Z.div_pos; lia. }
  destruct a as [|x|x].
  - reflexivity.
  - cbn [Pos.mul]. rewrite Hpos by lia. symmetry. apply Z.quot_div_nonneg; lia.
  - cbn [Pos.mul]. rewrite int_of_opp, Hpos by lia.
    change (Zneg x) with (- Zpos x). rewrite Z.quot_opp_l by lia.
    f_equal. symmetry. apply Z.quot_div_nonneg; lia.
Qed.

(** An integer is above the rounded mean exactly when it is above the
    exact mean, as long as the sum is non-negative and below [2^53]. *)
Theorem above_round a b v :
  0 < b -> 0 <= a < 2 ^ 53 ->
  (round (inject_Z a / inject_Z b) < inject_Z v)%Q <-> a < v * b.
Proof.
  intros Hb Ha. destruct b as [|p|p]; try lia.
  unfold round. cbn [Qdiv Qinv Qmult inject_Z Qnum Qden]. rewrite Z.mul_1_r.
  destruct a as [|x|x]; try lia.
  - unfold Qlt. cbn. lia.
  - cbn [Pos.mul].
    destruct (round_pos_small (Zpos x) (Zpos p) ltac:(lia) ltac:(lia))
      as (m & g & Hg & Heq & Hlo & Hhi).
    rewrite Heq. unfold Qlt, inject_Z. cbn [Qnum Qden]. rewrite Z2Pos.id by exact Hg.
    pose proof (Z.div_mod (Zpos x) (Zpos p) ltac:(lia)) as Hdm.
    pose proof (Z.mod_pos_bound (Zpos x) (Zpos p) ltac:(lia)) as Hr.
    set (k := Zpos x / Zpos p) in *. set (r := Zpos x mod Zpos p) in *.
    split; intros H.
    + assert (Hkv : k * g < v * g) by lia.
      apply Z.mul_lt_mono_pos_r in Hkv; [|exact Hg]. nia.
    + assert (Hkv : k < v) by nia.
      assert ((k + 1) * g <= v * g) by (apply Z.mul_le_mono_nonneg_r; lia). lia.
Qed.

Lemma pow2_split e :
  pow2 e == 2 ^ Z.max 0 e # Z.to_pos (2 ^ Z.max 0 (- e)).
Proof.
  unfold pow2. destruct (Z.leb_spec 0 e).
  - replace (Z.max 0 e) with e by lia. replace (Z.max 0 (- e)) with 0 by lia.
    reflexivity.
  - replace (Z.max 0 e) with 0 by lia. replace (Z.max 0 (- e)) with (- e) by lia.
    reflexivity.
Qed.

(** The rounded value has a significand of 53 bits and is within half a
    unit in the last place of the exact value: a relative error of at most
    [2^-53]. *)
Theorem round_pos_accuracy a b :
  0 < a -> 0 < b ->
  (exists m, 2 ^ 52 <= m <= 2 ^ 53 /\
             round_pos a b == inject_Z m * pow2 (ilog2 a b - 52)) /\
  ((a # Z.to_pos b) * (2 ^ 53 - 1 # 2 ^ 53) <= round_pos a b)%Q /\
  (round_pos a b <= (a # Z.to_pos b) * (2 ^ 53 + 1 # 2 ^ 53))%Q.
Proof.
  intros Ha Hb. unfold round_pos.
  pose proof (scaled_spec a b Ha Hb) as Hs. cbv zeta in Hs.
  set (e := ilog2 a b - 52) in *.
  pose proof (pow2_pos (Z.max 0 e) ltac:(lia)) as HU.
  pose proof (pow2_pos (Z.max 0 (- e)) ltac:(lia)) as HV.
  set (U := 2 ^ Z.max 0 e) in *. set (V := 2 ^ Z.max 0 (- e)) in *.
  destruct Hs as [HD [Hlo Hhi]].
  pose proof (nearest_even_spec (a * V) (b * U) ltac:(nia) HD) as [[Hm1 Hm2] [Hn1 Hn2]].
  set (m := nearest_even (a * V) (b * U)) in *.
  assert (Hq1 : 2 ^ 52 <= a * V / (b * U)) by (apply Z.div_le_lower_bound; lia).
  assert (Hq2 : a * V / (b * U) < 2 ^ 53) by (apply Z.div_lt_upper_bound; lia).
  split; [exists m; split; [lia | apply Qred_correct]|].
  rewrite Qred_correct, (pow2_split e). fold U V.
  unfold Qle, Qmult, inject_Z. cbn [Qnum Qden].
  rewrite !Pos2Z.inj_mul, !Z2Pos.id by lia.
  change (Z.pos (2 ^ 53)) with (2 ^ 53). change (2 ^ 53) with (2 * 2 ^ 52) in *.
  split; nia.
Qed.

End FloatFacts.

(* ================================================================= *)
(** ** Facts about the basic operations *)

Lemma sum_from (l : list Z) : forall a, fold_left Z.add l a = a + sum l.
Proof.
  unfold sum. induction l as [|x l IH]; intros a; simpl; [lia|].
  rewrite IH, (IH x). lia.
Qed.

Lemma sum_cons x l : sum (x :: l) = x + sum l.
Proof. unfold sum at 1. simpl. apply sum_from. Qed.

Lemma len_pos {A : Type} (x : A) (l : list A) : 0 < len (x :: l).
Proof. unfold len. simpl. lia. Qed.

Lemma truediv_ok a b :
  b <> 0 -> truediv a b = Ok (Float.round (inject_Z a / inject_Z b)).
Proof. unfold truediv. intros H. destruct (Z.eqb_spec b 0); [contradiction | reflexivity]. Qed.

Lemma float_zero (b : Q) : Float.round (inject_Z 0 / b) = 0%Q.
Proof. reflexivity. Qed.

Lemma Qlt_bool_iff x y : Qlt_bool x y = true <-> (x < y)%Q.
Proof.
  unfold Qlt_bool. rewrite negb_true_iff. split.
  - intros H. apply Qnot_le_lt. intros Hle. apply Qle_bool_iff in Hle. congruence.
  - intros H. destruct (Qle_bool y x) eqn:E; [|reflexivity].
    apply Qle_bool_iff in E. exfalso. apply (Qlt_not_le _ _ H E).
Qed.

Lemma mean_lt_iff a b v :
  0 < b -> ((inject_Z a / inject_Z b < inject_Z v)%Q <-> a < v * b).
Proof.
  intros Hb. destruct b as [|p|p]; try lia.
  unfold Qlt, Qdiv, Qmult, Qinv, inject_Z. simpl. lia.
Qed.

(** The largest and the smallest element. *)
Lemma fold_max_spec rest : forall x,
  let m := fold_left (fun m y => if m <? y then y else m) rest x in
  In m (x :: rest) /\ Forall (fun y => y <= m) (x :: rest).
Proof.
  induction rest as [|y rest IH]; intros x; simpl.
  - split; [auto | repeat constructor; lia].
  - destruct (IH (if x <? y then y else x)) as [Hin Hall].
    inversion Hall as [|? ? Hhd Htl]; subst.
    split.
    + destruct Hin as [Hin|Hin]; [|auto].
      destruct (x <? y); rewrite <- Hin; auto.
    + destruct (Z.ltb_spec x y); repeat constructor; try assumption; lia.
Qed.

Lemma fold_min_spec rest : forall x,
  let m := fold_left (fun m y => if y <? m then y else m) rest x in
  In m (x :: rest) /\ Forall (fun y => m <= y) (x :: rest).
Proof.
  induction rest as [|y rest IH]; intros x; simpl.
  - split; [auto | repeat constructor; lia].
  - destruct (IH (if y <? x then y else x)) as [Hin Hall].
    inversion Hall as [|? ? Hhd Htl]; subst.
    split.
    + destruct Hin as [Hin|Hin]; [|auto].
      destruct (y <? x); rewrite <- Hin; auto.
    + destruct (Z.ltb_spec y x); repeat constructor; try assumption; lia.
Qed.

(* ================================================================= *)
(** ** Facts about dictionaries *)

Section DictFacts.
Context {V : Type}.
Implicit Types (d : dict V) (k : string) (v : V).

Lemma dict_get_set_eq k v d : dict_get k (dict_set k v d) = Some v.
Proof.
  induction d as [|[k' v'] d IH]; simpl.
  - now rewrite String.eqb_refl.
  - destruct (String.eqb k k') eqn:E; simpl; [now rewrite String.eqb_refl|].
    now rewrite E.
Qed.

Lemma dict_get_set_neq k k' v d :
  k <> k' -> dict_get k (dict_set k' v d) = dict_get k d.
Proof.
  intros Hne. induction d as [|[k0 v0] d IH]; simpl.
  - destruct (String.eqb_spec k k'); [contradiction | reflexivity].
  - destruct (String.eqb_spec k' k0) as [->|Hk]; simpl.
    + destruct (String.eqb_spec k k0); [contradiction | reflexivity].
    + destruct (String.eqb k k0); [reflexivity | exact IH].
Qed.

Lemma has_key_set k k' v d :
  has_key k (dict_set k' v d) <-> k = k' \/ has_key k d.
Proof.
  unfold has_key, keys. induction d as [|[k0 v0] d IH]; simpl.
  - intuition.
  - destruct (String.eqb_spec k' k0) as [->|Hk]; simpl; [intuition|].
    rewrite IH. intuition.
Qed.

Lemma has_key_get k d : has_key k d <-> exists v, dict_get k d = Some v.
Proof.
  unfold has_key, keys. induction d as [|[k0 v0] d IH]; simpl.
  - split; [contradiction | intros [v H]; discriminate].
  - destruct (String.eqb_spec k k0) as [->|Hk].
    + split; [eauto | auto].
    + rewrite <- IH. intuition congruence.
Qed.

Lemma dict_get_In k v d : dict_get k d = Some v -> In (k, v) d.
Proof.
  induction d as [|[k0 v0] d IH]; simpl; [discriminate|].
  destruct (String.eqb_spec k k0) as [->|Hk]; [intros [= ->]; auto | auto].
Qed.

Lemma In_dict_get k v d : NoDup (keys d) -> In (k, v) d -> dict_get k d = Some v.
Proof.
  unfold keys. induction d as [|[k0 v0] d IH]; simpl; [contradiction|].
  intros Hnd [Heq|Hin]; inversion Hnd as [|? ? Hnotin Hnd']; subst.
  - inversion Heq; subst. now rewrite String.eqb_refl.
  - destruct (String.eqb_spec k k0) as [->|Hk]; [|auto].
    exfalso. apply Hnotin. apply in_map_iff. exists (k0, v). auto.
Qed.

End DictFacts.

(* ================================================================= *)
(** ** The loop over the platforms of the dataset *)

Section PlatformLoop.
Context {V : Type}.
Variable body : string -> list item -> result (option V).

(** The common shape of the per-platform loops: a platform without records
    is skipped; otherwise the body computes the entry to store, if any. *)
Definition platform_step (acc : dict V) (entry : string * list item)
  : result (dict V) :=
  let (platform_name, items) := entry in
  match items with
  | [] => Ok acc
  | _ :: _ =>
      o <- body platform_name items ;;
      Ok (match o with Some v => dict_set platform_name v acc | None => acc end)
  end.

Lemma platform_loop_keys data : forall acc r P,
  for_each platform_step data acc = Ok r ->
  has_key P r ->
  has_key P acc \/ exists items, In (P, items) data /\ items <> [].
Proof.
  induction data as [|[Q items] data IH]; intros acc r P Hrun Hkey; simpl in Hrun.
  - inversion Hrun; subst. auto.
  - destruct items as [|it items]; simpl in Hrun.
    + destruct (IH _ _ _ Hrun Hkey) as [H|[its [Hin Hne]]]; [auto|].
      right. exists its. simpl. auto.
    + destruct (body Q (it :: items)) as [o|e] eqn:Hb; simpl in Hrun; [|discriminate].
      destruct (IH _ _ _ Hrun Hkey) as [H|[its [Hin Hne]]].
      * destruct o as [v|]; [|auto].
        apply has_key_set in H. destruct H as [->|H]; [|auto].
        right. exists (it :: items). simpl. split; [auto | discriminate].
      * right. exists its. simpl. auto.
Qed.

Lemma platform_loop_other data : forall acc r P,
  for_each platform_step data acc = Ok r ->
  ~ In P (keys data) ->
  dict_get P r = dict_get P acc.
Proof.
  induction data as [|[Q items] data IH]; intros acc r P Hrun Hnot; simpl in Hrun.
  - inversion Hrun; subst. reflexivity.
  - simpl in Hnot.
    destruct items as [|it items]; simpl in Hrun.
    + apply (IH _ _ _ Hrun). tauto.
    + destruct (body Q (it :: items)) as [o|e] eqn:Hb; simpl in Hrun; [|discriminate].
      rewrite (IH _ _ _ Hrun) by tauto.
      destruct o as [v|]; [|reflexivity].
      apply dict_get_set_neq. intros ->. tauto.
Qed.

Lemma platform_loop_entry data : forall acc r P items,
  NoDup (keys data) ->
  for_each platform_step data acc = Ok r ->
  In (P, items) data -> items <> [] ->
  exists o, body P items = Ok o /\
            dict_get P r = match o with Some v => Some v | None => dict_get P acc end.
Proof.
  induction data as [|[Q its] data IH]; intros acc r P items Hnd Hrun Hin Hne;
    simpl in *; [contradiction|].
  inversion Hnd as [|? ? Hnotin Hnd']; subst.
  destruct Hin as [Heq|Hin].
  - inversion Heq; subst.
    destruct items as [|it items]; [contradiction|]. simpl in Hrun.
    destruct (body P (it :: items)) as [o|e] eqn:Hb; simpl in Hrun; [|discriminate].
    exists o. split; [reflexivity|].
    rewrite (platform_loop_other _ _ _ _ Hrun Hnotin).
    destruct o as [v|]; [apply dict_get_set_eq | reflexivity].
  - assert (Hneq : P <> Q).
    { intros ->. apply Hnotin. apply in_map_iff. exists (Q, items). auto. }
    destruct its as [|it its]; simpl in Hrun.
    + apply (IH _ _ _ _ Hnd' Hrun Hin Hne).
    + destruct (body Q (it :: its)) as [o|e] eqn:Hb; simpl in Hrun; [|discriminate].
      destruct (IH _ _ _ _ Hnd' Hrun Hin Hne) as [o' [Hb' Hget]].
      exists o'. split; [assumption|]. rewrite Hget.
      destruct o' as [v'|]; [reflexivity|].
      destruct o as [v|]; [|reflexivity].
      now apply dict_get_set_neq.
Qed.

(** The loop completes when the body completes on every platform that has
    records, and raises otherwise. *)
Lemma platform_loop_total data : forall acc,
  (forall P items, In (P, items) data -> items <> [] ->
                   exists o, body P items = Ok o) ->
  exists r, for_each platform_step data acc = Ok r.
Proof.
  induction data as [|[Q its] data IH]; intros acc Hall; simpl.
  - eauto.
  - destruct its as [|it its]; simpl.
    + apply IH. intros P items Hin. apply Hall. simpl. auto.
    + destruct (Hall Q (it :: its)) as [o Ho]; [simpl; auto | discriminate |].
      rewrite Ho. simpl. apply IH. intros P items Hin. apply Hall. simpl. auto.
Qed.

Lemma platform_loop_raises data : forall acc e,
  for_each platform_step data acc = Raise e ->
  exists P items, In (P, items) data /\ items <> [] /\ body P items = Raise e.
Proof.
  induction data as [|[Q its] data IH]; intros acc e Hrun; simpl in Hrun;
    [discriminate|].
  destruct its as [|it its]; simpl in Hrun.
  - destruct (IH _ _ Hrun) as (P & items & Hin & Hne & Hb).
    exists P, items. simpl. auto.
  - destruct (body Q (it :: its)) as [o|e'] eqn:Hb; simpl in Hrun.
    + destruct (IH _ _ Hrun) as (P & items & Hin & Hne & Hb').
      exists P, items. simpl. auto.
    + inversion Hrun; subst. exists Q, (it :: its). simpl.
      repeat split; [auto | discriminate | assumption].
Qed.

End PlatformLoop.

Section Stages.
Context {L : Libraries}.

(** *** The bodies of the three loops that may raise *)

Definition engagement_body (platform_name : string) (items : list item)
  : result (option engagement_entry) :=
  if String.eqb platform_name "youtube" then
    let vs := map (metric views) items in
    let ls := map (metric likes) items in
    avg_v <- truediv (sum vs) (len vs) ;;
    avg_l <- truediv (sum ls) (len ls) ;;
    ratio <- (if 0 <? sum vs then truediv (sum ls) (sum vs) else Ok (inject_Z 0)) ;;
    mx <- py_max vs ;;
    mn <- py_min vs ;;
    Ok (Some (VideoStats (int_of avg_v) (int_of avg_l) ratio mx mn (List.length items)))
  else if String.eqb platform_name "reddit" then
    let us := map (metric upvotes) items in
    let cs := map (metric comments) items in
    avg_u <- truediv (sum us) (len us) ;;
    avg_c <- truediv (sum cs) (len cs) ;;
    rate <- (if 0 <? sum us then truediv (sum cs) (sum us) else Ok (inject_Z 0)) ;;
    Ok (Some (ForumStats (int_of avg_u) (int_of avg_c) rate (List.length items)))
  else if String.eqb platform_name "google_news" then
    let lengths := map (fun it => Z.of_nat (Text.length (text title it))) items in
    avg_len <- truediv (sum lengths) (len items) ;;
    Ok (Some (OtherStats (List.length items) avg_len))
  else Ok None.

Definition keywords_body (platform_name : string) (items : list item)
  : result (option (dict keyword_stats)) :=
  stats <- with_averages (fold_left (keyword_step platform_name) items []) ;;
  Ok (Some stats).

Definition platforms_body (platform_name : string) (items : list item)
  : result (option platform_summary) :=
  range <- _get_date_range items ;;
  Ok (Some (mk_platform_summary (List.length items) range
              (_get_top_keywords items) (_get_engagement_trend items))).

(** Case analysis on every computation that is bound in the goal. *)
Ltac case_binds :=
  repeat (match goal with
          | |- context [bind ?c _] =>
              lazymatch c with bind _ _ => fail | _ => destruct c end
          end; simpl; try reflexivity).

Lemma engagement_step_shape acc entry :
  engagement_step acc entry = platform_step engagement_body acc entry.
Proof.
  destruct entry as [P items]. unfold engagement_step, platform_step, engagement_body.
  destruct items as [|it items]; [reflexivity|].
  destruct (String.eqb P "youtube"); [case_binds|].
  destruct (String.eqb P "reddit"); [case_binds|].
  destruct (String.eqb P "google_news"); [case_binds | reflexivity].
Qed.

Lemma keywords_step_shape acc entry :
  keywords_step acc entry = platform_step keywords_body acc entry.
Proof.
  destruct entry as [P items]. unfold keywords_step, platform_step, keywords_body.
  destruct items as [|it items]; [reflexivity | case_binds].
Qed.

Lemma platforms_step_shape acc entry :
  platforms_step acc entry = platform_step platforms_body acc entry.
Proof.
  destruct entry as [P items]. unfold platforms_step, platform_step, platforms_body.
  destruct items as [|it items]; [reflexivity | case_binds].
Qed.

Lemma for_each_ext {A S : Type} (f g : S -> A -> result S) l :
  (forall s a, f s a = g s a) -> forall s, for_each f l s = for_each g l s.
Proof.
  intros Hfg. induction l as [|a l IH]; intros s; simpl; [reflexivity|].
  rewrite Hfg. destruct (g s a); simpl; auto.
Qed.

Lemma engagement_loop data :
  _analyze_engagement data = for_each (platform_step engagement_body) data [].
Proof. apply for_each_ext, engagement_step_shape. Qed.

Lemma keywords_loop data :
  _analyze_keywords data = for_each (platform_step keywords_body) data [].
Proof. apply for_each_ext, keywords_step_shape. Qed.

Lemma platforms_loop data :
  _analyze_platforms data = for_each (platform_step platforms_body) data [].
Proof. apply for_each_ext, platforms_step_shape. Qed.

End Stages.

Section Totality.
Context {L : Libraries}.

(** *** Stages that never raise *)

Lemma len_nonzero {A : Type} (x : A) (l : list A) : len (x :: l) <> 0.
Proof. pose proof (len_pos x l). lia. Qed.

Lemma len_map {A B : Type} (f : A -> B) l : len (map f l) = len l.
Proof. unfold len. now rewrite length_map. Qed.

Lemma guarded_ratio_ok a b :
  exists q, (if 0 <? b then truediv a b else Ok (inject_Z 0)) = Ok q.
Proof.
  destruct (Z.ltb_spec 0 b); [|eauto].
  rewrite truediv_ok by lia. eauto.
Qed.

Lemma engagement_body_total P it items :
  exists o, engagement_body P (it :: items) = Ok o.
Proof.
  unfold engagement_body.
  destruct (String.eqb P "youtube").
  { rewrite !len_map, !truediv_ok by apply len_nonzero. cbn [bind].
    destruct (guarded_ratio_ok (sum (map (metric likes) (it :: items)))
                               (sum (map (metric views) (it :: items)))) as [q ->].
    cbn. eauto. }
  destruct (String.eqb P "reddit").
  { rewrite !len_map, !truediv_ok by apply len_nonzero. cbn [bind].
    destruct (guarded_ratio_ok (sum (map (metric comments) (it :: items)))
                               (sum (map (metric upvotes) (it :: items)))) as [q ->].
    cbn. eauto. }
  destruct (String.eqb P "google_news"); [|eauto].
  rewrite truediv_ok by apply len_nonzero. cbn. eauto.
Qed.

Lemma _analyze_engagement_total data :
  exists stats, _analyze_engagement data = Ok stats.
Proof.
  rewrite engagement_loop. apply platform_loop_total.
  intros P [|it items] _ Hne; [contradiction | apply engagement_body_total].
Qed.

Lemma with_average_total st : exists st', with_average st = Ok st'.
Proof.
  unfold with_average. destruct (Nat.ltb_spec 0 (count st)); [|eauto].
  rewrite truediv_ok by lia. cbn. eauto.
Qed.

Lemma with_averages_total stats : exists stats', with_averages stats = Ok stats'.
Proof.
  induction stats as [|[kw st] stats [r IH]]; simpl; [eauto|].
  destruct (with_average_total st) as [st' ->]. rewrite IH. cbn. eauto.
Qed.

Lemma _analyze_keywords_total data :
  exists kp, _analyze_keywords data = Ok kp.
Proof.
  rewrite keywords_loop. apply platform_loop_total.
  intros P items _ _. unfold keywords_body.
  destruct (with_averages_total (fold_left (keyword_step P) items [])) as [r ->].
  cbn. eauto.
Qed.

Lemma _analyze_viral_patterns_total data :
  exists patterns, _analyze_viral_patterns data = Ok patterns.
Proof.
  unfold _analyze_viral_patterns.
  destruct (match dict_get "youtube" data with Some items => items | None => [] end)
    as [|it items]; [eauto|].
  rewrite len_map, truediv_ok by apply len_nonzero. cbn [bind].
  destruct (viral_videos _ _); [eauto|].
  destruct (truthy _); [|eauto].
  destruct (Text.findall_words4 _); eauto.
Qed.

(** *** The one source of exceptions: dates of mixed kinds *)

(** All datetimes of the list are naive, or all are aware. *)
Definition same_kind (dates : list datetime) : bool :=
  match dates with
  | [] => true
  | d :: rest => forallb (fun x => Bool.eqb (aware x) (aware d)) rest
  end.

Lemma dt_lt_same a b :
  aware a = aware b -> dt_lt a b = Ok (instant a <? instant b).
Proof. unfold dt_lt. intros ->. now rewrite Bool.eqb_reflx. Qed.

Lemma dt_lt_mixed a b : aware a <> aware b -> dt_lt a b = Raise TypeError.
Proof.
  unfold dt_lt. intros H. destruct (Bool.eqb (aware a) (aware b)) eqn:E; [|reflexivity].
  apply Bool.eqb_prop in E. contradiction.
Qed.

Lemma min_from_ok rest : forall cur,
  forallb (fun x => Bool.eqb (aware x) (aware cur)) rest = true ->
  exists m, min_from cur rest = Ok m /\ In m (cur :: rest) /\
            Forall (fun d => instant m <= instant d) (cur :: rest).
Proof.
  induction rest as [|d rest IH]; intros cur Hall; simpl in *.
  - exists cur. repeat split; [auto | repeat constructor; lia].
  - apply andb_true_iff in Hall. destruct Hall as [Hd Hrest].
    apply Bool.eqb_prop in Hd. rewrite dt_lt_same by assumption. cbn [bind].
    destruct (IH (if instant d <? instant cur then d else cur)) as (m & Hm & Hin & Hle).
    { destruct (instant d <? instant cur); [rewrite Hd|]; exact Hrest. }
    exists m. split; [exact Hm|]. split.
    + destruct Hin as [Hin|Hin]; [|auto].
      destruct (instant d <? instant cur); subst; auto.
    + inversion Hle as [|? ? Hhd Htl]; subst.
      destruct (Z.ltb_spec (instant d) (instant cur));
        repeat constructor; try assumption; lia.
Qed.

Lemma max_from_ok rest : forall cur,
  forallb (fun x => Bool.eqb (aware x) (aware cur)) rest = true ->
  exists m, max_from cur rest = Ok m /\ In m (cur :: rest) /\
            Forall (fun d => instant d <= instant m) (cur :: rest).
Proof.
  induction rest as [|d rest IH]; intros cur Hall; simpl in *.
  - exists cur. repeat split; [auto | repeat constructor; lia].
  - apply andb_true_iff in Hall. destruct Hall as [Hd Hrest].
    apply Bool.eqb_prop in Hd. rewrite dt_lt_same by (symmetry; assumption).
    cbn [bind].
    destruct (IH (if instant cur <? instant d then d else cur)) as (m & Hm & Hin & Hle).
    { destruct (instant cur <? instant d); [rewrite Hd|]; exact Hrest. }
    exists m. split; [exact Hm|]. split.
    + destruct Hin as [Hin|Hin]; [|auto].
      destruct (instant cur <? instant d); subst; auto.
    + inversion Hle as [|? ? Hhd Htl]; subst.
      destruct (Z.ltb_spec (instant cur) (instant d));
        repeat constructor; try assumption; lia.
Qed.

Lemma min_from_mixed rest : forall cur,
  forallb (fun x => Bool.eqb (aware x) (aware cur)) rest = false ->
  min_from cur rest = Raise TypeError.
Proof.
  induction rest as [|d rest IH]; intros cur Hall; simpl in *; [discriminate|].
  destruct (Bool.eqb (aware d) (aware cur)) eqn:E.
  - apply Bool.eqb_prop in E. rewrite dt_lt_same by assumption. cbn [bind].
    apply IH. simpl in Hall.
    destruct (instant d <? instant cur); [rewrite E|]; exact Hall.
  - rewrite dt_lt_mixed; [reflexivity|].
    intros H. rewrite H, Bool.eqb_reflx in E. discriminate.
Qed.

Lemma _get_date_range_ok items :
  same_kind (parsed_dates items) = true ->
  exists range, _get_date_range items = Ok range.
Proof.
  unfold _get_date_range, same_kind.
  destruct (parsed_dates items) as [|d rest]; [eauto|]. intros H.
  destruct (min_from_ok rest d H) as (lo & -> & _).
  destruct (max_from_ok rest d H) as (hi & -> & _).
  cbn. eauto.
Qed.

Lemma _get_date_range_mixed items :
  same_kind (parsed_dates items) = false ->
  _get_date_range items = Raise TypeError.
Proof.
  unfold _get_date_range, same_kind.
  destruct (parsed_dates items) as [|d rest]; [discriminate|]. intros H.
  now rewrite min_from_mixed.
Qed.

(** The dataset on which [analyze] completes its [try] block: no platform
    mixes naive and aware timestamps. *)
Definition clean (data : Dataset) : Prop :=
  forall P items, In (P, items) data -> same_kind (parsed_dates items) = true.

Lemma _analyze_platforms_clean data :
  clean data -> exists pi, _analyze_platforms data = Ok pi.
Proof.
  intros Hclean. rewrite platforms_loop. apply platform_loop_total.
  intros P items Hin _. unfold platforms_body.
  destruct (_get_date_range_ok items (Hclean _ _ Hin)) as [range ->].
  cbn. eauto.
Qed.

Lemma _analyze_platforms_raises data e :
  _analyze_platforms data = Raise e ->
  e = TypeError /\ exists P items, In (P, items) data /\
                                   same_kind (parsed_dates items) = false.
Proof.
  rewrite platforms_loop. intros H.
  apply platform_loop_raises in H. destruct H as (P & items & Hin & _ & Hb).
  unfold platforms_body in Hb.
  destruct (same_kind (parsed_dates items)) eqn:E.
  - destruct (_get_date_range_ok items E) as [range Hr]. rewrite Hr in Hb. discriminate.
  - rewrite (_get_date_range_mixed items E) in Hb. inversion Hb. eauto.
Qed.

Lemma analyze_body_clean entropy data :
  clean data -> exists insights, analyze_body entropy data = Ok insights.
Proof.
  intros Hclean. unfold analyze_body.
  destruct (_analyze_viral_patterns_total data) as [vp ->].
  destruct (_analyze_engagement_total data) as [ei ->].
  destruct (_analyze_keywords_total data) as [kp ->].
  destruct (_analyze_platforms_clean data Hclean) as [pi ->].
  cbn. eauto.
Qed.

Lemma analyze_body_raises entropy data e :
  analyze_body entropy data = Raise e ->
  e = TypeError /\ exists P items, In (P, items) data /\
                                   same_kind (parsed_dates items) = false.
Proof.
  unfold analyze_body.
  destruct (_analyze_viral_patterns_total data) as [vp ->].
  destruct (_analyze_engagement_total data) as [ei ->].
  destruct (_analyze_keywords_total data) as [kp ->].
  cbn [bind]. destruct (_analyze_platforms data) as [pi|e'] eqn:E; cbn; [discriminate|].
  intros [= <-]. now apply _analyze_platforms_raises.
Qed.

End Totality.

Section PostingLoop.
Context {L : Libraries}.
Variable entropy : nat -> nat.

Lemma posting_loop_keys data : forall acc drawn P,
  has_key P (fst (fold_left (posting_times_step entropy) data (acc, drawn))) ->
  has_key P acc \/ exists items, In (P, items) data /\ items <> [].
Proof.
  induction data as [|[Q items] data IH]; intros acc drawn P Hkey; simpl in *; [auto|].
  destruct items as [|it items].
  - destruct (IH _ _ _ Hkey) as [H|[its [Hin Hne]]]; [auto|]. right. eauto.
  - destruct (extract_hours entropy (it :: items) drawn) as [hours drawn'].
    destruct (IH _ _ _ Hkey) as [H|[its [Hin Hne]]].
    + apply has_key_set in H. destruct H as [->|H]; [|auto].
      right. exists (it :: items). split; [auto | discriminate].
    + right. eauto.
Qed.

Lemma posting_loop_other data : forall acc drawn P,
  ~ In P (keys data) ->
  dict_get P (fst (fold_left (posting_times_step entropy) data (acc, drawn)))
  = dict_get P acc.
Proof.
  induction data as [|[Q items] data IH]; intros acc drawn P Hnot; simpl in *;
    [reflexivity|].
  destruct items as [|it items].
  - apply IH. tauto.
  - destruct (extract_hours entropy (it :: items) drawn) as [hours drawn'].
    rewrite IH by tauto. apply dict_get_set_neq. intros ->. tauto.
Qed.

Lemma posting_loop_entry data : forall acc drawn P items,
  NoDup (keys data) -> In (P, items) data -> items <> [] ->
  exists drawn',
    dict_get P (fst (fold_left (posting_times_step entropy) data (acc, drawn)))
    = Some (posting_entry_of (fst (extract_hours entropy items drawn'))).
Proof.
  induction data as [|[Q its] data IH]; intros acc drawn P items Hnd Hin Hne;
    simpl in *; [contradiction|].
  inversion Hnd as [|? ? Hnotin Hnd']; subst.
  destruct Hin as [Heq|Hin].
  - inversion Heq; subst. destruct items as [|it items]; [contradiction|].
    exists drawn.
    destruct (extract_hours entropy (it :: items) drawn) as [hours drawn'] eqn:E.
    rewrite posting_loop_other by assumption. simpl. apply dict_get_set_eq.
  - destruct its as [|it its]; [now apply IH|].
    destruct (extract_hours entropy (it :: its) drawn) as [hours drawn'].
    now apply IH.
Qed.

Lemma posting_loop_form data : forall acc drawn P e,
  dict_get P (fst (fold_left (posting_times_step entropy) data (acc, drawn))) = Some e ->
  dict_get P acc = Some e \/
  exists items drawn', In (P, items) data /\ items <> [] /\
                       e = posting_entry_of (fst (extract_hours entropy items drawn')).
Proof.
  induction data as [|[Q its] data IH]; intros acc drawn P e Hget; simpl in *; [auto|].
  destruct its as [|it its].
  - destruct (IH _ _ _ _ Hget) as [H|(items & d' & Hin & Hne & He)]; [auto|].
    right. exists items, d'. auto.
  - destruct (extract_hours entropy (it :: its) drawn) as [hours drawn'] eqn:E.
    destruct (IH _ _ _ _ Hget) as [H|(items & d' & Hin & Hne & He)].
    + destruct (String.eqb_spec P Q) as [->|Hneq].
      * rewrite dict_get_set_eq in H. inversion H; subst.
        right. exists (it :: its), drawn. rewrite E.
        repeat split; [auto | discriminate].
      * rewrite dict_get_set_neq in H by assumption. auto.
    + right. exists items, d'. auto.
Qed.

End PostingLoop.

Section Faults.
Context {L : Libraries}.

Lemma platform_loop_bodies {V : Type} (body : string -> list item -> result (option V))
    data : forall acc r P items,
  for_each (platform_step body) data acc = Ok r ->
  In (P, items) data -> items <> [] -> exists o, body P items = Ok o.
Proof.
  induction data as [|[Q its] data IH]; intros acc r P items Hrun Hin Hne;
    simpl in *; [contradiction|].
  destruct its as [|it its]; simpl in Hrun.
  - destruct Hin as [Heq|Hin]; [inversion Heq; subst; contradiction | eauto].
  - destruct (body Q (it :: its)) as [o|e] eqn:Hb; simpl in Hrun; [|discriminate].
    destruct Hin as [Heq|Hin]; [inversion Heq; subst; eauto | eauto].
Qed.

(** When the [try] block completes, each block of its value is the value
    of the stage that computed it. *)
Lemma analyze_body_inv entropy data insights :
  analyze_body entropy data = Ok insights ->
  best_posting_times insights = _analyze_posting_times entropy data /\
  _analyze_viral_patterns data = Ok (viral_content_patterns insights) /\
  _analyze_engagement data = Ok (engagement_insights insights) /\
  _analyze_keywords data = Ok (keyword_performance insights) /\
  _analyze_platforms data = Ok (platform_insights insights).
Proof.
  unfold analyze_body. intros Hok.
  destruct (_analyze_viral_patterns data) as [vp|]; [|discriminate].
  destruct (_analyze_engagement data) as [ei|]; [|discriminate].
  destruct (_analyze_keywords data) as [kp|]; [|discriminate]. cbn [bind] in Hok.
  destruct (_analyze_platforms data) as [pi|]; [|discriminate].
  inversion Hok; subst. cbn. repeat split; reflexivity.
Qed.

Lemma analyze_body_mixed entropy data P items :
  In (P, items) data -> same_kind (parsed_dates items) = false ->
  analyze_body entropy data = Raise TypeError.
Proof.
  intros Hin Hmixed.
  destruct (analyze_body entropy data) as [ins|e] eqn:E.
  - exfalso. destruct (analyze_body_inv _ _ _ E) as (_ & _ & _ & _ & Hp).
    rewrite platforms_loop in Hp.
    assert (Hne : items <> []).
    { intros ->. discriminate. }
    destruct (platform_loop_bodies _ _ _ _ _ _ Hp Hin Hne) as [o Ho].
    unfold platforms_body in Ho.
    rewrite (_get_date_range_mixed items Hmixed) in Ho. discriminate.
  - apply analyze_body_raises in E. destruct E as [-> _]. reflexivity.
Qed.

(** On a clean dataset the five blocks of the result are the values of
    the five stages. *)
Lemma analyze_blocks entropy data :
  clean data ->
  best_posting_times (analyze entropy data) = _analyze_posting_times entropy data /\
  _analyze_viral_patterns data = Ok (viral_content_patterns (analyze entropy data)) /\
  _analyze_engagement data = Ok (engagement_insights (analyze entropy data)) /\
  _analyze_keywords data = Ok (keyword_performance (analyze entropy data)) /\
  _analyze_platforms data = Ok (platform_insights (analyze entropy data)).
Proof.
  intros Hclean. unfold analyze.
  destruct (analyze_body_clean entropy data Hclean) as [ins Hins]. rewrite Hins.
  now apply analyze_body_inv.
Qed.

(** The [try] block completes exactly on the clean datasets. *)
Lemma analyze_body_ok_iff_clean entropy data :
  (exists insights, analyze_body entropy data = Ok insights) <-> clean data.
Proof.
  split; [|apply analyze_body_clean].
  intros [insights Hok] P items Hin.
  destruct (same_kind (parsed_dates items)) eqn:E; [reflexivity|].
  rewrite (analyze_body_mixed entropy data P items Hin E) in Hok. discriminate.
Qed.





End Faults.

(* ================================================================= *)
(** ** Posting times *)

Lemma insert_asc_perm x l : Permutation (insert_asc x l) (x :: l).
Proof.
  induction l as [|y l IH]; simpl; [reflexivity|].
  destruct (x <=? y); [reflexivity|].
  rewrite IH. apply perm_swap.
Qed.

Lemma sort_asc_perm l : Permutation (sort_asc l) l.
Proof.
  induction l as [|x l IH]; simpl; [reflexivity|].
  rewrite insert_asc_perm. now constructor.
Qed.

Lemma insert_asc_sorted x l :
  StronglySorted Z.le l -> StronglySorted Z.le (insert_asc x l).
Proof.
  induction 1 as [|y l Hs IH Hy]; simpl.
  - repeat constructor.
  - destruct (Z.leb_spec x y) as [Hle|Hgt].
    + constructor; [constructor; assumption|].
      constructor; [exact Hle|].
      rewrite Forall_forall in *. intros z Hz. specialize (Hy z Hz). lia.
    + constructor; [exact IH|].
      rewrite Forall_forall in *. intros z Hz.
      apply (Permutation_in _ (insert_asc_perm x l)) in Hz.
      destruct Hz as [<-|Hz]; [lia | auto].
Qed.

Lemma sort_asc_sorted l : StronglySorted Z.le (sort_asc l).
Proof. induction l; simpl; [constructor | now apply insert_asc_sorted]. Qed.

Lemma sorted_nodup_strict l :
  StronglySorted Z.le l -> NoDup l -> StronglySorted Z.lt l.
Proof.
  induction 1 as [|x l Hs IH Hx]; intros Hnd; [constructor|].
  inversion Hnd as [|? ? Hnotin Hnd']; subst.
  constructor; [auto|].
  rewrite Forall_forall in *. intros y Hy. specialize (Hx y Hy).
  assert (x <> y) by (intros ->; contradiction). lia.
Qed.

Lemma sorted_hd_last l :
  StronglySorted Z.le l -> Forall (fun h => hd 0 l <= h <= last l 0) l.
Proof.
  induction 1 as [|x l Hs IH Hx]; [constructor|].
  destruct l as [|y l]; [repeat constructor; simpl; lia|].
  change (last (x :: y :: l) 0) with (last (y :: l) 0).
  inversion Hx as [|? ? Hxy Hxl]; subst. simpl hd in *.
  constructor.
  - inversion IH as [|? ? Hy _]; subst. lia.
  - rewrite Forall_forall in *. intros z Hz. specialize (IH z Hz).
    specialize (Hx z Hz). lia.
Qed.

Lemma sorted_app_cross {A : Type} (R : A -> A -> Prop) l1 l2 :
  StronglySorted R (l1 ++ l2) -> forall a b, In a l1 -> In b l2 -> R a b.
Proof.
  induction l1 as [|x l1 IH]; simpl; intros Hs a b Ha Hb; [contradiction|].
  inversion Hs as [|? ? Hs' Hx]; subst.
  destruct Ha as [->|Ha]; [|eauto].
  rewrite Forall_forall in Hx. apply Hx, in_or_app. auto.
Qed.

Lemma In_firstn_In {A : Type} (x : A) n l : In x (firstn n l) -> In x l.
Proof.
  intros H. rewrite <- (firstn_skipn n l). apply in_or_app. now left.
Qed.

Lemma In_skipn_In {A : Type} (x : A) n l : In x (skipn n l) -> In x l.
Proof.
  intros H. rewrite <- (firstn_skipn n l). apply in_or_app. now right.
Qed.

Lemma randint_9_17_range raw : 9 <= randint_9_17 raw <= 17.
Proof.
  unfold randint_9_17. pose proof (Nat.mod_upper_bound raw 9). lia.
Qed.

Section PostingFacts.
Context {L : Libraries}.

Lemma parse_published_hour s dt :
  parse_published s = Some dt -> 0 <= hour dt < 24.
Proof.
  unfold parse_published.
  destruct (Text.contains "T" s);
    [destruct (Text.endswith "Z" s); apply fromisoformat_hour | apply strptime_hour].
Qed.

(** What one record contributes to the hours of its platform. *)
Lemma extract_hour_cases entropy hours drawn it :
  extract_hour entropy (hours, drawn) it =
  match published_at it with
  | None => (hours, drawn)
  | Some EmptyString => (hours, drawn)
  | Some s =>
      match parse_published s with
      | Some dt => (hours ++ [hour dt], drawn)
      | None => (hours ++ [randint_9_17 (entropy drawn)], S drawn)
      end
  end.
Proof.
  unfold extract_hour, text. destruct (published_at it) as [[|c s]|]; reflexivity.
Qed.

Lemma extract_hour_unfold entropy hours drawn it :
  extract_hour entropy (hours, drawn) it =
  if truthy (text published_at it) then
    match parse_published (text published_at it) with
    | Some dt => (hours ++ [hour dt], drawn)
    | None => (hours ++ [randint_9_17 (entropy drawn)], S drawn)
    end
  else (hours, drawn).
Proof. reflexivity. Qed.

Lemma extract_hours_acc entropy P items : forall hours drawn,
  Forall P hours ->
  (forall it dt, In it items ->
                 parse_published (text published_at it) = Some dt -> P (hour dt)) ->
  (forall raw, P (randint_9_17 raw)) ->
  Forall P (fst (fold_left (extract_hour entropy) items (hours, drawn))).
Proof.
  induction items as [|it items IH]; intros hours drawn Hh Hparse Hrand;
    cbn [fold_left]; [assumption|].
  rewrite extract_hour_unfold.
  assert (Hparse' : forall it' dt, In it' items ->
             parse_published (text published_at it') = Some dt -> P (hour dt)).
  { intros it' dt Hin. apply Hparse. now right. }
  destruct (truthy (text published_at it)); [|now apply IH].
  destruct (parse_published (text published_at it)) as [dt|] eqn:E.
  - apply IH; [|assumption|assumption].
    apply Forall_app. split; [assumption|]. constructor; [|constructor].
    apply (Hparse it dt); [now left | assumption].
  - apply IH; [|assumption|assumption].
    apply Forall_app. split; [assumption|]. constructor; [|constructor].
    apply Hrand.
Qed.

Lemma extract_hours_range entropy items drawn :
  Forall (fun h => 0 <= h < 24) (fst (extract_hours entropy items drawn)).
Proof.
  apply extract_hours_acc; [constructor | | ].
  - intros it dt _. apply parse_published_hour.
  - intros raw. pose proof (randint_9_17_range raw). lia.
Qed.

(** Records whose non-empty [published_at] does not parse: one drawn hour
    each. *)
Lemma extract_hours_unparsable entropy items : forall hours drawn,
  Forall (fun it => truthy (text published_at it) = true /\
                    parse_published (text published_at it) = None) items ->
  exists drawn_hours,
    fst (fold_left (extract_hour entropy) items (hours, drawn)) = hours ++ drawn_hours /\
    List.length drawn_hours = List.length items /\
    Forall (fun h => 9 <= h <= 17) drawn_hours.
Proof.
  induction items as [|it items IH]; intros hours drawn Hall; cbn [fold_left].
  - exists []. rewrite app_nil_r. repeat split; constructor.
  - inversion Hall as [|? ? [Ht Hp] Hrest]; subst.
    rewrite extract_hour_unfold, Ht, Hp.
    destruct (IH (hours ++ [randint_9_17 (entropy drawn)]) (S drawn) Hrest)
      as (ds & Heq & Hlen & Hrange).
    exists (randint_9_17 (entropy drawn) :: ds).
    rewrite Heq, <- app_assoc. repeat split; simpl; [congruence|].
    constructor; [apply randint_9_17_range | assumption].
Qed.

(** Records without a (non-empty) [published_at] contribute no hour. *)
Lemma extract_hours_absent entropy items : forall hours drawn,
  Forall (fun it => truthy (text published_at it) = false) items ->
  fold_left (extract_hour entropy) items (hours, drawn) = (hours, drawn).
Proof.
  induction items as [|it items IH]; intros hours drawn Hall; cbn [fold_left];
    [reflexivity|].
  inversion Hall as [|? ? Ht Hrest]; subst.
  rewrite extract_hour_unfold, Ht. now apply IH.
Qed.

Lemma value_counts_In hours h :
  In h (map fst (value_counts hours)) <-> In h hours.
Proof.
  rewrite in_map_iff. split.
  - intros [[h' c] [Heq Hin]]. simpl in Heq. subst h'.
    apply value_counts_count in Hin. destruct Hin as [-> Hpos].
    apply (count_occ_In Z.eq_dec). lia.
  - intros Hin. exists (h, count_occ Z.eq_dec hours h). split; [reflexivity|].
    apply value_counts_count. split; [reflexivity|].
    apply (count_occ_In Z.eq_dec) in Hin. lia.
Qed.

Lemma value_counts_length hours :
  List.length (value_counts hours) = List.length (nodup Z.eq_dec hours).
Proof.
  rewrite <- (length_map fst). apply Permutation_length.
  apply NoDup_Permutation; [apply value_counts_nodup | apply NoDup_nodup |].
  intros h. rewrite value_counts_In, nodup_In. reflexivity.
Qed.

Lemma In_firstn_fst (vc : list (Z * nat)) n h :
  NoDup (map fst vc) -> In h (map fst vc) -> ~ In h (map fst (firstn n vc)) ->
  exists c, In (h, c) (skipn n vc).
Proof.
  intros Hnd Hin Hnot. rewrite <- (firstn_skipn n vc), map_app in Hin.
  apply in_app_or in Hin. destruct Hin as [Hin|Hin]; [contradiction|].
  apply in_map_iff in Hin. destruct Hin as [[h' c] [Heq Hin]]. simpl in Heq.
  subst. eauto.
Qed.

(** The entry computed from a non-empty list of hours. *)
Lemma posting_entry_of_spec hours :
  hours <> [] ->
  let e := posting_entry_of hours in
  sample_size e = List.length hours /\
  peak_hours e = sort_asc (map fst (firstn 3 (value_counts hours))) /\
  best_time_range e = time_range (peak_hours e) /\
  (forall h, In h (peak_hours e) -> In h hours) /\
  StronglySorted Z.lt (peak_hours e) /\
  List.length (peak_hours e) = Nat.min 3 (List.length (nodup Z.eq_dec hours)) /\
  (forall h h', In h (peak_hours e) -> In h' hours -> ~ In h' (peak_hours e) ->
                (count_occ Z.eq_dec hours h' <= count_occ Z.eq_dec hours h)%nat).
Proof.
  intros Hne. unfold posting_entry_of.
  destruct hours as [|h0 hs]; [contradiction|].
  set (hours := h0 :: hs) in *.
  pose proof (value_counts_length hours) as Hlen.
  pose proof (value_counts_nodup hours) as Hnd.
  pose proof (value_counts_sorted hours) as Hsorted.
  destruct (value_counts hours) as [|top others] eqn:Hvc.
  { exfalso. assert (Hin : In h0 (map fst (value_counts hours)))
      by (apply value_counts_In; left; reflexivity).
    rewrite Hvc in Hin. contradiction. }
  rewrite <- Hvc in *. cbn [sample_size peak_hours best_time_range].
  set (peak := sort_asc (map fst (firstn 3 (value_counts hours)))).
  assert (Hperm : Permutation peak (map fst (firstn 3 (value_counts hours))))
    by apply sort_asc_perm.
  assert (Hsub : forall h, In h peak -> In h (map fst (value_counts hours))).
  { intros h Hh. apply (Permutation_in _ Hperm) in Hh.
    apply in_map_iff in Hh. destruct Hh as [x [Hx Hin]].
    apply in_map_iff. exists x. split; [assumption|].
    apply (In_firstn_In _ _ _ Hin). }
  repeat split.
  - intros h Hh. apply value_counts_In. auto.
  - apply sorted_nodup_strict; [apply sort_asc_sorted|].
    apply (Permutation_NoDup (Permutation_sym Hperm)).
    rewrite <- (firstn_skipn 3 (value_counts hours)), map_app in Hnd.
    apply (NoDup_app_remove_r _ _ Hnd).
  - rewrite (Permutation_length Hperm), length_map, length_firstn, Hlen. reflexivity.
  - intros h h' Hh Hh' Hnot.
    apply (Permutation_in _ Hperm) in Hh.
    apply in_map_iff in Hh. destruct Hh as [[h1 c] [Heq Hin]]. simpl in Heq. subst h1.
    destruct (In_firstn_fst (value_counts hours) 3 h' Hnd) as [c' Hin'].
    + now apply value_counts_In.
    + intros H. apply Hnot. apply (Permutation_in _ (Permutation_sym Hperm)), H.
    + rewrite <- (firstn_skipn 3 (value_counts hours)) in Hsorted.
      pose proof (sorted_app_cross _ _ _ Hsorted _ _ Hin Hin') as Hle. simpl in Hle.
      apply In_firstn_In, value_counts_count in Hin.
      apply In_skipn_In, value_counts_count in Hin'.
      destruct Hin as [-> _]. destruct Hin' as [-> _]. exact Hle.
Qed.

End PostingFacts.

Section PostingEntries.
Context {L : Libraries}.

Lemma time_range_spec peak :
  StronglySorted Z.le peak -> peak <> [] ->
  (2 <= List.length peak)%nat /\
  (exists lo hi, In lo peak /\ In hi peak /\
                 Forall (fun h => lo <= h <= hi) peak /\
                 time_range peak
                 = Text.of_Z lo +++ ":00 - " +++ Text.of_Z hi +++ ":00") \/
  exists h, peak = [h] /\
            time_range peak
            = Text.of_Z h +++ ":00 - " +++ Text.of_Z ((h + 3) mod 24) +++ ":00".
Proof.
  intros Hsorted Hne. unfold time_range.
  destruct peak as [|h1 [|h2 rest]]; [contradiction | right; eauto |].
  left. split; [simpl; lia|].
  exists h1, (last (h1 :: h2 :: rest) 0).
  split; [now left|]. split.
  - change (last (h1 :: h2 :: rest) 0) with (last (h2 :: rest) 0).
    right. clear. revert h2. induction rest as [|h3 rest IH]; intros h2.
    + now left.
    + right. apply (IH h3).
  - split; [apply (sorted_hd_last _ Hsorted) | reflexivity].
Qed.

Lemma strict_sorted_le l : StronglySorted Z.lt l -> StronglySorted Z.le l.
Proof.
  induction 1 as [|x l Hs IH Hx]; constructor; [assumption|].
  rewrite Forall_forall in *. intros y Hy. specialize (Hx y Hy). lia.
Qed.

Lemma posting_entry_default_or_hours entropy data P e :
  dict_get P (_analyze_posting_times entropy data) = Some e ->
  exists items drawn,
    In (P, items) data /\
    e = posting_entry_of (fst (extract_hours entropy items drawn)) /\
    Forall (fun h => 0 <= h < 24) (fst (extract_hours entropy items drawn)).
Proof.
  unfold _analyze_posting_times. intros Hget.
  apply posting_loop_form in Hget.
  destruct Hget as [Habs|(items & drawn & Hin & _ & ->)]; [discriminate|].
  exists items, drawn. split; [assumption|].
  split; [reflexivity | apply extract_hours_range].
Qed.

(** C3 (as amended).  A record without [published_at], or with an empty
    one, contributes no hour.  Otherwise the timestamp is parsed by
    [fromisoformat] when it contains the letter T (a trailing Z replaced by
    a zero offset) and by the fixed pattern when it does not; when that one
    parser fails the hour is a draw of [randint(9, 17)], which lies in
    [9,17].  So a platform whose records all carry a non-empty timestamp
    that does not parse has [sample_size] equal to its number of records and
    peak hours in [9,17], and a platform whose records all lack a timestamp
    gets the fixed default entry. *)
Theorem hour_extraction (entropy : nat -> nat) :
  (forall hours drawn it,
      extract_hour entropy (hours, drawn) it =
      match published_at it with
      | None => (hours, drawn)
      | Some EmptyString => (hours, drawn)
      | Some s =>
          match (if Text.contains "T" s
                 then fromisoformat (if Text.endswith "Z" s
                                     then Text.replace_char "Z"%char "+00:00" s
                                     else s)
                 else strptime s) with
          | Some dt => (hours ++ [hour dt], drawn)
          | None => (hours ++ [randint_9_17 (entropy drawn)], S drawn)
          end
      end) /\
  (forall raw, 9 <= randint_9_17 raw <= 17) /\
  (forall (data : Dataset) P items,
      NoDup (keys data) -> dict_get P data = Some items -> items <> [] ->
      Forall (fun it => truthy (text published_at it) = true /\
                        parse_published (text published_at it) = None) items ->
      exists e,
        dict_get P (_analyze_posting_times entropy data) = Some e /\
        sample_size e = List.length items /\
        Forall (fun h => 9 <= h <= 17) (peak_hours e)) /\
  (forall (data : Dataset) P items,
      NoDup (keys data) -> dict_get P data = Some items -> items <> [] ->
      Forall (fun it => truthy (text published_at it) = false) items ->
      dict_get P (_analyze_posting_times entropy data) = Some default_times).
Proof.
  split; [|split; [exact randint_9_17_range | split]].
  - intros hours drawn it. rewrite extract_hour_cases. unfold parse_published.
    destruct (published_at it) as [[|c s]|]; try reflexivity.
    destruct (Text.contains "T" (String c s)); [|reflexivity].
    destruct (Text.endswith "Z" (String c s)); reflexivity.
  - intros data P items Hnd Hget Hne Hall. apply dict_get_In in Hget.
    destruct (posting_loop_entry entropy data [] 0%nat P items Hnd Hget Hne)
      as [drawn Hentry].
    eexists. split; [exact Hentry|].
    destruct (extract_hours_unparsable entropy items [] drawn Hall)
      as (hs & Heq & Hlen & Hrange).
    unfold extract_hours. rewrite Heq. simpl app.
    assert (Hhs : hs <> []).
    { destruct hs; [|discriminate]. destruct items; [contradiction | discriminate]. }
    destruct (posting_entry_of_spec hs Hhs) as (Hsize & _ & _ & Hsub & _).
    split; [congruence|].
    rewrite Forall_forall in *. intros h Hh. apply Hrange, Hsub, Hh.
  - intros data P items Hnd Hget Hne Hall. apply dict_get_In in Hget.
    destruct (posting_loop_entry entropy data [] 0%nat P items Hnd Hget Hne)
      as [drawn Hentry].
    unfold extract_hours in Hentry.
    rewrite (extract_hours_absent entropy items [] drawn Hall) in Hentry.
    exact Hentry.
Qed.

(** C4 (as amended).  The peak hours of every entry are strictly ascending,
    at most three, and hours of the day.  When at least one hour was
    extracted they are the first three rows of the frequency table that
    [value_counts] returns for the hours extracted from the records of the
    platform, sorted ascending: as
    many as there are distinct hours up to three, none of them less
    frequent than an hour left out (among hours of equal frequency the
    choice is the order of [value_counts], not the smaller hour); and
    [best_time_range] runs from the smallest to the largest peak hour, or
    from the single peak hour [h] to [(h + 3) mod 24]. *)
Theorem peak_hours_most_frequent
    (entropy : nat -> nat) (data : Dataset) (P : string) (e : posting_entry)
    (Hentry : dict_get P (_analyze_posting_times entropy data) = Some e) :
  StronglySorted Z.lt (peak_hours e) /\
  (List.length (peak_hours e) <= 3)%nat /\
  Forall (fun h => 0 <= h <= 23) (peak_hours e) /\
  ((0 < sample_size e)%nat ->
   exists items drawn hours,
     In (P, items) data /\
     hours = fst (extract_hours entropy items drawn) /\
     List.length hours = sample_size e /\
     peak_hours e = sort_asc (map fst (firstn 3 (value_counts hours))) /\
     List.length (peak_hours e) = Nat.min 3 (List.length (nodup Z.eq_dec hours)) /\
     (forall h h', In h (peak_hours e) -> In h' hours -> ~ In h' (peak_hours e) ->
                   (count_occ Z.eq_dec hours h' <= count_occ Z.eq_dec hours h)%nat) /\
     ((2 <= List.length (peak_hours e))%nat /\
      (exists lo hi, In lo (peak_hours e) /\ In hi (peak_hours e) /\
                     Forall (fun h => lo <= h <= hi) (peak_hours e) /\
                     best_time_range e
                     = Text.of_Z lo +++ ":00 - " +++ Text.of_Z hi +++ ":00") \/
      exists h, peak_hours e = [h] /\
                best_time_range e
                = Text.of_Z h +++ ":00 - " +++ Text.of_Z ((h + 3) mod 24) +++ ":00")).
Proof.
  destruct (posting_entry_default_or_hours _ _ _ _ Hentry)
    as (items & drawn & Hplatform & -> & Hrange).
  destruct (fst (extract_hours entropy items drawn)) as [|h0 hs] eqn:Hhours.
  { cbn. repeat split.
    - repeat constructor; lia.
    - lia.
    - repeat constructor; lia.
    - lia. }
  assert (Hne : h0 :: hs <> []) by discriminate.
  destruct (posting_entry_of_spec (h0 :: hs) Hne)
    as (Hsize & Hpeak & Htr & Hsub & Hsorted & Hlen & Hfreq).
  split; [exact Hsorted|]. split; [rewrite Hlen; apply Nat.le_min_l|]. split.
  - rewrite Forall_forall in *. intros h Hh.
    specialize (Hrange h (Hsub h Hh)). lia.
  - intros _. exists items, drawn, (h0 :: hs).
    split; [exact Hplatform|]. split; [now rewrite Hhours|].
    split; [now rewrite Hsize|]. split; [exact Hpeak|]. split; [exact Hlen|].
    split; [exact Hfreq|].
    rewrite Htr. apply time_range_spec; [now apply strict_sorted_le|].
    intros Hnil. rewrite Hnil in Hlen.
    destruct (nodup Z.eq_dec (h0 :: hs)) eqn:E; [|simpl in Hlen; lia].
    assert (Hin : In h0 (nodup Z.eq_dec (h0 :: hs))) by (apply nodup_In; now left).
    rewrite E in Hin. contradiction.
Qed.

End PostingEntries.

(* ================================================================= *)
(** ** Engagement *)

(** The two datasets of the scenarios: records that carry
    [engagement_metrics] only. *)
Definition only_metrics (m : metrics) : item :=
  mk_item None None None None (Some m).

Definition scenario_A : Dataset :=
  [("youtube", [only_metrics (mk_metrics (Some 100) (Some 10) None None);
                only_metrics (mk_metrics (Some 300) (Some 30) None None)])].

Definition scenario_B : Dataset :=
  [("reddit", [only_metrics (mk_metrics None None (Some 0) (Some 0))])].

Lemma engagement_entry_of (data : Dataset) P items :
  NoDup (keys data) -> dict_get P data = Some items -> items <> [] ->
  exists stats o,
    _analyze_engagement data = Ok stats /\
    engagement_body P items = Ok o /\
    dict_get P stats = o.
Proof.
  intros Hnd Hget Hne. apply dict_get_In in Hget.
  destruct (_analyze_engagement_total data) as [stats Hstats].
  exists stats. pose proof Hstats as Hrun. rewrite engagement_loop in Hrun.
  destruct (platform_loop_entry _ _ _ _ _ _ Hnd Hrun Hget Hne) as (o & Ho & Hentry).
  exists o. split; [assumption|]. split; [assumption|]. rewrite Hentry. now destruct o.
Qed.

Lemma no_timestamps_clean {L : Libraries} (data : Dataset) :
  (forall P items it, In (P, items) data -> In it items -> published_at it = None) ->
  clean data.
Proof.
  intros Hnone P items Hin.
  assert (Hdates : parsed_dates items = []).
  { unfold parsed_dates.
    assert (Hall : forall it, In it items -> published_at it = None)
      by (intros it; apply (Hnone P items it Hin)).
    clear Hin. induction items as [|it items IH]; [reflexivity|].
    simpl. unfold text. rewrite (Hall it) by now left. simpl.
    apply IH. intros it' Hit'. apply Hall. now right. }
  now rewrite Hdates.
Qed.

(** Three videos whose views are just above [2^53]. *)
Definition scenario_large : Dataset :=
  [("youtube",
    [only_metrics (mk_metrics (Some 9007199254740994) (Some 0) None None);
     only_metrics (mk_metrics (Some 9007199254740993) (Some 0) None None);
     only_metrics (mk_metrics (Some 9007199254740992) (Some 0) None None)])].

Lemma guarded_ratio_value a b :
  (if 0 <? b then truediv a b else Ok (inject_Z 0))
  = Ok (if 0 <? b then Float.round (inject_Z a / inject_Z b) else inject_Z 0).
Proof.
  destruct (Z.ltb_spec 0 b); [apply truediv_ok; lia | reflexivity].
Qed.

Section Engagement.
Context {L : Libraries}.

(** C5 (as amended).  For the platform "youtube" the engagement entry
    holds the means of views and of likes, computed in double precision
    and truncated to integers, the double nearest to the ratio of the sum
    of likes to the sum of views (0 when the sum of views is not positive),
    the largest and the smallest view count and the number of records; no
    division raises.  A mean so computed is the truncated exact mean
    whenever the sum is below [2^53] in absolute value.  On the dataset of
    Scenario A the engagement block of the result of [analyze] has the
    values 200, 20, the double 0.1, 300 and 100; on that of Scenario B it
    has an engagement rate of 0. *)
Theorem video_engagement_entry :
  (forall (data : Dataset) (items : list item),
      NoDup (keys data) -> dict_get "youtube" data = Some items -> items <> [] ->
      let vs := map (metric views) items in
      let ls := map (metric likes) items in
      let avg_views := int_of (Float.round (inject_Z (sum vs) / inject_Z (len items))) in
      let avg_likes := int_of (Float.round (inject_Z (sum ls) / inject_Z (len items))) in
      exists stats mx mn,
        _analyze_engagement data = Ok stats /\
        dict_get "youtube" stats
        = Some (VideoStats avg_views avg_likes
                  (if 0 <? sum vs then Float.round (inject_Z (sum ls) / inject_Z (sum vs))
                   else inject_Z 0)
                  mx mn (List.length items)) /\
        In mx vs /\ Forall (fun v => v <= mx) vs /\
        In mn vs /\ Forall (fun v => mn <= v) vs /\
        (Z.abs (sum vs) < 2 ^ 53 -> avg_views = Z.quot (sum vs) (len items)) /\
        (Z.abs (sum ls) < 2 ^ 53 -> avg_likes = Z.quot (sum ls) (len items))) /\
  (forall entropy,
      engagement_insights (analyze entropy scenario_A)
      = [("youtube", VideoStats 200 20 (Float.round (1 # 10)) 300 100 2)]) /\
  (forall entropy,
      engagement_insights (analyze entropy scenario_B)
      = [("reddit", ForumStats 0 0 (inject_Z 0) 1)]).
Proof.
  assert (Hblock : forall entropy data stats,
             (forall P items it, In (P, items) data -> In it items ->
                                 published_at it = None) ->
             _analyze_engagement data = Ok stats ->
             engagement_insights (analyze entropy data) = stats).
  { intros entropy data stats Hnone Hstats.
    destruct (analyze_blocks entropy data (no_timestamps_clean data Hnone))
      as (_ & _ & Hengagement & _).
    rewrite Hstats in Hengagement. now inversion Hengagement. }
  split; [|split].
  - intros data items Hnd Hget Hne vs ls avg_views avg_likes.
    destruct (engagement_entry_of data "youtube" items Hnd Hget Hne)
      as (stats & o & Hstats & Ho & Hentry).
    exists stats. rewrite Hentry. clear Hentry.
    destruct items as [|it items]; [contradiction|].
    unfold engagement_body in Ho. cbn [String.eqb Ascii.eqb Bool.eqb] in Ho.
    fold vs ls in Ho.
    assert (Hlv : len vs = len (it :: items)) by apply len_map.
    assert (Hll : len ls = len (it :: items)) by apply len_map.
    rewrite Hlv, Hll, !truediv_ok in Ho by apply len_nonzero. cbn [bind] in Ho.
    rewrite guarded_ratio_value in Ho. cbn [bind] in Ho.
    fold avg_views avg_likes in Ho.
    subst vs. cbn [map py_max py_min bind] in Ho. inversion Ho; subst o; clear Ho.
    eexists. eexists. split; [exact Hstats|]. split; [reflexivity|].
    destruct (fold_max_spec (map (metric views) items) (metric views it)) as [H1 H2].
    destruct (fold_min_spec (map (metric views) items) (metric views it)) as [H3 H4].
    cbn [map].
    repeat split; try assumption;
      intros Hsmall; apply FloatFacts.int_of_round; try assumption; apply len_pos.
  - intros entropy. apply Hblock; [|vm_compute; reflexivity].
    intros P items it [H|[]]; inversion H; subst.
    intros [<-|[<-|[]]]; reflexivity.
  - intros entropy. apply Hblock; [|vm_compute; reflexivity].
    intros P items it [H|[]]; inversion H; subst.
    intros [<-|[]]; reflexivity.
Qed.

End Engagement.

(** C6 (as amended).  Entries of total_items and avg_title_length -- the
    mean, in double precision, of the numbers of characters of the titles
    -- are made for the platform "google_news" only; a platform that is
    none of "youtube", "reddit" and "google_news" gets no entry in
    [engagement_insights], whatever metrics its records carry. *)
Theorem other_platform_engagement
    (data : Dataset) (P : string) (items : list item)
    (Hkeys : NoDup (keys data)) (Hget : dict_get P data = Some items)
    (Hne : items <> []) (Hvideo : P <> "youtube") (Hforum : P <> "reddit") :
  exists stats,
    _analyze_engagement data = Ok stats /\
    dict_get P stats
    = if String.eqb P "google_news"
      then Some (OtherStats (List.length items)
                   (Float.round
                      (inject_Z (sum (map (fun it => Z.of_nat (Text.length (text title it)))
                                          items))
                       / inject_Z (len items))))
      else None.
Proof.
  destruct (engagement_entry_of data P items Hkeys Hget Hne)
    as (stats & o & Hstats & Ho & Hentry).
  exists stats. split; [exact Hstats|]. rewrite Hentry. clear Hentry.
  destruct items as [|it items]; [contradiction|].
  unfold engagement_body in Ho.
  destruct (String.eqb_spec P "youtube"); [contradiction|].
  destruct (String.eqb_spec P "reddit"); [contradiction|].
  destruct (String.eqb P "google_news"); [|now inversion Ho].
  rewrite truediv_ok in Ho by apply len_nonzero. now inversion Ho.
Qed.

Lemma append_empty_r s : s +++ EmptyString = s.
Proof. induction s as [|c s IH]; simpl; [reflexivity | now rewrite IH]. Qed.

Lemma append_assoc_string a b c : (a +++ b) +++ c = a +++ (b +++ c).
Proof. induction a as [|x a IH]; simpl; [reflexivity | now rewrite IH]. Qed.

Lemma concat_cons x xs :
  String.concat EmptyString (x :: xs) = x +++ String.concat EmptyString xs.
Proof. destruct xs; cbn [String.concat]; [now rewrite append_empty_r | reflexivity]. Qed.

(** The characters are a partition of the text: joined, they give it
    back. *)
Lemma chars_concat s : String.concat EmptyString (Text.chars s) = s.
Proof.
  assert (H : forall cur, String.concat EmptyString (Text.split_chars cur s) = cur +++ s).
  { induction s as [|c s IH]; intros cur; cbn [Text.split_chars].
    - destruct cur; [reflexivity|]. cbn. now rewrite append_empty_r.
    - destruct (Text.is_continuation c).
      + rewrite IH, append_assoc_string. reflexivity.
      + destruct cur as [|b cur]; cbn [Text.flush_char app].
        * rewrite IH. reflexivity.
        * rewrite concat_cons, IH. reflexivity. }
  apply (H EmptyString).
Qed.

(* ================================================================= *)
(** ** Ranking by frequency *)

(** [a] occurs in [l] and [b] occurs somewhere after it. *)
Definition precedes {A : Type} (l : list A) (a b : A) : Prop :=
  exists l1 l2, l = l1 ++ a :: l2 /\ In b l2.

Lemma precedes_cons {A : Type} (x : A) l a b :
  precedes l a b -> precedes (x :: l) a b.
Proof. intros (l1 & l2 & -> & Hb). exists (x :: l1), l2. auto. Qed.

Lemma precedes_head {A : Type} (x : A) l b : In b l -> precedes (x :: l) x b.
Proof. intros Hb. exists [], l. auto. Qed.

Lemma precedes_map {A B : Type} (f : A -> B) l a b :
  precedes l a b -> precedes (map f l) (f a) (f b).
Proof.
  intros (l1 & l2 & -> & Hb). exists (map f l1), (map f l2).
  rewrite map_app. split; [reflexivity | now apply in_map].
Qed.

Lemma StronglySorted_weaken {A : Type} (R R' : A -> A -> Prop) l :
  (forall a b, In a l -> In b l -> R a b -> R' a b) ->
  StronglySorted R l -> StronglySorted R' l.
Proof.
  intros Himp Hs. induction Hs as [|x l Hs IH Hx]; constructor.
  - apply IH. intros a b Ha Hb. apply Himp; now right.
  - rewrite Forall_forall in *. intros y Hy.
    apply Himp; [now left | now right | auto].
Qed.

Lemma StronglySorted_firstn {A : Type} (R : A -> A -> Prop) n l :
  StronglySorted R l -> StronglySorted R (firstn n l).
Proof.
  intros Hs. revert n. induction Hs as [|x l Hs IH Hx]; intros [|n]; simpl;
    try constructor; [apply IH|].
  rewrite Forall_forall in *. intros y Hy. apply Hx. eapply In_firstn_In, Hy.
Qed.

Lemma StronglySorted_map {A B : Type} (f : A -> B) (R : A -> A -> Prop)
    (R' : B -> B -> Prop) l :
  (forall a b, In a l -> In b l -> R a b -> R' (f a) (f b)) ->
  StronglySorted R l -> StronglySorted R' (map f l).
Proof.
  intros Himp Hs. induction Hs as [|x l Hs IH Hx]; simpl; constructor.
  - apply IH. intros a b Ha Hb. apply Himp; now right.
  - rewrite Forall_forall in *. intros y Hy.
    apply in_map_iff in Hy. destruct Hy as [z [<- Hz]].
    apply Himp; [now left | now right | auto].
Qed.

Section Ranking.
Context {K : Type}.

(** [a] comes before [b] in the ranking of the entries [l]: a larger
    count, or the same count and an earlier position in [l]. *)
Definition ranks_before (l : list (K * nat)) (a b : K * nat) : Prop :=
  (snd b < snd a)%nat \/ (snd a = snd b /\ precedes l a b).

Lemma insert_desc_ranked (R : K * nat -> K * nat -> Prop) x s :
  (forall y, In y s -> (snd x < snd y)%nat -> R y x) ->
  (forall z, In z s -> (snd z <= snd x)%nat -> R x z) ->
  StronglySorted by_count_desc s ->
  StronglySorted R s ->
  StronglySorted R (insert_desc x s).
Proof.
  intros Hup Hdown Hcount Hs.
  induction Hs as [|y s Hs IH Hy]; simpl.
  - repeat constructor.
  - inversion Hcount as [|? ? Hcount' Hycount]; subst.
    destruct (Nat.leb_spec (snd y) (snd x)) as [Hle|Hgt].
    + constructor; [constructor; assumption|].
      rewrite Forall_forall in *. intros z Hz. apply Hdown; [assumption|].
      destruct Hz as [<-|Hz]; [assumption|].
      specialize (Hycount z Hz). unfold by_count_desc in Hycount. lia.
    + constructor.
      * apply IH; [| |assumption]; intros z Hz; [apply Hup | apply Hdown]; now right.
      * rewrite Forall_forall in *. intros z Hz.
        apply (Permutation_in _ (insert_desc_perm x s)) in Hz.
        destruct Hz as [<-|Hz]; [apply Hup; [now left | assumption] | auto].
Qed.

(** The stable sort by decreasing count ranks the entries. *)
Lemma sort_desc_ranked (l : list (K * nat)) :
  StronglySorted (ranks_before l) (sort_desc l).
Proof.
  induction l as [|x l IH]; simpl; [constructor|].
  apply insert_desc_ranked.
  - intros y _ Hlt. now left.
  - intros z Hz Hle. apply (Permutation_in _ (sort_desc_perm l)) in Hz.
    destruct (Nat.eq_dec (snd z) (snd x)) as [Heq|Hne].
    + right. split; [auto | now apply precedes_head].
    + left. lia.
  - apply sort_desc_sorted.
  - apply (StronglySorted_weaken (ranks_before l)); [|exact IH].
    intros a b _ _ [Hlt|[Heq Hprec]]; [now left | right].
    split; [assumption | now apply precedes_cons].
Qed.

End Ranking.

Section FirstSeen.
Context {K : Type} (eqb : K -> K -> bool).
Hypothesis eqb_spec : forall a b, reflect (a = b) (eqb a b).

(** The distinct elements of a list in order of first occurrence. *)
Fixpoint first_seen (l : list K) : list K :=
  match l with
  | [] => []
  | w :: rest => w :: filter (fun v => negb (eqb v w)) (first_seen rest)
  end.

Lemma filter_filter_absorb (seen : list K) w l :
  existsb (eqb w) seen = true ->
  filter (fun v => negb (existsb (eqb v) seen)) (filter (fun v => negb (eqb v w)) l)
  = filter (fun v => negb (existsb (eqb v) seen)) l.
Proof.
  intros Hw. induction l as [|x l IH]; simpl; [reflexivity|].
  destruct (eqb_spec x w) as [->|Hne]; simpl.
  - rewrite Hw. simpl. exact IH.
  - destruct (existsb (eqb x) seen); simpl; [exact IH | now rewrite IH].
Qed.

Lemma existsb_snoc (seen : list K) w v :
  existsb (eqb v) (seen ++ [w]) = existsb (eqb v) seen || eqb v w.
Proof. rewrite existsb_app. simpl. now rewrite orb_false_r. Qed.

Lemma filter_snoc_seen (seen : list K) w l :
  filter (fun v => negb (existsb (eqb v) (seen ++ [w]))) l
  = filter (fun v => negb (existsb (eqb v) seen)) (filter (fun v => negb (eqb v w)) l).
Proof.
  induction l as [|x l IH]; simpl; [reflexivity|].
  rewrite existsb_snoc.
  destruct (eqb x w); simpl.
  - rewrite orb_true_r. simpl. exact IH.
  - rewrite orb_false_r. destruct (existsb (eqb x) seen); simpl; now rewrite IH.
Qed.

Lemma Counter_keys_acc l : forall c,
  map fst (fold_left (fun c w => count_add eqb w c) l c)
  = map fst c ++ filter (fun v => negb (existsb (eqb v) (map fst c))) (first_seen l).
Proof.
  induction l as [|w l IH]; intros c; simpl.
  - now rewrite app_nil_r.
  - rewrite IH, keys_count_add.
    destruct (existsb (eqb w) (map fst c)) eqn:E; simpl.
    + now rewrite filter_filter_absorb.
    + rewrite <- app_assoc. simpl. now rewrite filter_snoc_seen.
Qed.

(** The keys of a counter are the distinct words in order of first
    occurrence. *)
Lemma Counter_keys l : map fst (Counter eqb l) = first_seen l.
Proof.
  unfold Counter. rewrite Counter_keys_acc. simpl.
  induction (first_seen l) as [|x r IH]; simpl; [reflexivity | now rewrite IH].
Qed.

End FirstSeen.

(* ================================================================= *)
(** ** Viral patterns *)

(** *** Characters of a prefix *)

(** A group of bytes that [Text.chars] reads as one character: a first
    byte followed by continuation bytes.  Only the first group of a text
    can start with a continuation byte. *)
Definition byte_group (g : string) : Prop :=
  match g with
  | String _ t => Text.all_bytes Text.is_continuation t = true
  | EmptyString => False
  end.

Definition lead_group (g : string) : Prop :=
  match g with
  | String b t =>
      Text.is_continuation b = false /\ Text.all_bytes Text.is_continuation t = true
  | EmptyString => False
  end.

Lemma all_bytes_app p s1 s2 :
  Text.all_bytes p (s1 +++ s2) = Text.all_bytes p s1 && Text.all_bytes p s2.
Proof.
  induction s1 as [|c s1 IH]; simpl; [reflexivity|].
  now rewrite IH, andb_assoc.
Qed.

Lemma split_tail t : forall cur r,
  Text.all_bytes Text.is_continuation t = true ->
  Text.split_chars cur (t +++ r) = Text.split_chars (cur +++ t) r.
Proof.
  induction t as [|c t IH]; intros cur r Ht; cbn [String.append].
  - now rewrite append_empty_r.
  - cbn [Text.all_bytes] in Ht. apply andb_true_iff in Ht. destruct Ht as [Hc Ht].
    cbn [Text.split_chars]. rewrite Hc, (IH _ _ Ht), append_assoc_string.
    reflexivity.
Qed.

Lemma split_lead_groups xs :
  Forall lead_group xs ->
  forall cur, cur <> EmptyString ->
  Text.split_chars cur (String.concat EmptyString xs) = cur :: xs.
Proof.
  induction 1 as [|g xs Hg _ IH]; intros cur Hcur.
  - destruct cur; [contradiction | reflexivity].
  - rewrite concat_cons. destruct g as [|b t]; [contradiction|].
    destruct Hg as [Hb Ht]. cbn [String.append Text.split_chars]. rewrite Hb.
    rewrite (split_tail t _ _ Ht), IH by discriminate.
    destruct cur; [contradiction | reflexivity].
Qed.

Lemma split_shape s : forall cur,
  byte_group cur ->
  exists t xs,
    Text.all_bytes Text.is_continuation t = true /\ Forall lead_group xs /\
    Text.split_chars cur s = (cur +++ t) :: xs.
Proof.
  induction s as [|c s IH]; intros cur Hcur; cbn [Text.split_chars].
  - exists EmptyString, []. rewrite append_empty_r.
    destruct cur; [contradiction|]. repeat split. constructor.
  - destruct (Text.is_continuation c) eqn:Hc.
    + destruct (IH (cur +++ String c EmptyString)) as (t & xs & Ht & Hxs & Heq).
      { destruct cur as [|b u]; [contradiction|]. cbn [String.append byte_group] in *.
        rewrite all_bytes_app, Hcur. cbn. now rewrite Hc. }
      exists (String c t), xs. rewrite Heq, append_assoc_string.
      repeat split; [cbn; now rewrite Hc, Ht | assumption].
    + destruct (IH (String c EmptyString) eq_refl) as (t & xs & Ht & Hxs & Heq).
      exists EmptyString, ((String c EmptyString +++ t) :: xs).
      rewrite append_empty_r, Heq. destruct cur; [contradiction|].
      repeat split. constructor; [|assumption]. cbn. auto.
Qed.

Lemma chars_shape s :
  Text.chars s = [] \/
  exists g xs, byte_group g /\ Forall lead_group xs /\ Text.chars s = g :: xs.
Proof.
  unfold Text.chars. destruct s as [|c s]; [now left | right].
  cbn [Text.split_chars].
  destruct (split_shape s (String c EmptyString) eq_refl)
    as (t & xs & Ht & Hxs & Heq).
  exists (String c EmptyString +++ t), xs.
  split; [exact Ht|]. split; [exact Hxs|].
  destruct (Text.is_continuation c); exact Heq.
Qed.

Lemma chars_of_groups g xs :
  byte_group g -> Forall lead_group xs ->
  Text.chars (String.concat EmptyString (g :: xs)) = g :: xs.
Proof.
  intros Hg Hxs. unfold Text.chars. rewrite concat_cons.
  destruct g as [|b t]; [contradiction|]. cbn [String.append Text.split_chars].
  assert (Heq : Text.split_chars (String b EmptyString)
                  (t +++ String.concat EmptyString xs) = String b t :: xs).
  { rewrite (split_tail t _ _ Hg). now apply split_lead_groups. }
  destruct (Text.is_continuation b); exact Heq.
Qed.

(** [s[:n]] holds the first [n] characters of [s]. *)
Lemma chars_take n s : Text.chars (Text.take n s) = firstn n (Text.chars s).
Proof.
  unfold Text.take.
  destruct (chars_shape s) as [->|(g & xs & Hg & Hxs & ->)];
    [now rewrite firstn_nil|].
  destruct n as [|n]; [reflexivity|]. cbn [firstn].
  apply chars_of_groups; [assumption|].
  rewrite Forall_forall in *. intros x Hx. apply Hxs, (In_firstn_In _ _ _ Hx).
Qed.

Lemma take_length n s : (Text.length (Text.take n s) <= n)%nat.
Proof. unfold Text.length. rewrite chars_take, length_firstn. apply Nat.le_min_l. Qed.

(** *** Words *)

Section Runs.
Context {A : Type} (p : A -> bool).

(** [maximal_runs cs rs]: [rs] lists, from left to right, the maximal runs
    of elements of [cs] that satisfy [p]. *)
Inductive maximal_runs : list A -> list (list A) -> Prop :=
| runs_done : maximal_runs [] []
| runs_skip c cs rs :
    p c = false -> maximal_runs cs rs -> maximal_runs (c :: cs) rs
| runs_last run :
    run <> [] -> forallb p run = true -> maximal_runs run [run]
| runs_next run c cs rs :
    run <> [] -> forallb p run = true -> p c = false ->
    maximal_runs cs rs -> maximal_runs (run ++ c :: cs) (run :: rs).

End Runs.

Section RunsUnique.
Context {A : Type} (p : A -> bool).

Lemma run_ends (run run' : list A) c c' cs cs' :
  forallb p run = true -> forallb p run' = true -> p c = false -> p c' = false ->
  run ++ c :: cs = run' ++ c' :: cs' -> run = run' /\ c = c' /\ cs = cs'.
Proof.
  revert run'. induction run as [|x run IH]; intros run' Hrun Hrun' Hc Hc' Heq.
  - destruct run' as [|y run']; cbn in Heq.
    + injection Heq as -> ->. auto.
    + injection Heq as -> _. cbn in Hrun'. rewrite Hc in Hrun'. discriminate.
  - destruct run' as [|y run']; cbn in Heq.
    + injection Heq as -> _. cbn in Hrun. rewrite Hc' in Hrun. discriminate.
    + injection Heq as -> Heq. cbn in Hrun, Hrun'.
      apply andb_true_iff in Hrun, Hrun'.
      destruct (IH run' (proj2 Hrun) (proj2 Hrun') Hc Hc' Heq) as (-> & -> & ->).
      auto.
Qed.

Lemma run_whole (run run' : list A) c cs :
  forallb p run' = true -> p c = false -> run ++ c :: cs <> run'.
Proof.
  intros Hrun' Hc Heq. rewrite forallb_forall in Hrun'.
  rewrite (Hrun' c) in Hc; [discriminate|]. rewrite <- Heq. apply in_elt.
Qed.

Lemma run_head (run : list A) c cs :
  run <> [] -> forallb p run = true -> p c = false -> c :: cs <> run.
Proof.
  intros _ Hrun Hc Heq. subst run. cbn in Hrun. rewrite Hc in Hrun. discriminate.
Qed.

Lemma run_head_next (run : list A) c cs c' cs' :
  run <> [] -> forallb p run = true -> p c = false -> c :: cs <> run ++ c' :: cs'.
Proof.
  intros Hne Hrun Hc Heq. destruct run as [|x run]; [contradiction|].
  cbn in Heq. injection Heq as -> _. cbn in Hrun. rewrite Hc in Hrun. discriminate.
Qed.

(** A text has one sequence of maximal runs. *)
Lemma maximal_runs_unique cs rs rs' :
  maximal_runs p cs rs -> maximal_runs p cs rs' -> rs = rs'.
Proof.
  intros H. revert rs'. induction H as [|c cs rs Hc H IH|run Hne Hrun|run c cs rs Hne Hrun Hc H IH];
    intros rs' H'.
  - inversion H' as [| | run Hne Hrun Heq|run c cs rs Hne Hrun Hc Hrest Heq]; subst;
      try reflexivity.
    + contradiction.
    + destruct run; discriminate.
  - inversion H' as [|c' cs' rs0 Hc' Hrest|run Hne Hrun Heq|run c' cs' rs0 Hne Hrun Hc' Hrest Heq];
      subst.
    + now apply IH.
    + exfalso. cbn in Hrun. rewrite Hc in Hrun. discriminate.
    + exfalso. symmetry in Heq. exact (run_head_next run c cs c' cs' Hne Hrun Hc Heq).
  - inversion H' as [|c' cs' rs0 Hc' Hrest Heq|run' Hne' Hrun' Heq|run' c' cs' rs0 Hne' Hrun' Hc' Hrest Heq];
      subst.
    + contradiction.
    + exfalso. cbn in Hrun. rewrite Hc' in Hrun. discriminate.
    + reflexivity.
    + exfalso. exact (run_whole run' _ c' cs' Hrun Hc' eq_refl).
  - inversion H' as [Heq|c' cs' rs0 Hc' Hrest Heq|run' Hne' Hrun' Heq|run' c' cs' rs0 Hne' Hrun' Hc' Hrest Heq].
    + destruct run; discriminate.
    + exfalso. exact (run_head_next run c' cs' c cs Hne Hrun Hc' Heq).
    + subst. exfalso. exact (run_whole run _ c cs Hrun' Hc eq_refl).
    + destruct (run_ends run' run c' c cs' cs Hrun' Hrun Hc' Hc Heq) as (-> & -> & ->).
      f_equal. now apply IH.
Qed.

End RunsUnique.

(** The runs of at least four characters, each joined into a word. *)
Definition words_of (runs : list (list string)) : list string :=
  map (String.concat EmptyString)
      (filter (fun run => (4 <=? List.length run)%nat) runs).

Lemma words_of_cons run runs :
  words_of (run :: runs) = Text.flush run ++ words_of runs.
Proof.
  unfold words_of, Text.flush. cbn [filter].
  destruct (4 <=? List.length run)%nat; reflexivity.
Qed.

(** The scan computes the words of the maximal runs. *)
Lemma word_runs_spec (is_word : string -> bool) cs : forall run,
  forallb is_word run = true ->
  exists runs,
    maximal_runs is_word (run ++ cs) runs /\
    Text.word_runs is_word cs run = words_of runs.
Proof.
  induction cs as [|c cs IH]; intros run Hrun; cbn [Text.word_runs].
  - rewrite app_nil_r. destruct run as [|r0 run'] eqn:E.
    + exists []. split; [constructor | reflexivity].
    + exists [r0 :: run']. split; [now constructor|].
      rewrite words_of_cons, app_nil_r. reflexivity.
  - destruct (is_word c) eqn:Hc.
    + destruct (IH (run ++ [c])) as (runs & Hruns & Heq).
      { rewrite forallb_app, Hrun. cbn. now rewrite Hc. }
      exists runs. rewrite <- app_assoc in Hruns. auto.
    + destruct (IH [] eq_refl) as (runs & Hruns & Heq). cbn [app] in Hruns.
      destruct run as [|r0 run'] eqn:E.
      * exists runs. split; [now constructor|]. rewrite Heq. reflexivity.
      * exists ((r0 :: run') :: runs). split; [now constructor|].
        now rewrite words_of_cons, Heq.
Qed.

Lemma findall_words4_spec (is_word : string -> bool) s :
  exists runs,
    maximal_runs is_word (Text.chars s) runs /\
    Text.findall_words4 is_word s = words_of runs.
Proof. apply (word_runs_spec is_word (Text.chars s) [] eq_refl). Qed.

(** [w1] is ranked before [w2] among the words [tokens]: it occurs more
    often, or as often and its first occurrence is earlier. *)
Definition outranks (tokens : list string) (w1 w2 : string) : Prop :=
  (count_occ string_dec tokens w2 < count_occ string_dec tokens w1)%nat \/
  (count_occ string_dec tokens w1 = count_occ string_dec tokens w2 /\
   precedes (first_seen String.eqb tokens) w1 w2).

(** [most_common n] of a counter of words: the [n] best-ranked words. *)
Lemma most_common_ranked (tokens : list string) (n : nat) :
  let kws := map fst (most_common n (Counter String.eqb tokens)) in
  Forall (fun w => In w tokens) kws /\
  StronglySorted (outranks tokens) kws /\
  List.length kws = Nat.min n (List.length (first_seen String.eqb tokens)) /\
  (forall w k, In w tokens -> ~ In w kws -> In k kws -> outranks tokens k w).
Proof.
  set (c := Counter String.eqb tokens).
  destruct (Counter_spec String.eqb String.eqb_spec string_dec tokens) as [Hnd Hcount].
  fold c in Hnd, Hcount.
  pose proof (sort_desc_ranked c) as Hranked.
  pose proof (sort_desc_perm c) as Hperm.
  assert (Hword : forall a b, In a (sort_desc c) -> In b (sort_desc c) ->
                              ranks_before c a b -> outranks tokens (fst a) (fst b)).
  { intros [w1 n1] [w2 n2] Ha Hb Hr.
    apply (Permutation_in _ Hperm), Hcount in Ha.
    apply (Permutation_in _ Hperm), Hcount in Hb.
    destruct Ha as [-> _]. destruct Hb as [-> _]. simpl in *.
    destruct Hr as [Hlt|[Heq Hprec]]; [now left | right].
    split; [assumption|].
    rewrite <- (Counter_keys String.eqb String.eqb_spec tokens).
    apply (precedes_map fst) in Hprec. exact Hprec. }
  unfold most_common. cbv zeta. repeat split.
  - rewrite Forall_forall. intros w Hw.
    apply in_map_iff in Hw. destruct Hw as [[w' n'] [<- Hin]].
    apply In_firstn_In, (Permutation_in _ Hperm), Hcount in Hin.
    destruct Hin as [-> Hpos]. simpl.
    apply (count_occ_In string_dec). lia.
  - apply (StronglySorted_map fst (ranks_before c)).
    + intros a b Ha Hb. apply Hword; eapply In_firstn_In; eassumption.
    + now apply StronglySorted_firstn.
  - rewrite length_map, length_firstn, (Permutation_length Hperm).
    rewrite <- (Counter_keys String.eqb String.eqb_spec tokens), length_map.
    reflexivity.
  - intros w k Hw Hnot Hk.
    apply in_map_iff in Hk. destruct Hk as [a [<- Ha]].
    assert (Hin : In (w, count_occ string_dec tokens w) (sort_desc c)).
    { apply (Permutation_in _ (Permutation_sym Hperm)), Hcount.
      split; [reflexivity|]. apply (count_occ_In string_dec) in Hw. lia. }
    rewrite <- (firstn_skipn n (sort_desc c)) in Hin, Hranked.
    apply in_app_or in Hin. destruct Hin as [Hin|Hin].
    + exfalso. apply Hnot. apply in_map_iff. eexists. split; [|exact Hin]. reflexivity.
    + pose proof (sorted_app_cross _ _ _ Hranked _ _ Ha Hin) as Hr.
      apply (Hword a (w, count_occ string_dec tokens w));
        [eapply In_firstn_In | eapply In_skipn_In | ]; eassumption.
Qed.

Lemma collect_titles viral : forall acc rest,
  fold_left collect_title viral (("high_engagement_titles", PList acc) :: rest)
  = ("high_engagement_titles",
     PList (acc ++ map (Text.take 100) (filter truthy (map (text title) viral))))
    :: rest.
Proof.
  induction viral as [|v viral IH]; intros acc rest; simpl.
  - now rewrite app_nil_r.
  - unfold collect_title at 2. destruct (truthy (text title v)); simpl.
    + unfold pattern_append. simpl. rewrite IH, <- app_assoc. reflexivity.
    + apply IH.
Qed.

Lemma viral_titles_filter viral :
  viral_titles viral = filter truthy (map (text title) viral).
Proof.
  unfold viral_titles. induction viral as [|v viral IH]; simpl; [reflexivity|].
  destruct (truthy (text title v)); simpl; now rewrite IH.
Qed.

(** *** The viral records *)

(** The mean of a list of integers as the code computes it. *)
Definition rounded_mean (l : list Z) : Q :=
  Float.round (inject_Z (sum l) / inject_Z (len l)).

(** The records whose views are above the exact mean. *)
Definition above_mean (youtube_data : list item) : list item :=
  filter (fun it => sum (map (metric views) youtube_data)
                    <? metric views it * len youtube_data)
         youtube_data.

(** As long as the sum of the views is non-negative and below [2^53], the
    test against the rounded mean selects the records above the exact
    mean. *)
Lemma viral_above_mean (youtube_data : list item) :
  0 <= sum (map (metric views) youtube_data) < 2 ^ 53 ->
  filter (fun it => Qlt_bool (rounded_mean (map (metric views) youtube_data))
                             (inject_Z (metric views it)))
         youtube_data
  = above_mean youtube_data.
Proof.
  intros Hsum. unfold above_mean. apply filter_ext_in. intros it Hit.
  destruct youtube_data as [|it0 items]; [contradiction|].
  apply eq_true_iff_eq. rewrite Qlt_bool_iff, Z.ltb_lt. unfold rounded_mean.
  rewrite len_map. apply FloatFacts.above_round; [apply len_pos | exact Hsum].
Qed.

Section ViralValue.
Context {L : Libraries}.

(** The block computed by [_analyze_viral_patterns], in one expression. *)
Lemma _analyze_viral_patterns_value (data : Dataset) :
  let youtube_data :=
    match dict_get "youtube" data with Some items => items | None => [] end in
  let viral :=
    filter (fun it => Qlt_bool (rounded_mean (map (metric views) youtube_data))
                               (inject_Z (metric views it)))
           youtube_data in
  let tokens := Text.findall_words4 word_char
                  (str_lower (String.concat " "
                                (filter truthy (map (text title) viral)))) in
  _analyze_viral_patterns data
  = Ok [ ("high_engagement_titles",
          PList (map (Text.take 100)
                     (filter truthy (map (text title) (firstn 5 viral)))));
         ("common_keywords_in_viral",
          PList (map fst (most_common 10 (Counter String.eqb tokens))));
         ("content_length_pattern", PEmptyDict);
         ("emotional_triggers", PList []) ].
Proof.
  assert (Hnone : Text.findall_words4 word_char (str_lower EmptyString) = []).
  { now rewrite (str_lower_ascii EmptyString eq_refl). }
  unfold _analyze_viral_patterns.
  destruct (match dict_get "youtube" data with Some items => items | None => [] end)
    as [|it0 items].
  { cbv zeta. cbn [filter map firstn String.concat]. rewrite Hnone. reflexivity. }
  cbv zeta. rewrite truediv_ok by (rewrite len_map; apply len_nonzero). cbn [bind].
  unfold viral_videos. fold (rounded_mean (map (metric views) (it0 :: items))).
  destruct (filter _ (it0 :: items)) as [|v viral] eqn:Hviral.
  { cbn [filter map firstn String.concat]. rewrite Hnone. reflexivity. }
  unfold initial_patterns. rewrite collect_titles, viral_titles_filter. simpl app.
  destruct (truthy (String.concat " " (filter truthy (map (text title) (v :: viral)))))
    eqn:Hall.
  - destruct (Text.findall_words4 word_char
                (str_lower (String.concat " "
                              (filter truthy (map (text title) (v :: viral))))))
      as [|w ws] eqn:Hwords; reflexivity.
  - destruct (String.concat " " (filter truthy (map (text title) (v :: viral))));
      [|discriminate].
    rewrite Hnone. reflexivity.
Qed.

End ViralValue.

(** Below [2^53] the rounded mean and the arithmetic mean separate the same
    view counts. *)
Lemma rounded_mean_above (l : list Z) (v : Z) :
  l <> [] -> 0 <= sum l < 2 ^ 53 ->
  ((Float.round (inject_Z (sum l) / inject_Z (len l)) < inject_Z v)%Q
   <-> (inject_Z (sum l) / inject_Z (len l) < inject_Z v)%Q).
Proof.
  intros Hl Hsum. destruct l as [|x l]; [contradiction|].
  rewrite (FloatFacts.above_round _ _ _ (len_pos x l) Hsum).
  rewrite (mean_lt_iff _ _ _ (len_pos x l)). reflexivity.
Qed.

Section ViralPatterns.
Context {L : Libraries}.

(** C7 (as amended).  Viral-pattern analysis reads the records of the
    platform "youtube" only.  A record is viral exactly when its views are
    strictly above the mean of the views of those records as the code
    computes it, in double precision; that is the arithmetic mean test
    whenever the sum of the views is non-negative and below [2^53].
    [high_engagement_titles] holds, in input order, the non-empty titles
    found among the first five viral records, each cut to its first 100
    characters.  [common_keywords_in_viral] holds the ten best-ranked
    words of the viral titles, joined by spaces and lowercased by
    [str.lower]: a word is a maximal run of at least four word characters
    (the text has one sequence of maximal runs), more frequent words come
    first and, among equally frequent ones, the
    one met first.  The other two fields are empty, and without a
    "youtube" platform all four are. *)
Theorem viral_patterns_spec (data : Dataset) :
  let youtube_data :=
    match dict_get "youtube" data with Some items => items | None => [] end in
  let views_of := map (metric views) youtube_data in
  let mean := Float.round (inject_Z (sum views_of) / inject_Z (len views_of)) in
  exists viral titles runs tokens kws,
    _analyze_viral_patterns data
    = Ok [ ("high_engagement_titles", PList titles);
           ("common_keywords_in_viral", PList kws);
           ("content_length_pattern", PEmptyDict);
           ("emotional_triggers", PList []) ] /\
    viral = filter (fun it => Qlt_bool mean (inject_Z (metric views it))) youtube_data /\
    (forall it, In it viral <->
                In it youtube_data /\ (mean < inject_Z (metric views it))%Q) /\
    (0 <= sum views_of < 2 ^ 53 ->
     forall it, In it viral <->
                In it youtube_data /\
                (inject_Z (sum views_of) / inject_Z (len views_of)
                 < inject_Z (metric views it))%Q) /\
    titles = map (Text.take 100) (filter truthy (map (text title) (firstn 5 viral))) /\
    (List.length titles <= 5)%nat /\
    Forall (fun t => (Text.length t <= 100)%nat) titles /\
    maximal_runs word_char
      (Text.chars (str_lower (String.concat " "
                                (filter truthy (map (text title) viral)))))
      runs /\
    (forall runs',
        maximal_runs word_char
          (Text.chars (str_lower (String.concat " "
                                    (filter truthy (map (text title) viral)))))
          runs' -> runs' = runs) /\
    tokens = map (String.concat EmptyString)
                 (filter (fun run => (4 <=? List.length run)%nat) runs) /\
    Forall (fun w => In w tokens) kws /\
    StronglySorted (outranks tokens) kws /\
    List.length kws = Nat.min 10 (List.length (first_seen String.eqb tokens)) /\
    (forall w k, In w tokens -> ~ In w kws -> In k kws -> outranks tokens k w) /\
    (dict_get "youtube" data = None -> titles = [] /\ kws = []).
Proof.
  intros youtube_data views_of mean.
  pose proof (_analyze_viral_patterns_value data) as Hvalue. cbv zeta in Hvalue.
  fold youtube_data in Hvalue. fold views_of in Hvalue.
  unfold rounded_mean in Hvalue. fold mean in Hvalue.
  set (viral := filter (fun it => Qlt_bool mean (inject_Z (metric views it)))
                       youtube_data) in *.
  destruct (findall_words4_spec word_char
              (str_lower (String.concat " " (filter truthy (map (text title) viral)))))
    as (runs & Hruns & Htokens).
  set (tokens := Text.findall_words4 word_char
                   (str_lower (String.concat " "
                                 (filter truthy (map (text title) viral))))) in *.
  destruct (most_common_ranked tokens 10) as (Hin & Hsorted & Hlen & Hmax).
  exists viral, (map (Text.take 100) (filter truthy (map (text title) (firstn 5 viral)))),
    runs, tokens, (map fst (most_common 10 (Counter String.eqb tokens))).
  assert (Hmember : forall it, In it viral <->
             In it youtube_data /\ (mean < inject_Z (metric views it))%Q).
  { intros it. unfold viral. rewrite filter_In, Qlt_bool_iff. reflexivity. }
  split; [exact Hvalue|]. split; [reflexivity|]. split; [exact Hmember|]. split.
  { intros Hsum it. rewrite Hmember.
    assert (Hsame : In it youtube_data ->
              ((mean < inject_Z (metric views it))%Q <->
               (inject_Z (sum views_of) / inject_Z (len views_of)
                < inject_Z (metric views it))%Q)).
    { intros Hit. apply rounded_mean_above; [|exact Hsum].
      unfold views_of. destruct youtube_data; [contradiction | discriminate]. }
    split; intros [Hit Hlt]; (split; [exact Hit | apply (Hsame Hit); exact Hlt]). }
  split; [reflexivity|]. split.
  { rewrite length_map.
    etransitivity; [apply filter_length_le|].
    rewrite length_map, length_firstn. apply Nat.le_min_l. }
  split.
  { rewrite Forall_forall. intros t Ht. apply in_map_iff in Ht.
    destruct Ht as [t' [<- _]]. apply take_length. }
  split; [exact Hruns|].
  split; [intros runs' Hruns'; exact (maximal_runs_unique _ _ _ _ Hruns' Hruns)|].
  split; [exact Htokens|].
  split; [exact Hin|]. split; [exact Hsorted|]. split; [exact Hlen|].
  split; [exact Hmax|].
  intros Hnone. subst tokens viral youtube_data. rewrite Hnone.
  cbn [filter map firstn String.concat].
  rewrite (str_lower_ascii EmptyString eq_refl). split; reflexivity.
Qed.

End ViralPatterns.

Section ViralBlock.
Context {L : Libraries}.

(** C10.  When the [try] block of [analyze] completes, the
    [viral_content_patterns] block has exactly the four keys
    high_engagement_titles, common_keywords_in_viral, content_length_pattern
    and emotional_triggers, and the last two hold the empty mapping and the
    empty sequence. *)
Theorem viral_block_keys (entropy : nat -> nat) (data : Dataset) (insights : Insights)
    (Hok : analyze_body entropy data = Ok insights) :
  analyze entropy data = insights /\
  keys (viral_content_patterns (analyze entropy data))
  = ["high_engagement_titles"; "common_keywords_in_viral";
     "content_length_pattern"; "emotional_triggers"] /\
  dict_get "content_length_pattern" (viral_content_patterns (analyze entropy data))
  = Some PEmptyDict /\
  dict_get "emotional_triggers" (viral_content_patterns (analyze entropy data))
  = Some (PList []).
Proof.
  unfold analyze. rewrite Hok. split; [reflexivity|].
  destruct (analyze_body_inv _ _ _ Hok) as (_ & Hviral & _).
  rewrite _analyze_viral_patterns_value in Hviral.
  inversion Hviral as [Hblock]. repeat split; reflexivity.
Qed.

End ViralBlock.

Section ReportedPlatforms.
Context {L : Libraries}.

Lemma absent_or_empty (data : Dataset) P :
  NoDup (keys data) ->
  dict_get P data = None \/ dict_get P data = Some [] ->
  forall items, In (P, items) data -> items = [].
Proof.
  intros Hnd H items Hin. apply (In_dict_get _ _ _ Hnd) in Hin.
  destruct H as [H|H]; congruence.
Qed.

Lemma no_key_nil {V : Type} P : ~ has_key P ([] : dict V).
Proof. intros []. Qed.

(** The keys of the block of viral patterns. *)
Definition viral_keys : list string :=
  [ "high_engagement_titles"; "common_keywords_in_viral";
    "content_length_pattern"; "emotional_triggers" ].

Lemma viral_block_has_keys data patterns P :
  _analyze_viral_patterns data = Ok patterns -> has_key P patterns -> In P viral_keys.
Proof.
  intros Hvalue Hkey. rewrite _analyze_viral_patterns_value in Hvalue.
  cbv zeta in Hvalue. injection Hvalue as <-. exact Hkey.
Qed.

(** C2 (as amended).  When the [try] block completes -- no platform mixes
    naive and aware timestamps -- a platform with at least one record is a
    key of [best_posting_times] and of [platform_insights], and its
    [total_items] is the number of its records.  When the block raises --
    some platform mixes the two kinds of timestamps -- the result is the
    all-empty insights and no block has a key.  In every case a platform
    that is absent from the dataset or has no record is a key of none of
    the four blocks that are keyed by platform, and a key of the block of
    viral patterns only if it bears the name of one of its four fields. *)
Theorem platforms_with_records_are_reported
    (entropy : nat -> nat) (data : Dataset) (P : string)
    (Hkeys : NoDup (keys data)) :
  (forall items,
      clean data -> dict_get P data = Some items -> items <> [] ->
      has_key P (best_posting_times (analyze entropy data)) /\
      exists summary,
        dict_get P (platform_insights (analyze entropy data)) = Some summary /\
        total_items summary = List.length items) /\
  (~ clean data ->
   analyze_body entropy data = Raise TypeError /\
   analyze entropy data = empty_insights /\
   forall Q,
     ~ has_key Q (best_posting_times (analyze entropy data)) /\
     ~ has_key Q (viral_content_patterns (analyze entropy data)) /\
     ~ has_key Q (engagement_insights (analyze entropy data)) /\
     ~ has_key Q (keyword_performance (analyze entropy data)) /\
     ~ has_key Q (platform_insights (analyze entropy data))) /\
  (dict_get P data = None \/ dict_get P data = Some [] ->
   ~ has_key P (best_posting_times (analyze entropy data)) /\
   ~ has_key P (engagement_insights (analyze entropy data)) /\
   ~ has_key P (keyword_performance (analyze entropy data)) /\
   ~ has_key P (platform_insights (analyze entropy data)) /\
   (~ In P viral_keys ->
    ~ has_key P (viral_content_patterns (analyze entropy data)))).
Proof.
  split; [|split].
  - intros items Hclean Hget Hne. apply dict_get_In in Hget.
    destruct (analyze_blocks entropy data Hclean) as (-> & _ & _ & _ & Hpi).
    split.
    + apply has_key_get.
      destruct (posting_loop_entry entropy data [] 0%nat P items Hkeys Hget Hne)
        as [drawn Hd].
      eexists. exact Hd.
    + rewrite platforms_loop in Hpi.
      destruct (platform_loop_entry _ _ _ _ _ _ Hkeys Hpi Hget Hne) as (o & Ho & Hentry).
      unfold platforms_body in Ho.
      destruct (_get_date_range items) as [range|]; [|discriminate].
      inversion Ho; subst. eauto.
  - intros Hdirty. unfold analyze.
    destruct (analyze_body entropy data) as [ins|e] eqn:Hins.
    + exfalso. apply Hdirty. apply (analyze_body_ok_iff_clean entropy data). eauto.
    + destruct (analyze_body_raises _ _ _ Hins) as [-> _].
      split; [reflexivity|]. split; [reflexivity|].
      intros Q. repeat split; apply no_key_nil.
  - intros Habsent.
    pose proof (absent_or_empty data P Hkeys Habsent) as Hempty.
    assert (Hnone : forall V (d : dict V),
               (has_key P d ->
                has_key P ([] : dict V) \/ exists items, In (P, items) data /\ items <> []) ->
               ~ has_key P d).
    { intros V d Hd Hk. destruct (Hd Hk) as [[]|(items & Hin & Hne)].
      apply Hne, Hempty, Hin. }
    unfold analyze. destruct (analyze_body entropy data) as [ins|e] eqn:Hins.
    2: { repeat split; try apply no_key_nil. intros _. apply no_key_nil. }
    destruct (analyze_body_inv _ _ _ Hins) as (-> & Hvp & Hei & Hkp & Hpi).
    rewrite engagement_loop in Hei. rewrite keywords_loop in Hkp.
    rewrite platforms_loop in Hpi.
    split; [apply Hnone, posting_loop_keys|].
    split; [apply Hnone, (platform_loop_keys _ _ _ _ _ Hei)|].
    split; [apply Hnone, (platform_loop_keys _ _ _ _ _ Hkp)|].
    split; [apply Hnone, (platform_loop_keys _ _ _ _ _ Hpi)|].
    intros Hname Hkey. apply Hname. exact (viral_block_has_keys _ _ _ Hvp Hkey).
Qed.

End ReportedPlatforms.

(* ================================================================= *)
(** ** Engagement trend *)

(** [a] is placed before [b] by the sort of the dated records [l]: an
    earlier instant, or the same instant and an earlier position in [l]. *)
Definition earlier (l : list (datetime * Z)) (a b : datetime * Z) : Prop :=
  instant (fst a) < instant (fst b) \/
  (instant (fst a) = instant (fst b) /\ precedes l a b).

Lemma insert_dated_ok (R : datetime * Z -> datetime * Z -> Prop) x s :
  Forall (fun y => aware (fst y) = aware (fst x)) s ->
  (forall y, In y s -> instant (fst y) < instant (fst x) -> R y x) ->
  (forall z, In z s -> instant (fst x) <= instant (fst z) -> R x z) ->
  StronglySorted (fun a b => instant (fst a) <= instant (fst b)) s ->
  StronglySorted R s ->
  exists r, insert_dated x s = Ok r /\ Permutation r (x :: s) /\
            StronglySorted (fun a b => instant (fst a) <= instant (fst b)) r /\
            StronglySorted R r.
Proof.
  intros Hkind Hup Hdown Hle Hs.
  induction Hs as [|y s Hs IH Hy]; simpl.
  - exists [x]. repeat split; auto; repeat constructor.
  - inversion Hkind as [|? ? Hky Hks]; subst.
    inversion Hle as [|? ? Hle' Hyle]; subst.
    rewrite dt_lt_same by assumption. cbn [bind].
    destruct (Z.ltb_spec (instant (fst y)) (instant (fst x))) as [Hlt|Hge].
    + destruct IH as (r & -> & Hperm & Hrle & HrR); try assumption.
      { intros z Hz. apply Hup. now right. }
      { intros z Hz. apply Hdown. now right. }
      cbn [bind]. exists (y :: r). split; [reflexivity|]. split.
      { rewrite Hperm. apply perm_swap. }
      split; constructor; try assumption; rewrite Forall_forall in *; intros z Hz;
        apply (Permutation_in _ Hperm) in Hz; destruct Hz as [<-|Hz]; auto.
      * lia.
      * apply Hup; [now left | assumption].
    + exists (x :: y :: s). split; [reflexivity|]. split; [reflexivity|].
      split; constructor; try (constructor; assumption);
        rewrite Forall_forall in *; intros z Hz.
      * destruct Hz as [<-|Hz]; [assumption|]. specialize (Hyle z Hz). simpl in Hyle. lia.
      * apply Hdown; [assumption|].
        destruct Hz as [<-|Hz]; [assumption|]. specialize (Hyle z Hz). simpl in Hyle. lia.
Qed.

(** On datetimes of one kind the sort completes: its result is a
    permutation in ascending order, records of equal instant in their
    original order. *)
Lemma sort_dated_ok (l : list (datetime * Z)) k :
  Forall (fun y => aware (fst y) = k) l ->
  exists s, sort_dated l = Ok s /\ Permutation s l /\
            StronglySorted (fun a b => instant (fst a) <= instant (fst b)) s /\
            StronglySorted (earlier l) s.
Proof.
  induction l as [|x l IH]; intros Hkind; simpl.
  - exists []. repeat split; constructor.
  - inversion Hkind as [|? ? Hkx Hkl]; subst.
    destruct (IH Hkl) as (s & -> & Hperm & Hle & Hearlier). cbn [bind].
    destruct (insert_dated_ok (earlier (x :: l)) x s) as (r & Hr & Hrperm & Hrle & HrR).
    + rewrite Forall_forall in *. intros y Hy.
      apply (Permutation_in _ Hperm) in Hy. auto.
    + intros y _ Hlt. now left.
    + intros z Hz Hge. apply (Permutation_in _ Hperm) in Hz.
      destruct (Z.eq_dec (instant (fst x)) (instant (fst z))) as [Heq|Hne].
      * right. split; [assumption | now apply precedes_head].
      * left. lia.
    + assumption.
    + apply (StronglySorted_weaken (earlier l)); [|assumption].
      intros a b _ _ [Hlt|[Heq Hprec]]; [now left | right].
      split; [assumption | now apply precedes_cons].
    + exists r. repeat split; try assumption.
      rewrite Hrperm. now constructor.
Qed.

Lemma same_kind_Forall (dates : list datetime) :
  same_kind dates = true ->
  exists k, Forall (fun d => aware d = k) dates.
Proof.
  destruct dates as [|d rest]; simpl; intros H; [exists true; constructor|].
  exists (aware d). constructor; [reflexivity|].
  rewrite forallb_forall in H. rewrite Forall_forall. intros x Hx.
  apply Bool.eqb_prop. auto.
Qed.

Lemma Forall_same_kind (dates : list datetime) k :
  Forall (fun d => aware d = k) dates -> same_kind dates = true.
Proof.
  destruct dates as [|d rest]; simpl; intros H; [reflexivity|].
  inversion H as [|? ? Hd Hrest]; subst.
  apply forallb_forall. intros x Hx. rewrite Forall_forall in Hrest.
  rewrite (Hrest x Hx). apply Bool.eqb_reflx.
Qed.

(** On datetimes of both kinds a comparison raises. *)
Lemma sort_dated_mixed (l : list (datetime * Z)) :
  same_kind (map fst l) = false -> sort_dated l = Raise TypeError.
Proof.
  induction l as [|x l IH]; [discriminate|]. intros Hmixed.
  cbn [sort_dated].
  destruct (same_kind (map fst l)) eqn:Hl; [|now rewrite IH].
  destruct (same_kind_Forall _ Hl) as [k Hk].
  assert (Hk' : Forall (fun y => aware (fst y) = k) l).
  { rewrite Forall_forall in *. intros y Hy. apply Hk. now apply in_map. }
  destruct (sort_dated_ok l k Hk') as (s & -> & Hperm & _). cbn [bind].
  assert (Hx : aware (fst x) <> k).
  { intros Hx. rewrite (Forall_same_kind (map fst (x :: l)) k) in Hmixed;
      [discriminate|]. constructor; assumption. }
  destruct s as [|y s].
  - apply Permutation_nil in Hperm. subst l. discriminate.
  - simpl. rewrite dt_lt_mixed; [reflexivity|].
    rewrite Forall_forall in Hk'.
    rewrite (Hk' y); [congruence|].
    apply (Permutation_in _ Hperm). now left.
Qed.

Lemma compare_halves_value first_half second_half :
  first_half <> [] -> second_half <> [] ->
  let m1 := Float.round (inject_Z (sum first_half) / inject_Z (len first_half)) in
  let m2 := Float.round (inject_Z (sum second_half) / inject_Z (len second_half)) in
  compare_halves first_half second_half
  = Ok (if Qlt_bool (Float.mul m1 Float.lit_1_2) m2 then "Increasing"
        else if Qlt_bool m2 (Float.mul m1 Float.lit_0_8) then "Decreasing"
        else "Stable").
Proof.
  intros H1 H2. unfold compare_halves.
  destruct first_half as [|a f]; [contradiction|].
  destruct second_half as [|b s]; [contradiction|].
  rewrite !truediv_ok by apply len_nonzero. cbn [bind]. cbv zeta.
  destruct (Qlt_bool _ _); [reflexivity|].
  destruct (Qlt_bool _ _); reflexivity.
Qed.

Lemma half_nonempty {A : Type} (l : list A) :
  (5 <= List.length l)%nat ->
  firstn (List.length l / 2) l <> [] /\ skipn (List.length l / 2) l <> [].
Proof.
  intros Hlen.
  assert (Hmid : (2 <= List.length l / 2 < List.length l)%nat).
  { split.
    - change 2%nat with (4 / 2)%nat. apply Nat.Div0.div_le_mono. lia.
    - apply Nat.div_lt; lia. }
  split; intros H; apply (f_equal (@List.length A)) in H;
    change (@List.length A []) with 0%nat in H.
  - rewrite length_firstn in H. lia.
  - rewrite length_skipn in H. lia.
Qed.

Section Trend.
Context {L : Libraries}.

(** The records that enter the trend: a non-empty [published_at] that
    parses. *)
Definition has_date (it : item) : bool :=
  truthy (text published_at it) &&
  match parse_published (text published_at it) with Some _ => true | None => false end.

Lemma dated_items_engagement items :
  map snd (dated_items items)
  = map (trend_engagement
           (match items with it0 :: _ => text platform it0 | [] => EmptyString end))
        (filter has_date items).
Proof.
  unfold dated_items.
  set (tag := match items with it0 :: _ => text platform it0 | [] => EmptyString end).
  clearbody tag. induction items as [|it items IH]; simpl; [reflexivity|].
  unfold has_date at 1.
  destruct (truthy (text published_at it)); simpl; [|exact IH].
  destruct (parse_published (text published_at it)); simpl; now rewrite IH.
Qed.

(** C8 (as amended).  The trend is "Insufficient data" exactly for fewer
    than 5 records.  With 5 records or more it is "Stable" when fewer than 5
    of them have a date that parses, and also when the parsed dates mix
    naive and aware datetimes.  Otherwise the dated records are sorted by
    ascending date (equal dates in input order) and split after the first
    floor(n/2).  With m1 and m2 the means of the engagement in the two
    halves, each rounded to a double, and with the products taken in
    double precision with the doubles nearest to 1.2 and 0.8, the trend is
    "Increasing" if m2 > m1 * 1.2, else "Decreasing" if m2 < m1 * 0.8, else
    "Stable".  The engagement of a record is chosen by the [platform] field
    of the first record of the sequence -- views when it contains
    "youtube", else upvotes when it contains "reddit", else 0 -- and not by
    the key of the platform in the dataset. *)
Theorem engagement_trend_spec (items : list item) :
  let tag := match items with it0 :: _ => text platform it0 | [] => EmptyString end in
  let dated := dated_items items in
  (_get_engagement_trend items = "Insufficient data" <-> (List.length items < 5)%nat) /\
  map snd dated
  = map (fun it => if Text.contains "youtube" tag then metric views it
                   else if Text.contains "reddit" tag then metric upvotes it
                   else 0)
        (filter has_date items) /\
  ((5 <= List.length items)%nat ->
   ((List.length dated < 5)%nat -> _get_engagement_trend items = "Stable") /\
   (same_kind (map fst dated) = false -> _get_engagement_trend items = "Stable") /\
   ((5 <= List.length dated)%nat -> same_kind (map fst dated) = true ->
    exists sorted,
      sort_dated dated = Ok sorted /\
      Permutation sorted dated /\
      StronglySorted (earlier dated) sorted /\
      let mid := (List.length dated / 2)%nat in
      let first_half := map snd (firstn mid sorted) in
      let second_half := map snd (skipn mid sorted) in
      let m1 := Float.round (inject_Z (sum first_half) / inject_Z (len first_half)) in
      let m2 := Float.round (inject_Z (sum second_half) / inject_Z (len second_half)) in
      ((Float.mul m1 Float.lit_1_2 < m2)%Q -> _get_engagement_trend items = "Increasing") /\
      (~ (Float.mul m1 Float.lit_1_2 < m2)%Q -> (m2 < Float.mul m1 Float.lit_0_8)%Q ->
       _get_engagement_trend items = "Decreasing") /\
      (~ (Float.mul m1 Float.lit_1_2 < m2)%Q -> ~ (m2 < Float.mul m1 Float.lit_0_8)%Q ->
       _get_engagement_trend items = "Stable"))).
Proof.
  intros tag dated.
  assert (Hsorted : (5 <= List.length dated)%nat -> same_kind (map fst dated) = true ->
            exists sorted,
              sort_dated dated = Ok sorted /\ Permutation sorted dated /\
              StronglySorted (earlier dated) sorted /\
              trend_of_dated dated
              = Ok (let mid := (List.length dated / 2)%nat in
                    let first_half := map snd (firstn mid sorted) in
                    let second_half := map snd (skipn mid sorted) in
                    let m1 := Float.round (inject_Z (sum first_half) / inject_Z (len first_half)) in
                    let m2 := Float.round (inject_Z (sum second_half) / inject_Z (len second_half)) in
                    if Qlt_bool (Float.mul m1 Float.lit_1_2) m2 then "Increasing"
                    else if Qlt_bool m2 (Float.mul m1 Float.lit_0_8) then "Decreasing"
                    else "Stable")).
  { intros Hlen Hkind. destruct (same_kind_Forall _ Hkind) as [k Hk].
    destruct (sort_dated_ok dated k) as (sorted & Hs & Hperm & _ & Hearlier).
    { rewrite Forall_forall in *. intros y Hy. apply Hk. now apply in_map. }
    exists sorted. repeat split; try assumption.
    unfold trend_of_dated.
    destruct (Nat.leb_spec 5 (List.length dated)) as [_|Hlt]; [|lia].
    rewrite Hs. cbn [bind]. rewrite (Permutation_length Hperm).
    assert (Hlen' : (5 <= List.length sorted)%nat)
      by now rewrite (Permutation_length Hperm).
    destruct (half_nonempty sorted Hlen') as [H1 H2].
    rewrite (Permutation_length Hperm) in H1, H2.
    apply compare_halves_value.
    - intros Hnil. apply map_eq_nil in Hnil. contradiction.
    - intros Hnil. apply map_eq_nil in Hnil. contradiction. }
  split; [|split; [apply dated_items_engagement|]].
  - unfold _get_engagement_trend. fold dated.
    destruct (Nat.ltb_spec (List.length items) 5) as [Hlt|Hge];
      [split; auto|].
    split; [|lia]. intros Heq. exfalso.
    destruct (Nat.leb_spec 5 (List.length dated)) as [Hlen|Hlen].
    2: { unfold trend_of_dated in Heq.
         destruct (Nat.leb_spec 5 (List.length dated)); [lia | discriminate]. }
    destruct (same_kind (map fst dated)) eqn:Hkind.
    + destruct (Hsorted Hlen eq_refl) as (sorted & Hs & _ & _ & Ht).
      rewrite Ht in Heq. cbv zeta in Heq.
      destruct (Qlt_bool _ _); [discriminate|].
      destruct (Qlt_bool _ _); discriminate.
    + unfold trend_of_dated in Heq.
      destruct (5 <=? List.length dated)%nat; [|discriminate].
      rewrite (sort_dated_mixed dated Hkind) in Heq. discriminate.
  - intros Hge. unfold _get_engagement_trend. fold dated.
    destruct (Nat.ltb_spec (List.length items) 5) as [Hlt|_]; [lia|].
    split; [|split].
    + intros Hfew. unfold trend_of_dated.
      destruct (Nat.leb_spec 5 (List.length dated)); [lia | reflexivity].
    + intros Hmixed. unfold trend_of_dated.
      destruct (5 <=? List.length dated)%nat; [|reflexivity].
      now rewrite (sort_dated_mixed dated Hmixed).
    + intros Hlen Hkind.
      destruct (Hsorted Hlen Hkind) as (sorted & Hs & Hperm & Hearlier & Ht).
      exists sorted. split; [assumption|]. split; [assumption|].
      split; [assumption|]. rewrite Ht. cbv zeta.
      split; [|split].
      * intros Hinc. apply Qlt_bool_iff in Hinc. now rewrite Hinc.
      * intros Hninc Hdec.
        match goal with |- context [if ?b then "Increasing" else _] =>
          destruct b eqn:E1 end; [apply Qlt_bool_iff in E1; contradiction|].
        apply Qlt_bool_iff in Hdec. now rewrite Hdec.
      * intros Hninc Hndec.
        match goal with |- context [if ?b then "Increasing" else _] =>
          destruct b eqn:E1 end; [apply Qlt_bool_iff in E1; contradiction|].
        match goal with |- context [if ?b then "Decreasing" else _] =>
          destruct b eqn:E2 end; [apply Qlt_bool_iff in E2; contradiction|].
        reflexivity.
Qed.

End Trend.

(* ================================================================= *)
(** ** Recommendations *)

(** *** The rules as the specification words them *)

(** The rules are written here from their description, on the blocks of
    the insights themselves: none of them goes through a function of
    [get_recommendations]. *)

(** Rule 1: one recommendation for every platform whose
    [best_time_range] is not empty. *)
Definition posting_rule_spec (times : dict posting_entry) : list string :=
  map (fun entry =>
         "📅 Post on " +++ fst entry +++ " between " +++ best_time_range (snd entry)
         +++ " for maximum reach")
      (filter (fun entry => negb (best_time_range (snd entry) =? EmptyString)%string)
              times).

(** Rule 2: one recommendation, naming the first three entries, when
    [common_keywords_in_viral] is a non-empty list. *)
Definition viral_rule_spec (viral_patterns : dict pattern_value) : list string :=
  match dict_get "common_keywords_in_viral" viral_patterns with
  | Some (PList (kw :: kws)) =>
      [ "🔥 Include these keywords in content: "
        +++ String.concat ", " (firstn 3 (kw :: kws)) ]
  | _ => []
  end.

(** The engagement a platform is ranked by: its [avg_views], else its
    [avg_upvotes], else 0. *)
Definition reported_engagement (stats : engagement_entry) : Z :=
  match stats with
  | VideoStats avg_views _ _ _ _ _ => avg_views
  | ForumStats avg_upvotes _ _ _ => avg_upvotes
  | OtherStats _ _ => 0
  end.

(** The largest of [floor] and the values of [f] on [l]. *)
Definition highest {A : Type} (f : A -> Z) (floor : Z) (l : list A) : Z :=
  fold_right Z.max floor (map f l).

(** [x] is the first element of [l] on which [f] is largest. *)
Definition first_best {A : Type} (f : A -> Z) (l : list A) (x : A) : Prop :=
  exists before after,
    l = before ++ x :: after /\
    Forall (fun y => f y < f x) before /\
    Forall (fun y => f y <= f x) after.

(** Rule 3: the first platform with the highest engagement, if that
    engagement is positive (and the platform has a name). *)
Definition platform_rule_spec (engagement_stats : dict engagement_entry)
  : list string :=
  let best := highest (fun entry => reported_engagement (snd entry)) 0 engagement_stats in
  if 0 <? best then
    match find (fun entry => reported_engagement (snd entry) =? best) engagement_stats with
    | Some (best_platform, _) =>
        if (best_platform =? EmptyString)%string then []
        else [ "🎯 Focus on " +++ best_platform +++ " for highest engagement (avg: "
               +++ Text.of_Z_commas best +++ ")" ]
    | None => []
    end
  else [].

(** Rule 4: for every platform with keywords, the first keyword with the
    highest average engagement, if that average is positive. *)
Definition keyword_rule_spec (entry : string * dict keyword_stats) : list string :=
  match snd entry with
  | [] => []
  | first :: rest =>
      let best := highest (fun kw => avg_engagement (snd kw))
                          (avg_engagement (snd first)) rest in
      if 0 <? best then
        match find (fun kw => avg_engagement (snd kw) =? best) (first :: rest) with
        | Some (kw, _) =>
            [ "🔑 On " +++ fst entry +++ ", '" +++ kw +++ "' performs best ("
              +++ Text.of_Z_commas best +++ " avg engagement)" ]
        | None => []
        end
      else []
  end.

(** Rules 1 to 4 in order, rule 5 when they give nothing, and the cut to
    five entries. *)
Definition recommendations_spec (insights : Insights) : list string :=
  let recs := posting_rule_spec (best_posting_times insights)
              ++ viral_rule_spec (viral_content_patterns insights)
              ++ platform_rule_spec (engagement_insights insights)
              ++ flat_map keyword_rule_spec (keyword_performance insights) in
  firstn 5 (match recs with
            | [] => [ "📅 Post during business hours (9 AM - 5 PM) for maximum reach";
                      "🔥 Use emotional triggers in your headlines";
                      "🎯 Include clear call-to-actions in your content";
                      "📊 Use data and statistics to build credibility" ]
            | _ :: _ => recs
            end).

(** *** The loops compute the rules *)

Lemma truthy_nonempty (s : string) : truthy s = negb (s =? EmptyString)%string.
Proof. destruct s; reflexivity. Qed.

Lemma posting_rule_loop times : forall recs,
  fold_left posting_rule times recs = recs ++ posting_rule_spec times.
Proof.
  unfold posting_rule_spec.
  induction times as [|[p t] times IH]; intros recs; simpl.
  - now rewrite app_nil_r.
  - rewrite IH, <- truthy_nonempty.
    destruct (truthy (best_time_range t)); simpl; [|reflexivity].
    now rewrite <- app_assoc.
Qed.

Lemma viral_rule_value recs viral_patterns :
  viral_rule recs viral_patterns = recs ++ viral_rule_spec viral_patterns.
Proof.
  unfold viral_rule, viral_rule_spec, viral_keywords_of.
  destruct (dict_get "common_keywords_in_viral" viral_patterns) as [[[|kw kws]|]|];
    try (now rewrite app_nil_r); reflexivity.
Qed.

(** A loop that keeps the current best and replaces it by a strictly
    better element ends on the first element of the largest value. *)
Lemma keep_first_best {A : Type} (f : A -> Z) (rest : list A) : forall first,
  let best := fold_left (fun best x => if f best <? f x then x else best) rest first in
  f best = highest f (f first) rest /\
  find (fun x => f x =? highest f (f first) rest) (first :: rest) = Some best.
Proof.
  unfold highest.
  induction rest as [|y rest IH]; intros first; simpl.
  - split; [reflexivity | now rewrite Z.eqb_refl].
  - destruct (IH (if f first <? f y then y else first)) as [Hval Hfind].
    set (m := fold_right Z.max (f (if f first <? f y then y else first)) (map f rest))
      in *.
    assert (Hm : Z.max (f y) (fold_right Z.max (f first) (map f rest)) = m).
    { subst m. clear. induction rest as [|z rest IH]; simpl.
      - destruct (Z.ltb_spec (f first) (f y)); lia.
      - destruct (Z.ltb_spec (f first) (f y)); simpl in *; lia. }
    rewrite Hm. split; [exact Hval|].
    simpl in Hfind.
    assert (Hge : f (if f first <? f y then y else first) <= m).
    { subst m. clear. induction rest as [|z rest IH]; simpl; lia. }
    destruct (Z.ltb_spec (f first) (f y)) as [Hlt|Hle].
    + destruct (Z.eqb_spec (f first) m) as [Heq|_]; [lia|]. exact Hfind.
    + destruct (Z.eqb_spec (f first) m) as [Heq|Hne]; [exact Hfind|].
      destruct (Z.eqb_spec (f y) m) as [Heq'|_]; [lia | exact Hfind].
Qed.

Lemma fold_left_map {A B S : Type} (g : A -> B) (step : S -> B -> S) l : forall s,
  fold_left step (map g l) s = fold_left (fun s a => step s (g a)) l s.
Proof. induction l as [|a l IH]; intros s; simpl; [reflexivity | apply IH]. Qed.

Lemma fold_left_ext {A S : Type} (f g : S -> A -> S) l :
  (forall s a, f s a = g s a) -> forall s, fold_left f l s = fold_left g l s.
Proof.
  intros Hfg. induction l as [|a l IH]; intros s; simpl; [reflexivity|].
  now rewrite Hfg, IH.
Qed.

Lemma find_map {A B : Type} (g : A -> B) (p : B -> bool) l :
  find p (map g l) = option_map g (find (fun a => p (g a)) l).
Proof.
  induction l as [|a l IH]; simpl; [reflexivity|].
  destruct (p (g a)); [reflexivity | exact IH].
Qed.

Lemma highest_floor {A : Type} (f : A -> Z) floor l : floor <= highest f floor l.
Proof. unfold highest. induction l; simpl; lia. Qed.

Lemma highest_bound {A : Type} (f : A -> Z) floor l m :
  floor <= m -> Forall (fun y => f y <= m) l -> highest f floor l <= m.
Proof.
  unfold highest. intros Hfloor Hall.
  induction Hall as [|y l Hy _ IH]; simpl; lia.
Qed.

Lemma highest_reached {A : Type} (f : A -> Z) floor l x :
  In x l -> f x <= highest f floor l.
Proof.
  unfold highest. induction l as [|y l IH]; simpl; [contradiction|].
  intros [->|Hin]; [lia|]. specialize (IH Hin). lia.
Qed.

(** The first element of largest value is the one [find] meets. *)
Lemma first_best_find {A : Type} (f : A -> Z) l x :
  first_best f l x -> find (fun y => f y =? f x) l = Some x.
Proof.
  intros (before & after & -> & Hbefore & _).
  induction Hbefore as [|y before Hy _ IH]; simpl.
  - now rewrite Z.eqb_refl.
  - destruct (Z.eqb_spec (f y) (f x)); [lia | exact IH].
Qed.

Lemma first_best_highest {A : Type} (f : A -> Z) floor l x :
  first_best f l x -> floor <= f x -> highest f floor l = f x.
Proof.
  intros (before & after & -> & Hbefore & Hafter) Hfloor.
  apply Z.le_antisymm.
  - apply highest_bound; [exact Hfloor|].
    apply Forall_app. split; [|constructor; [lia | exact Hafter]].
    eapply Forall_impl; [|exact Hbefore]. cbn beta. intros; lia.
  - apply highest_reached. apply in_elt.
Qed.

(** The same, when the running maximum starts from the first element. *)
Lemma first_best_highest_from {A : Type} (f : A -> Z) first rest x :
  first_best f (first :: rest) x -> highest f (f first) rest = f x.
Proof.
  intros (before & after & Heq & Hbefore & Hafter).
  destruct before as [|y before]; simpl in Heq; injection Heq as Hy Hrest.
  - subst. apply Z.le_antisymm.
    + apply highest_bound; [lia | exact Hafter].
    + apply highest_floor.
  - subst. inversion Hbefore as [|? ? Hlt Hbefore']; subst.
    apply (first_best_highest f (f y) (before ++ x :: after) x); [|lia].
    exists before, after. auto.
Qed.

Lemma platform_rule_value recs engagement_stats :
  platform_rule recs engagement_stats = recs ++ platform_rule_spec engagement_stats.
Proof.
  unfold platform_rule, platform_rule_spec.
  set (cand := fun entry : string * engagement_entry =>
                 (Some (fst entry), reported_engagement (snd entry))).
  assert (Hloop : fold_left best_step engagement_stats (None, 0)
                  = fold_left (fun best x => if snd best <? snd x then x else best)
                              (map cand engagement_stats) (None, 0)).
  { rewrite fold_left_map. apply fold_left_ext.
    intros s [p e]. unfold best_step, cand. cbn [fst snd].
    destruct e; reflexivity. }
  rewrite Hloop. clear Hloop.
  destruct (keep_first_best (@snd (option string) Z) (map cand engagement_stats) (None, 0))
    as [_ Hfind].
  assert (Hhigh : highest snd 0 (map cand engagement_stats)
                  = highest (fun entry => reported_engagement (snd entry)) 0
                            engagement_stats).
  { unfold highest. now rewrite map_map. }
  cbn [snd] in Hfind. rewrite Hhigh in Hfind. clear Hhigh.
  pose proof (highest_floor (fun entry : string * engagement_entry =>
                               reported_engagement (snd entry)) 0 engagement_stats)
    as Hfloor.
  remember (highest (fun entry => reported_engagement (snd entry)) 0 engagement_stats)
    as v eqn:Hv.
  remember (fold_left (fun best x : option string * Z =>
                         if snd best <? snd x then x else best)
                      (map cand engagement_stats) (None, 0)) as best eqn:Hbest.
  clear Hbest. cbn [find snd] in Hfind.
  destruct (Z.eqb_spec 0 v) as [Hzero|Hnz].
  - inversion Hfind; subst best.
    destruct (Z.ltb_spec 0 v); [lia|]. now rewrite app_nil_r.
  - rewrite find_map in Hfind.
    change (fun a : string * engagement_entry => snd (cand a) =? v)
      with (fun entry : string * engagement_entry =>
              reported_engagement (snd entry) =? v) in Hfind.
    destruct (find _ engagement_stats) as [[p e]|] eqn:Hf; [|discriminate].
    inversion Hfind; subst best. unfold cand. cbn [fst snd].
    apply find_some in Hf. destruct Hf as [_ Heq].
    apply Z.eqb_eq in Heq. cbn [snd] in Heq. rewrite Heq.
    destruct (Z.ltb_spec 0 v); [|lia].
    rewrite truthy_nonempty.
    destruct (p =? EmptyString)%string; [now rewrite app_nil_r | reflexivity].
Qed.

Lemma keyword_rule_value recs entry :
  keyword_rule recs entry = recs ++ keyword_rule_spec entry.
Proof.
  destruct entry as [p keywords]. unfold keyword_rule, keyword_rule_spec. simpl snd.
  destruct keywords as [|first rest]; [now rewrite app_nil_r|].
  unfold max_keyword.
  destruct (keep_first_best (fun kw : string * keyword_stats => avg_engagement (snd kw))
                            rest first) as [Hval Hfind].
  set (best := fold_left _ rest first) in *.
  rewrite Hfind, <- Hval.
  destruct (0 <? avg_engagement (snd best)); [|now rewrite app_nil_r].
  destruct best as [kw st]. reflexivity.
Qed.

Lemma keyword_rule_loop keywords : forall recs,
  fold_left keyword_rule keywords recs = recs ++ flat_map keyword_rule_spec keywords.
Proof.
  induction keywords as [|entry keywords IH]; intros recs; simpl.
  - now rewrite app_nil_r.
  - now rewrite IH, keyword_rule_value, <- app_assoc.
Qed.

(** C9.  [get_recommendations] is the list of the recommendations of
    rules 1 to 4 in that order -- posting times for every platform with a
    non-empty range, the viral keywords (their first three) when there are
    any, the platform of highest engagement when that engagement is
    positive, the best keyword of every platform when its average is
    positive -- replaced by the four generic recommendations when it is
    empty, and cut to its first five entries.  Rules 2 and 3 give at most
    one recommendation, rule 4 at most one for a platform; in rules 3 and 4
    the winner is the first entry of largest value, and nothing is
    recommended when no value is positive.  On the insights whose five
    blocks are empty it is the four generic recommendations in order. *)
Theorem recommendations_follow_rules (insights : Insights) :
  get_recommendations insights = recommendations_spec insights /\
  (List.length (get_recommendations insights) <= 5)%nat /\
  (List.length (viral_rule_spec (viral_content_patterns insights)) <= 1)%nat /\
  (forall p e,
      first_best (fun entry => reported_engagement (snd entry))
                 (engagement_insights insights) (p, e) ->
      0 < reported_engagement e -> p <> EmptyString ->
      platform_rule_spec (engagement_insights insights)
      = [ "🎯 Focus on " +++ p +++ " for highest engagement (avg: "
          +++ Text.of_Z_commas (reported_engagement e) +++ ")" ]) /\
  (Forall (fun entry => reported_engagement (snd entry) <= 0)
          (engagement_insights insights) ->
   platform_rule_spec (engagement_insights insights) = []) /\
  (forall p keywords kw st,
      In (p, keywords) (keyword_performance insights) ->
      first_best (fun x => avg_engagement (snd x)) keywords (kw, st) ->
      0 < avg_engagement st ->
      keyword_rule_spec (p, keywords)
      = [ "🔑 On " +++ p +++ ", '" +++ kw +++ "' performs best ("
          +++ Text.of_Z_commas (avg_engagement st) +++ " avg engagement)" ]) /\
  (forall p keywords,
      In (p, keywords) (keyword_performance insights) ->
      Forall (fun x => avg_engagement (snd x) <= 0) keywords ->
      keyword_rule_spec (p, keywords) = []) /\
  get_recommendations empty_insights
  = [ "📅 Post during business hours (9 AM - 5 PM) for maximum reach";
      "🔥 Use emotional triggers in your headlines";
      "🎯 Include clear call-to-actions in your content";
      "📊 Use data and statistics to build credibility" ].
Proof.
  assert (Heq : get_recommendations insights = recommendations_spec insights).
  { unfold get_recommendations, recommendations_spec.
    rewrite posting_rule_loop, viral_rule_value, platform_rule_value, keyword_rule_loop.
    simpl app. rewrite <- !app_assoc. reflexivity. }
  split; [exact Heq|]. split.
  { unfold get_recommendations. rewrite length_firstn. apply Nat.le_min_l. }
  split.
  { unfold viral_rule_spec.
    destruct (dict_get _ _) as [[[|kw kws]|]|]; simpl; lia. }
  split.
  { intros p e Hbest Hpos Hname. unfold platform_rule_spec. cbv zeta.
    rewrite (first_best_highest _ 0 _ _ Hbest) by (cbn [snd]; lia). cbn [snd].
    destruct (Z.ltb_spec 0 (reported_engagement e)); [|lia].
    pose proof (first_best_find _ _ _ Hbest) as Hfind. cbn [snd] in Hfind.
    rewrite Hfind.
    destruct (String.eqb_spec p EmptyString); [contradiction | reflexivity]. }
  split.
  { intros Hnone. unfold platform_rule_spec. cbv zeta.
    destruct (Z.ltb_spec 0 (highest (fun entry : string * engagement_entry =>
                                        reported_engagement (snd entry)) 0
                                     (engagement_insights insights))) as [Hlt|_];
      [|reflexivity].
    pose proof (highest_bound _ 0 _ 0 (Z.le_refl 0) Hnone). lia. }
  split.
  { intros p keywords kw st _ Hbest Hpos. unfold keyword_rule_spec. cbn [fst snd].
    destruct keywords as [|first rest].
    { destruct Hbest as (before & after & Hnil & _). now destruct before. }
    cbv zeta. rewrite (first_best_highest_from _ _ _ _ Hbest). cbn [snd].
    destruct (Z.ltb_spec 0 (avg_engagement st)); [|lia].
    pose proof (first_best_find _ _ _ Hbest) as Hfind. cbn [snd] in Hfind.
    rewrite Hfind. reflexivity. }
  split; [|reflexivity].
  intros p keywords _ Hnone. unfold keyword_rule_spec. cbn [fst snd].
  destruct keywords as [|first rest]; [reflexivity|]. cbv zeta.
  inversion Hnone as [|? ? Hfirst Hrest]; subst.
  pose proof (highest_bound (fun x : string * keyword_stats => avg_engagement (snd x))
                            _ _ 0 Hfirst Hrest) as Hle.
  destruct (Z.ltb_spec 0 (highest (fun kw : string * keyword_stats =>
                                      avg_engagement (snd kw))
                                   (avg_engagement (snd first)) rest)); [lia | reflexivity].
Qed.

(* ================================================================= *)
(** ** Concrete datasets *)

Module Examples.

Definition video (t pub : string) (tag : option string) (v l : Z) : item :=
  mk_item (Some t) (Some pub) (Some "marketing") tag
          (Some (mk_metrics (Some v) (Some l) None None)).

Definition post (t pub kw : string) (u c : Z) : item :=
  mk_item (Some t) (Some pub) (Some kw) None
          (Some (mk_metrics None None (Some u) (Some c))).

(** The dataset of the module's own test function. *)
Definition main_videos : list item :=
  [ mk_item (Some "Digital Marketing Tutorial") (Some "2024-01-15T14:30:00")
            (Some "digital marketing") None
            (Some (mk_metrics (Some 10000) (Some 500) None None));
    mk_item (Some "AI Marketing Trends") (Some "2024-01-16T10:15:00")
            (Some "AI marketing") None
            (Some (mk_metrics (Some 15000) (Some 750) None None)) ].

Definition main_data : Dataset :=
  [ ("youtube", main_videos);
    ("reddit",
     [ post "Social Media Discussion" "2024-01-14T16:45:00" "social media" 250 45 ]) ].

(** One aware and one naive timestamp on the same platform. *)
Definition mixed_data : Dataset :=
  [ ("youtube",
     [ video "Launch" "2024-01-15T14:30:00Z" None 100 10;
       video "Recap" "2024-01-16T10:15:00" None 300 30 ]) ].

(** Three records without [published_at]. *)
Definition silent : item := mk_item (Some "Untitled") None None None None.

Definition silent_data : Dataset := [("youtube", [silent; silent; silent])].

(** Three records whose [published_at] is text that is no timestamp. *)
Definition undated (t : string) : item :=
  mk_item (Some t) (Some "yesterday") None None None.

Definition undated_items : list item :=
  [undated "One"; undated "Two"; undated "Three"].

Definition undated_data : Dataset := [("google_news", undated_items)].

(** A date without a time of day. *)
Definition date_only : item :=
  mk_item (Some "Note") (Some "2024-01-15") None None None.

(** Four records published at 20, 15, 10 and 5 o'clock. *)
Definition four_hours : Dataset :=
  [ ("youtube",
     [ video "a" "2024-01-15T20:00:00" None 1 1;
       video "b" "2024-01-15T15:00:00" None 1 1;
       video "c" "2024-01-15T10:00:00" None 1 1;
       video "d" "2024-01-15T05:00:00" None 1 1 ]) ].

(** A platform that is none of the three the engagement block knows. *)
Definition tiktok_items : list item :=
  [video "Dance" "2024-01-15T20:00:00" None 500 50].

Definition tiktok_data : Dataset := [("tiktok", tiktok_items)].

Definition news_items : list item := [undated "Markets"; undated "Sports"].

Definition news_data : Dataset := [("google_news", news_items)].

(** Six videos whose views rise with time, with and without the
    [platform] field. *)
Definition rising (tag : option string) : list item :=
  [ video "v1" "2024-01-01T10:00:00" tag 100 1;
    video "v2" "2024-01-02T10:00:00" tag 100 1;
    video "v3" "2024-01-03T10:00:00" tag 100 1;
    video "v4" "2024-01-04T10:00:00" tag 1000 1;
    video "v5" "2024-01-05T10:00:00" tag 1000 1;
    video "v6" "2024-01-06T10:00:00" tag 1000 1 ].

Definition no_entropy : nat -> nat := fun _ => 0%nat.





(** News whose titles have accents. *)
Definition accented_news : list item := [undated "Café"; undated "Crème brûlée"].

(** Two videos; the title of the one above the mean has capitals with
    accents. *)
Definition accented_videos : Dataset :=
  [ ("youtube",
     [ video "ÉNORME Café Über" "2024-01-15T14:30:00" None 300 30;
       video "Petit" "2024-01-16T10:15:00" None 100 10 ]) ].

(** One video with [2^53 + 1] views. *)
Definition lone_video : Dataset :=
  [ ("youtube",
     [ video "Launch day" "2024-01-15T14:30:00" None 9007199254740993 1 ]) ].

(** Ten videos tagged "youtube", in order of date: seven with 3 views, then
    three with 4.  The means of the two halves are 3 and 3.6. *)
Definition on_threshold : list item :=
  [ video "d01" "2024-01-01T10:00:00" (Some "youtube") 3 1;
    video "d02" "2024-01-02T10:00:00" (Some "youtube") 3 1;
    video "d03" "2024-01-03T10:00:00" (Some "youtube") 3 1;
    video "d04" "2024-01-04T10:00:00" (Some "youtube") 3 1;
    video "d05" "2024-01-05T10:00:00" (Some "youtube") 3 1;
    video "d06" "2024-01-06T10:00:00" (Some "youtube") 3 1;
    video "d07" "2024-01-07T10:00:00" (Some "youtube") 3 1;
    video "d08" "2024-01-08T10:00:00" (Some "youtube") 4 1;
    video "d09" "2024-01-09T10:00:00" (Some "youtube") 4 1;
    video "d10" "2024-01-10T10:00:00" (Some "youtube") 4 1 ].

End Examples.

Import Examples.

Lemma single_key {V : Type} (k : string) (v : V) : NoDup (keys [(k, v)]).
Proof. repeat constructor. intros []. Qed.

Lemma main_data_keys : NoDup (keys main_data).
Proof. repeat constructor; simpl; intuition discriminate. Qed.

Lemma main_data_clean : clean (L := Reference.libraries) main_data.
Proof.
  intros P items [H|[H|[]]]; inversion H; subst; vm_compute; reflexivity.
Qed.

Lemma mixed_data_not_clean : ~ clean (L := Reference.libraries) mixed_data.
Proof.
  intros Hclean. specialize (Hclean "youtube" _ (or_introl eq_refl)).
  vm_compute in Hclean. discriminate.
Qed.



(** C2, at the dataset of the test function: "youtube" is reported with
    its two records and "tiktok", which is absent, is a key of no block;
    and at a dataset that mixes the two kinds of timestamps: the result
    is the all-empty insights. *)
Lemma platforms_with_records_are_reported_witness :
  (has_key "youtube"
     (best_posting_times (analyze (L := Reference.libraries) no_entropy main_data)) /\
   exists summary,
     dict_get "youtube"
       (platform_insights (analyze (L := Reference.libraries) no_entropy main_data))
     = Some summary /\
     total_items summary = List.length main_videos) /\
  (~ has_key "tiktok"
       (platform_insights (analyze (L := Reference.libraries) no_entropy main_data)) /\
   ~ has_key "tiktok"
       (viral_content_patterns
          (analyze (L := Reference.libraries) no_entropy main_data))) /\
  analyze (L := Reference.libraries) no_entropy mixed_data = empty_insights.
Proof.
  split; [|split; [split|]].
  - exact (proj1 (platforms_with_records_are_reported
                    (L := Reference.libraries) no_entropy main_data "youtube"
                    main_data_keys)
                 main_videos main_data_clean eq_refl ltac:(discriminate)).
  - exact (proj1 (proj2 (proj2 (proj2
             (proj2 (proj2 (platforms_with_records_are_reported
                              (L := Reference.libraries) no_entropy main_data "tiktok"
                              main_data_keys))
                    (or_introl eq_refl)))))).
  - exact (proj2 (proj2 (proj2 (proj2
             (proj2 (proj2 (platforms_with_records_are_reported
                              (L := Reference.libraries) no_entropy main_data "tiktok"
                              main_data_keys))
                    (or_introl eq_refl)))))
             ltac:(simpl; intuition discriminate)).
  - exact (proj1 (proj2
             (proj1 (proj2 (platforms_with_records_are_reported
                              (L := Reference.libraries) no_entropy mixed_data "youtube"
                              (single_key _ _)))
                    mixed_data_not_clean))).
Defined.

(** C2 as stated fails: a platform with two records, one timestamp aware
    and one naive, makes the date range raise; the result is the all-empty
    insights and the platform is a key of no block. *)
Lemma mixed_timestamps_empty_the_result :
  (exists first second, dict_get "youtube" mixed_data = Some [first; second]) /\
  analyze_body (L := Reference.libraries) no_entropy mixed_data = Raise TypeError /\
  ~ has_key "youtube"
      (best_posting_times (analyze (L := Reference.libraries) no_entropy mixed_data)) /\
  dict_get "youtube"
    (platform_insights (analyze (L := Reference.libraries) no_entropy mixed_data))
  = None.
Proof.
  split; [eexists; eexists; reflexivity|].
  split; [vm_compute; reflexivity|].
  split; [vm_compute; intros [] | vm_compute; reflexivity].
Qed.

(** C3, Scenario C: three records with an unparsable timestamp. *)
Lemma hour_extraction_witness :
  exists e,
    dict_get "google_news"
      (_analyze_posting_times (L := Reference.libraries) no_entropy undated_data)
    = Some e /\
    sample_size e = List.length undated_items /\
    Forall (fun h => 9 <= h <= 17) (peak_hours e).
Proof.
  exact (proj1 (proj2 (proj2 (hour_extraction (L := Reference.libraries) no_entropy)))
               undated_data "google_news" undated_items
               (single_key _ _) eq_refl ltac:(discriminate)
               ltac:(repeat (constructor; [split; vm_compute; reflexivity|]);
                     constructor)).
Defined.

(** C3 as stated fails: records without [published_at] get no hour at all
    (the entry is the default one, with [sample_size] 0 and a peak hour
    outside [9,17]), and a timestamp without the letter T is never given to
    the ISO parser: the date "2024-01-15", which that parser reads as
    midnight, yields a drawn hour. *)
Lemma absent_timestamp_draws_no_hour :
  extract_hours (L := Reference.libraries) no_entropy [silent; silent; silent] 0
  = ([], 0%nat) /\
  dict_get "youtube"
    (_analyze_posting_times (L := Reference.libraries) no_entropy silent_data)
  = Some (mk_posting_entry [10; 14; 19] "10:00 - 19:00" 0 14) /\
  ~ Forall (fun h => 9 <= h <= 17) [10; 14; 19] /\
  option_map hour (Reference.parse_iso "2024-01-15") = Some 0 /\
  extract_hours (L := Reference.libraries) no_entropy [date_only] 0 = ([9], 1%nat).
Proof.
  split; [vm_compute; reflexivity|].
  split; [vm_compute; reflexivity|].
  split; [|split; vm_compute; reflexivity].
  intros H. inversion H as [|? ? _ H1]; subst.
  inversion H1 as [|? ? _ H2]; subst.
  inversion H2 as [|? ? H3 _]; subst. lia.
Qed.

(** C4, at the "youtube" entry of the test dataset. *)
Lemma peak_hours_most_frequent_witness :
  dict_get "youtube"
    (_analyze_posting_times (L := Reference.libraries) no_entropy main_data)
  = Some (mk_posting_entry [10; 14] "10:00 - 14:00" 2 14) /\
  StronglySorted Z.lt [10; 14] /\
  (List.length [10; 14] <= 3)%nat /\
  Forall (fun h => 0 <= h <= 23) [10; 14].
Proof.
  assert (Hentry : dict_get "youtube"
                     (_analyze_posting_times (L := Reference.libraries) no_entropy
                                             main_data)
                   = Some (mk_posting_entry [10; 14] "10:00 - 14:00" 2 14))
    by (vm_compute; reflexivity).
  split; [exact Hentry|].
  pose proof (peak_hours_most_frequent (L := Reference.libraries) no_entropy main_data
                "youtube" (mk_posting_entry [10; 14] "10:00 - 14:00" 2 14) Hentry)
    as (H1 & H2 & H3 & _).
  exact (conj H1 (conj H2 H3)).
Defined.

(** C4 as stated fails on the tie rule: four hours seen once each, in the
    order 20, 15, 10, 5.  With ties listed in order of first appearance the
    table starts with 20, 15, 10, so the peak hours are [10; 15; 20] and
    not the three smallest hours [5; 10; 15]. *)
Lemma ties_follow_value_counts :
  option_map peak_hours
    (dict_get "youtube"
       (_analyze_posting_times (L := Reference.libraries) no_entropy four_hours))
  = Some [10; 15; 20] /\
  [10; 15; 20] <> [5; 10; 15].
Proof. split; [vm_compute; reflexivity | discriminate]. Qed.

(** C5, at the dataset of Scenario A. *)
Lemma video_engagement_entry_witness :
  exists stats mx mn,
    _analyze_engagement scenario_A = Ok stats /\
    dict_get "youtube" stats
    = Some (VideoStats 200 20 (Float.round (1 # 10)) mx mn 2) /\
    In mx [100; 300] /\ Forall (fun v => v <= mx) [100; 300] /\
    In mn [100; 300] /\ Forall (fun v => mn <= v) [100; 300] /\
    (Z.abs 400 < 2 ^ 53 -> 200 = Z.quot 400 2) /\
    (Z.abs 40 < 2 ^ 53 -> 20 = Z.quot 40 2).
Proof.
  exact (proj1 (video_engagement_entry (L := Reference.libraries)) scenario_A _
               (single_key _ _) eq_refl ltac:(discriminate)).
Defined.

(** C5 as stated fails: three videos with [2^53 + 2], [2^53 + 1] and [2^53]
    views.  Their mean is [2^53 + 1]; the division in double precision
    gives [2^53], and that is the [avg_views] of the entry. *)
Lemma mean_of_large_counts_is_rounded :
  engagement_insights (analyze (L := Reference.libraries) no_entropy scenario_large)
  = [("youtube",
      VideoStats 9007199254740992 0 (inject_Z 0)
                 9007199254740994 9007199254740992 3)] /\
  Z.quot (9007199254740994 + 9007199254740993 + 9007199254740992) 3
  = 9007199254740993 /\
  9007199254740992 <> 9007199254740993.
Proof. split; [|split]; [vm_compute; reflexivity | reflexivity | discriminate]. Qed.

(** C6, at a news dataset whose titles have accents: 4 and 12 characters,
    in 5 and 14 bytes. *)
Lemma other_platform_engagement_witness :
  exists stats,
    _analyze_engagement [("google_news", accented_news)] = Ok stats /\
    dict_get "google_news" stats = Some (OtherStats 2 (inject_Z 8)).
Proof.
  exact (other_platform_engagement [("google_news", accented_news)] "google_news"
           accented_news (single_key _ _) eq_refl
           ltac:(discriminate) ltac:(discriminate) ltac:(discriminate)).
Defined.

(** C6 as stated fails: a platform named "tiktok" has a record, with views
    and likes, and gets no engagement entry at all. *)
Lemma unknown_platform_has_no_entry :
  dict_get "tiktok" tiktok_data = Some tiktok_items /\
  tiktok_items <> [] /\
  _analyze_engagement tiktok_data = Ok [] /\
  engagement_insights (analyze (L := Reference.libraries) no_entropy tiktok_data) = [].
Proof.
  split; [reflexivity|]. split; [discriminate|].
  split; vm_compute; reflexivity.
Qed.

(** C8, at six videos tagged "youtube" whose views rise. *)
Lemma engagement_trend_spec_witness :
  _get_engagement_trend (L := Reference.libraries) (rising (Some "youtube"))
  = "Increasing".
Proof.
  destruct (engagement_trend_spec (L := Reference.libraries) (rising (Some "youtube")))
    as (_ & _ & H).
  destruct (H ltac:(vm_compute; lia)) as (_ & _ & Hsorted).
  destruct (Hsorted ltac:(vm_compute; lia) ltac:(vm_compute; reflexivity))
    as (sorted & Hs & _ & _ & Hinc & _).
  apply Hinc. vm_compute in Hs. inversion Hs; subst sorted. vm_compute. reflexivity.
Defined.

(** C8 as stated fails, twice.  The six rising videos without a
    [platform] field, under the key "youtube": the engagement block reads
    their views (mean 550), and the means of the views of the two halves
    are 100 and 1000, yet the trend reads 0 for every record and is
    "Stable".  And ten tagged videos whose halves have the means 3 and 3.6:
    3.6 is not above 1.2 times 3, yet the product of 3 and the double
    nearest to 1.2 is a double below the double nearest to 3.6, and the
    trend is "Increasing". *)
Lemma trend_reads_the_first_record_and_rounds :
  (option_map engagement_trend
     (dict_get "youtube"
        (platform_insights
           (analyze (L := Reference.libraries) no_entropy [("youtube", rising None)])))
   = Some "Stable" /\
   dict_get "youtube"
     (engagement_insights
        (analyze (L := Reference.libraries) no_entropy [("youtube", rising None)]))
   = Some (VideoStats 550 1 (Float.round (6 # 3300)) 1000 100 6) /\
   (inject_Z (100 + 100 + 100) / inject_Z 3 * (12 # 10)
    < inject_Z (1000 + 1000 + 1000) / inject_Z 3)%Q) /\
  (_get_engagement_trend (L := Reference.libraries) on_threshold = "Increasing" /\
   ~ (inject_Z (3 + 3 + 3 + 3 + 3) / inject_Z 5 * (12 # 10)
      < inject_Z (3 + 3 + 4 + 4 + 4) / inject_Z 5)%Q /\
   (Float.mul (inject_Z 3) Float.lit_1_2 < Float.round (18 # 5))%Q).
Proof.
  split; [split; [|split]; vm_compute; reflexivity|].
  split; [vm_compute; reflexivity|].
  split; [vm_compute; discriminate | vm_compute; reflexivity].
Qed.

(** C7, at two videos whose titles have accents. *)
Lemma viral_patterns_spec_witness :
  exists titles kws,
    _analyze_viral_patterns (L := Reference.libraries) accented_videos
    = Ok [ ("high_engagement_titles", PList titles);
           ("common_keywords_in_viral", PList kws);
           ("content_length_pattern", PEmptyDict);
           ("emotional_triggers", PList []) ] /\
    (List.length titles <= 5)%nat /\
    Forall (fun t => (Text.length t <= 100)%nat) titles.
Proof.
  destruct (viral_patterns_spec (L := Reference.libraries) accented_videos)
    as (viral & titles & runs & tokens & kws & Hvalue & _ & _ & _ & _ & Hlen & Hcut & _).
  exists titles, kws. exact (conj Hvalue (conj Hlen Hcut)).
Defined.

(** C7 as stated fails: a single video with [2^53 + 1] views.  The mean of
    the views is its own view count, which is not above itself; the
    division in double precision gives [2^53], and the video is viral. *)
Lemma a_video_at_the_mean_is_viral :
  _analyze_viral_patterns (L := Reference.libraries) lone_video
  = Ok [ ("high_engagement_titles", PList ["Launch day"]);
         ("common_keywords_in_viral", PList ["launch"]);
         ("content_length_pattern", PEmptyDict);
         ("emotional_triggers", PList []) ] /\
  ~ (inject_Z 9007199254740993 / inject_Z 1 < inject_Z 9007199254740993)%Q /\
  Float.round (inject_Z 9007199254740993 / inject_Z 1) = inject_Z 9007199254740992.
Proof.
  split; [vm_compute; reflexivity|].
  split; [vm_compute; discriminate | vm_compute; reflexivity].
Qed.

(** C9, at the insights of the test dataset: the platform rule names
    "youtube", the first entry of the largest mean. *)
Lemma recommendations_follow_rules_witness :
  platform_rule_spec
    (engagement_insights (analyze (L := Reference.libraries) no_entropy main_data))
  = [ "🎯 Focus on " +++ "youtube" +++ " for highest engagement (avg: "
      +++ Text.of_Z_commas 12500 +++ ")" ].
Proof.
  refine (proj1 (proj2 (proj2 (proj2
            (recommendations_follow_rules
               (analyze (L := Reference.libraries) no_entropy main_data)))))
            "youtube"
            (VideoStats 12500 625 (Float.round (1250 # 25000)) 15000 10000 2)
            _ _ _).
  - exists [], [("reddit", ForumStats 250 45 (Float.round (45 # 250)) 1)].
    split; [vm_compute; reflexivity|].
    split; [constructor|].
    constructor; [cbn; lia | constructor].
  - cbn. lia.
  - discriminate.
Defined.

(** C10, at the dataset of the test function. *)
Lemma viral_block_keys_witness :
  keys (viral_content_patterns
          (analyze (L := Reference.libraries) no_entropy main_data))
  = ["high_engagement_titles"; "common_keywords_in_viral";
     "content_length_pattern"; "emotional_triggers"].
Proof.
  exact (proj1 (proj2 (viral_block_keys (L := Reference.libraries) no_entropy main_data
                         (analyze (L := Reference.libraries) no_entropy main_data)
                         ltac:(vm_compute; reflexivity)))).
Defined.

(** The analyzer on the dataset of the test function: the viral block
    and the recommendations. *)
Example viral_patterns_of_main_data :
  _analyze_viral_patterns (L := Reference.libraries) main_data
  = Ok [ ("high_engagement_titles", PList ["AI Marketing Trends"]);
         ("common_keywords_in_viral", PList ["marketing"; "trends"]);
         ("content_length_pattern", PEmptyDict);
         ("emotional_triggers", PList []) ].
Proof. vm_compute. reflexivity. Qed.

Example recommendations_of_main_data :
  get_recommendations (analyze (L := Reference.libraries) no_entropy main_data)
  = [ "📅 Post on youtube between 10:00 - 14:00 for maximum reach";
      "📅 Post on reddit between 16:00 - 19:00 for maximum reach";
      "🔥 Include these keywords in content: marketing, trends";
      "🎯 Focus on youtube for highest engagement (avg: 12,500)";
      "🔑 On youtube, 'AI marketing' performs best (15,000 avg engagement)" ].
Proof. vm_compute. reflexivity. Qed.

(** Titles with accents: the words are cut at characters that are no
    letters, and capitals with accents are lowered. *)
Example viral_patterns_of_accented_titles :
  _analyze_viral_patterns (L := Reference.libraries) accented_videos
  = Ok [ ("high_engagement_titles", PList ["ÉNORME Café Über"]);
         ("common_keywords_in_viral", PList ["énorme"; "café"; "über"]);
         ("content_length_pattern", PEmptyDict);
         ("emotional_triggers", PList []) ].
Proof. vm_compute. reflexivity. Qed.

(* ================================================================= *)
(** ** Keyword performance *)

(** [item.get("keyword", "unknown")]. *)
Definition keyword_of (it : item) : string :=
  match keyword it with Some k => k | None => "unknown" end.

Lemma sum_append l1 l2 : sum (l1 ++ l2) = sum l1 + sum l2.
Proof.
  induction l1 as [|x l1 IH]; simpl; [reflexivity|].
  rewrite !sum_cons, IH. lia.
Qed.

Lemma keys_dict_set {V : Type} (k : string) (v : V) (d : dict V) :
  keys (dict_set k v d)
  = if existsb (String.eqb k) (keys d) then keys d else keys d ++ [k].
Proof.
  unfold keys. induction d as [|[k' v'] d IH]; simpl; [reflexivity|].
  destruct (String.eqb_spec k k') as [->|Hne]; simpl; [reflexivity|].
  rewrite IH. destruct (existsb (String.eqb k) (map fst d)); reflexivity.
Qed.

(** [d] with [f] applied to every value. *)
Definition map_values {V W : Type} (f : V -> W) (d : dict V) : dict W :=
  map (fun entry => (fst entry, f (snd entry))) d.

Lemma dict_get_map_values {V W : Type} (f : V -> W) (d : dict V) k :
  dict_get k (map_values f d) = option_map f (dict_get k d).
Proof.
  induction d as [|[k' v] d IH]; simpl; [reflexivity|].
  destruct (String.eqb k k'); [reflexivity | exact IH].
Qed.

Lemma keys_map_values {V W : Type} (f : V -> W) (d : dict V) :
  keys (map_values f d) = keys d.
Proof. unfold keys, map_values. rewrite map_map. reflexivity. Qed.

(** The statistics of a group once its average is filled in. *)
Definition averaged (st : keyword_stats) : keyword_stats :=
  mk_keyword_stats (count st) (total_engagement st)
    (if (0 <? count st)%nat
     then int_of (Float.round (inject_Z (total_engagement st)
                               / inject_Z (Z.of_nat (count st))))
     else 0).

Lemma with_average_value st : with_average st = Ok (averaged st).
Proof.
  unfold with_average, averaged.
  destruct (Nat.ltb_spec 0 (count st)) as [Hpos|_]; [|reflexivity].
  rewrite truediv_ok by lia. reflexivity.
Qed.

Lemma with_averages_value stats :
  with_averages stats = Ok (map_values averaged stats).
Proof.
  induction stats as [|[kw st] stats IH]; simpl; [reflexivity|].
  rewrite with_average_value, IH. reflexivity.
Qed.

(** The running statistics after the grouping loop, one keyword at a
    time. *)
Lemma keyword_step_get P stats it k :
  dict_get k (keyword_step P stats it)
  = if String.eqb k (keyword_of it)
    then Some (mk_keyword_stats
                 (S (match dict_get (keyword_of it) stats with
                     | Some st => count st | None => 0%nat end))
                 (match dict_get (keyword_of it) stats with
                  | Some st => total_engagement st | None => 0 end
                  + keyword_engagement P it) 0)
    else dict_get k stats.
Proof.
  unfold keyword_step. fold (keyword_of it).
  destruct (String.eqb_spec k (keyword_of it)) as [->|Hne].
  - rewrite dict_get_set_eq. destruct (dict_get (keyword_of it) stats); reflexivity.
  - now apply dict_get_set_neq.
Qed.

Lemma fold_left_snoc {A S : Type} (f : S -> A -> S) l a s :
  fold_left f (l ++ [a]) s = f (fold_left f l s) a.
Proof. now rewrite fold_left_app. Qed.

Lemma count_occ_snoc (l : list string) x k :
  count_occ string_dec (l ++ [x]) k
  = (count_occ string_dec l k + if String.eqb k x then 1 else 0)%nat.
Proof.
  rewrite count_occ_app. simpl.
  destruct (string_dec x k) as [->|Hne].
  - now rewrite String.eqb_refl.
  - destruct (String.eqb_spec k x); [congruence | reflexivity].
Qed.

(** The records of a group. *)
Definition group (k : string) (items : list item) : list item :=
  filter (fun it => String.eqb (keyword_of it) k) items.

Lemma group_length k items :
  List.length (group k items) = count_occ string_dec (map keyword_of items) k.
Proof.
  unfold group. induction items as [|it items IH]; simpl; [reflexivity|].
  destruct (string_dec (keyword_of it) k) as [->|Hne].
  - rewrite String.eqb_refl. simpl. now rewrite IH.
  - destruct (String.eqb_spec (keyword_of it) k); [contradiction | exact IH].
Qed.

(** The statistics the grouping loop holds for the records [g] of one
    keyword. *)
Definition running_stats (P : string) (g : list item) : option keyword_stats :=
  match g with
  | [] => None
  | _ :: _ => Some (mk_keyword_stats (List.length g)
                      (sum (map (keyword_engagement P) g)) 0)
  end.

Lemma running_stats_snoc P g it :
  running_stats P (g ++ [it])
  = Some (mk_keyword_stats
            (S (match running_stats P g with Some st => count st | None => 0%nat end))
            (match running_stats P g with Some st => total_engagement st | None => 0 end
             + keyword_engagement P it) 0).
Proof.
  destruct g as [|g0 g]; [reflexivity|].
  unfold running_stats. cbn [app count total_engagement].
  change (g0 :: g ++ [it]) with ((g0 :: g) ++ [it]).
  rewrite length_app, map_app, sum_append. cbn [map List.length].
  rewrite (sum_cons _ []). replace (sum []) with 0 by reflexivity.
  f_equal. f_equal; lia.
Qed.

Lemma grouping_loop_get P items : forall k,
  dict_get k (fold_left (keyword_step P) items []) = running_stats P (group k items).
Proof.
  induction items as [|it items IH] using rev_ind; intros k; [reflexivity|].
  rewrite fold_left_snoc, keyword_step_get. unfold group in *.
  rewrite filter_app. simpl filter.
  destruct (String.eqb_spec k (keyword_of it)) as [->|Hne].
  - rewrite String.eqb_refl, IH. now rewrite running_stats_snoc.
  - destruct (String.eqb_spec (keyword_of it) k); [congruence|].
    rewrite app_nil_r. apply IH.
Qed.

Lemma grouping_loop_keys P items :
  keys (fold_left (keyword_step P) items [])
  = first_seen String.eqb (map keyword_of items).
Proof.
  rewrite <- (Counter_keys String.eqb String.eqb_spec). unfold Counter.
  assert (H : forall (stats : dict keyword_stats) (c : list (string * nat)),
             keys stats = map fst c ->
             keys (fold_left (keyword_step P) items stats)
             = map fst (fold_left (fun c w => count_add String.eqb w c)
                                  (map keyword_of items) c)).
  { induction items as [|it items IH]; intros stats c Hkeys; simpl; [assumption|].
    apply IH. unfold keyword_step. fold (keyword_of it).
    rewrite keys_dict_set, keys_count_add, Hkeys. reflexivity. }
  now apply H.
Qed.

Lemma keyword_block_entry (data : Dataset) P items :
  NoDup (keys data) -> dict_get P data = Some items -> items <> [] ->
  exists kp,
    _analyze_keywords data = Ok kp /\
    dict_get P kp = Some (map_values averaged (fold_left (keyword_step P) items [])).
Proof.
  intros Hnd Hget Hne. apply dict_get_In in Hget.
  destruct (_analyze_keywords_total data) as [kp Hkp].
  exists kp. split; [assumption|]. rewrite keywords_loop in Hkp.
  destruct (platform_loop_entry _ _ _ _ _ _ Hnd Hkp Hget Hne) as (o & Ho & Hentry).
  unfold keywords_body in Ho. rewrite with_averages_value in Ho. cbn [bind] in Ho.
  inversion Ho; subst o. exact Hentry.
Qed.

(** X1.  Keyword performance groups the records of a platform by keyword
    ("unknown" when the record has none): the groups appear in order of
    first occurrence, and the entry of a keyword holds the number of its
    records, the sum of their engagement and their mean, computed in
    double precision and truncated to an integer -- the truncated exact
    mean whenever the sum is below [2^53] in absolute value; a keyword
    that no record carries has no entry. *)
Theorem keyword_groups (data : Dataset) (P : string) (items : list item)
    (Hkeys : NoDup (keys data)) (Hget : dict_get P data = Some items)
    (Hne : items <> []) :
  exists kp stats,
    _analyze_keywords data = Ok kp /\
    dict_get P kp = Some stats /\
    keys stats = first_seen String.eqb (map keyword_of items) /\
    (forall k,
       dict_get k stats
       = match group k items with
         | [] => None
         | g => Some (mk_keyword_stats
                        (List.length g)
                        (sum (map (keyword_engagement P) g))
                        (int_of (Float.round
                                   (inject_Z (sum (map (keyword_engagement P) g))
                                    / inject_Z (len g)))))
         end) /\
    (forall k st,
       dict_get k stats = Some st ->
       Z.abs (total_engagement st) < 2 ^ 53 ->
       avg_engagement st = Z.quot (total_engagement st) (Z.of_nat (count st))).
Proof.
  destruct (keyword_block_entry data P items Hkeys Hget Hne) as (kp & Hkp & Hentry).
  exists kp. eexists. split; [exact Hkp|]. split; [exact Hentry|]. split; [|split].
  - rewrite keys_map_values. apply grouping_loop_keys.
  - intros k. rewrite dict_get_map_values, grouping_loop_get.
    destruct (group k items) as [|g0 g]; reflexivity.
  - intros k st. rewrite dict_get_map_values, grouping_loop_get.
    destruct (group k items) as [|g0 g]; [discriminate|].
    cbn [running_stats option_map]. intros [= <-]. unfold averaged.
    cbn [count total_engagement avg_engagement Nat.ltb Nat.leb List.length].
    intros Hsmall. apply FloatFacts.int_of_round; [lia | exact Hsmall].
Qed.

(** The sum of a field over the entries of a dictionary. *)
Definition total_of {V : Type} (f : V -> Z) (d : dict V) : Z :=
  sum (map (fun entry => f (snd entry)) d).

Lemma total_of_dict_set {V : Type} (f : V -> Z) k v (d : dict V) :
  total_of f (dict_set k v d)
  = total_of f d - match dict_get k d with Some old => f old | None => 0 end + f v.
Proof.
  unfold total_of. induction d as [|[k' v'] d IH]; simpl.
  - rewrite (sum_cons _ []). replace (sum []) with 0 by reflexivity. lia.
  - destruct (String.eqb k k'); simpl; rewrite !sum_cons; simpl; [lia|].
    rewrite IH. lia.
Qed.

Lemma total_of_map_values {V W : Type} (f : W -> Z) (g : V -> W) (d : dict V) :
  total_of f (map_values g d) = total_of (fun v => f (g v)) d.
Proof. unfold total_of, map_values. now rewrite map_map. Qed.

Lemma grouping_loop_totals P items :
  total_of (fun st => Z.of_nat (count st)) (fold_left (keyword_step P) items [])
  = len items /\
  total_of total_engagement (fold_left (keyword_step P) items [])
  = sum (map (keyword_engagement P) items).
Proof.
  induction items as [|it items [IHc IHt]] using rev_ind; [split; reflexivity|].
  rewrite fold_left_snoc. unfold keyword_step at 1 3. fold (keyword_of it).
  rewrite !total_of_dict_set, IHc, IHt, map_app, sum_append.
  unfold len. rewrite length_app. cbn [map List.length].
  rewrite (sum_cons _ []). replace (sum []) with 0 by reflexivity.
  destruct (dict_get (keyword_of it) (fold_left (keyword_step P) items []));
    cbn [count total_engagement]; split; lia.
Qed.

(** X2.  The groups partition the records of the platform: their counts
    add up to the number of records and their total engagements to the
    engagement of all records. *)
Theorem keyword_groups_partition (data : Dataset) (P : string) (items : list item)
    (Hkeys : NoDup (keys data)) (Hget : dict_get P data = Some items)
    (Hne : items <> []) :
  exists kp stats,
    _analyze_keywords data = Ok kp /\
    dict_get P kp = Some stats /\
    total_of (fun st => Z.of_nat (count st)) stats = len items /\
    total_of total_engagement stats = sum (map (keyword_engagement P) items).
Proof.
  destruct (keyword_block_entry data P items Hkeys Hget Hne) as (kp & Hkp & Hentry).
  exists kp. eexists. split; [exact Hkp|]. split; [exact Hentry|].
  rewrite !total_of_map_values. cbn [averaged count total_engagement].
  apply grouping_loop_totals.
Qed.

Lemma Forall_dict_set {V : Type} (Q : V -> Prop) k v (d : dict V) :
  Q v -> Forall (fun entry => Q (snd entry)) d ->
  Forall (fun entry => Q (snd entry)) (dict_set k v d).
Proof.
  intros Hv. induction 1 as [|[k' v'] d Hhd Htl IH]; simpl.
  - repeat constructor. exact Hv.
  - destruct (String.eqb k k'); constructor; auto.
Qed.

Lemma dict_get_Forall {V : Type} (Q : V -> Prop) k v (d : dict V) :
  Forall (fun entry => Q (snd entry)) d -> dict_get k d = Some v -> Q v.
Proof.
  intros Hall Hget. apply dict_get_In in Hget.
  rewrite Forall_forall in Hall. apply (Hall _ Hget).
Qed.

Lemma grouping_loop_no_engagement P items :
  P <> "youtube" -> P <> "reddit" ->
  Forall (fun entry => total_engagement (snd entry) = 0)
         (fold_left (keyword_step P) items []).
Proof.
  intros Hv Hf.
  induction items as [|it items IH] using rev_ind; [constructor|].
  rewrite fold_left_snoc. unfold keyword_step at 1. fold (keyword_of it).
  apply (Forall_dict_set (fun st => total_engagement st = 0)); [|exact IH].
  cbn [total_engagement]. unfold keyword_engagement.
  destruct (String.eqb_spec P "youtube"); [contradiction|].
  destruct (String.eqb_spec P "reddit"); [contradiction|].
  destruct (dict_get (keyword_of it) _) as [st|] eqn:Hget; [|reflexivity].
  rewrite (dict_get_Forall (fun st => total_engagement st = 0) _ _ _ IH Hget).
  reflexivity.
Qed.

(** X3.  For a platform other than "youtube" and "reddit" every keyword
    has total and average engagement 0, so [get_recommendations] makes no
    keyword recommendation for it. *)
Theorem no_keyword_signal_elsewhere (data : Dataset) (P : string) (items : list item)
    (Hkeys : NoDup (keys data)) (Hget : dict_get P data = Some items)
    (Hne : items <> []) (Hvideo : P <> "youtube") (Hforum : P <> "reddit") :
  exists kp stats,
    _analyze_keywords data = Ok kp /\
    dict_get P kp = Some stats /\
    Forall (fun entry => total_engagement (snd entry) = 0 /\
                         avg_engagement (snd entry) = 0) stats /\
    forall recs, keyword_rule recs (P, stats) = recs.
Proof.
  destruct (keyword_block_entry data P items Hkeys Hget Hne) as (kp & Hkp & Hentry).
  exists kp. eexists. split; [exact Hkp|]. split; [exact Hentry|].
  pose proof (grouping_loop_no_engagement P items Hvideo Hforum) as Hzero.
  set (running := fold_left (keyword_step P) items []) in *.
  assert (Hall : Forall (fun entry => total_engagement (snd entry) = 0 /\
                                      avg_engagement (snd entry) = 0)
                        (map_values averaged running)).
  { unfold map_values. rewrite Forall_map. rewrite Forall_forall in *.
    intros [k st] Hin. specialize (Hzero _ Hin).
    cbn [snd fst] in *. unfold averaged. cbn [total_engagement avg_engagement].
    rewrite Hzero. split; [reflexivity|].
    destruct (Nat.ltb_spec 0 (count st)); [|reflexivity].
    rewrite float_zero. reflexivity. }
  split; [exact Hall|].
  intros recs. unfold keyword_rule.
  destruct (map_values averaged running) as [|first rest] eqn:Hstats; [reflexivity|].
  destruct (keep_first_best (fun kw : string * keyword_stats => avg_engagement (snd kw))
                            rest first) as [_ Hfind].
  fold (max_keyword first rest) in Hfind. apply find_some in Hfind.
  destruct Hfind as [Hin _]. rewrite Forall_forall in Hall.
  destruct (Hall _ Hin) as [_ Havg]. rewrite Havg. reflexivity.
Qed.

(* ================================================================= *)
(** ** The keys of the blocks *)

Definition has_records (entry : string * list item) : bool :=
  match snd entry with [] => false | _ :: _ => true end.

Lemma keys_dict_set_new {V : Type} (k : string) (v : V) (d : dict V) :
  ~ In k (keys d) -> keys (dict_set k v d) = keys d ++ [k].
Proof.
  intros Hnew. rewrite keys_dict_set.
  destruct (existsb (String.eqb k) (keys d)) eqn:E; [|reflexivity].
  exfalso. apply Hnew. apply existsb_exists in E. destruct E as [x [Hin Hx]].
  apply String.eqb_eq in Hx. now subst.
Qed.

Lemma fresh_after_set {V : Type} (Q : string) (v : V) (acc : dict V)
    (rest : list string) :
  ~ In Q rest -> ~ In Q (keys acc) ->
  (forall k, In k (keys acc) -> ~ In k rest) ->
  forall k, In k (keys (dict_set Q v acc)) -> ~ In k rest.
Proof.
  intros HQ HQacc Hfresh k Hk. rewrite keys_dict_set_new in Hk by assumption.
  apply in_app_or in Hk. destruct Hk as [Hk|[<-|[]]]; [auto | exact HQ].
Qed.

Lemma fresh_start {V : Type} (data : Dataset) :
  forall k, In k (keys ([] : dict V)) -> ~ In k (keys data).
Proof. intros k []. Qed.

Section KeyOrder.
Context {V : Type}.
Variable body : string -> list item -> result (option V).

(** The platforms for which the loop stores an entry. *)
Definition stores (entry : string * list item) : bool :=
  has_records entry &&
  match body (fst entry) (snd entry) with Ok (Some _) => true | _ => false end.

(** A completed loop has appended, in the order of the dataset, one key
    for every platform it stores. *)
Lemma platform_loop_key_order data : forall acc r,
  NoDup (keys data) ->
  (forall k, In k (keys acc) -> ~ In k (keys data)) ->
  for_each (platform_step body) data acc = Ok r ->
  keys r = keys acc ++ map fst (filter stores data).
Proof.
  induction data as [|[Q its] data IH]; intros acc r Hnd Hfresh Hrun; simpl in Hrun.
  - inversion Hrun; subst. simpl. now rewrite app_nil_r.
  - inversion Hnd as [|? ? HQ Hnd']; subst.
    assert (Hfresh' : forall k, In k (keys acc) -> ~ In k (keys data)).
    { intros k Hk Hin. apply (Hfresh k Hk). now right. }
    assert (HQacc : ~ In Q (keys acc)).
    { intros Hin. apply (Hfresh Q Hin). now left. }
    unfold stores at 1, has_records. cbn [fst snd filter].
    destruct its as [|it its]; cbn [andb].
    + now apply IH.
    + simpl in Hrun.
      destruct (body Q (it :: its)) as [[v|]|e] eqn:Hb; simpl in Hrun;
        [| now apply IH | discriminate].
      rewrite (IH _ _ Hnd' (fresh_after_set Q v acc _ HQ HQacc Hfresh') Hrun).
      rewrite keys_dict_set_new by assumption.
      cbn [map fst]. now rewrite <- app_assoc.
Qed.

End KeyOrder.

Lemma posting_loop_key_order {L : Libraries} entropy data : forall acc drawn,
  NoDup (keys data) ->
  (forall k, In k (keys acc) -> ~ In k (keys data)) ->
  keys (fst (fold_left (posting_times_step entropy) data (acc, drawn)))
  = keys acc ++ map fst (filter has_records data).
Proof.
  induction data as [|[Q its] data IH]; intros acc drawn Hnd Hfresh.
  - simpl. now rewrite app_nil_r.
  - inversion Hnd as [|? ? HQ Hnd']; subst.
    assert (Hfresh' : forall k, In k (keys acc) -> ~ In k (keys data)).
    { intros k Hk Hin. apply (Hfresh k Hk). now right. }
    assert (HQacc : ~ In Q (keys acc)).
    { intros Hin. apply (Hfresh Q Hin). now left. }
    cbn [fold_left filter]. unfold has_records at 1. cbn [snd].
    unfold posting_times_step at 2.
    destruct its as [|it its]; [now apply IH|].
    destruct (extract_hours entropy (it :: its) drawn) as [hours drawn'].
    rewrite (IH _ _ Hnd' (fresh_after_set Q _ acc _ HQ HQacc Hfresh')).
    rewrite keys_dict_set_new by assumption.
    cbn [map fst]. now rewrite <- app_assoc.
Qed.

(** The platforms the engagement block knows. *)
Definition has_engagement_shape (platform_name : string) : bool :=
  String.eqb platform_name "youtube" || String.eqb platform_name "reddit"
  || String.eqb platform_name "google_news".

Lemma engagement_body_stores P it items :
  match engagement_body P (it :: items) with Ok (Some _) => true | _ => false end
  = has_engagement_shape P.
Proof.
  unfold engagement_body, has_engagement_shape.
  destruct (String.eqb P "youtube").
  { rewrite !len_map, !truediv_ok by apply len_nonzero. cbn [bind].
    destruct (guarded_ratio_ok (sum (map (metric likes) (it :: items)))
                               (sum (map (metric views) (it :: items)))) as [q ->].
    reflexivity. }
  destruct (String.eqb P "reddit").
  { rewrite !len_map, !truediv_ok by apply len_nonzero. cbn [bind].
    destruct (guarded_ratio_ok (sum (map (metric comments) (it :: items)))
                               (sum (map (metric upvotes) (it :: items)))) as [q ->].
    reflexivity. }
  destruct (String.eqb P "google_news"); [|reflexivity].
  now rewrite truediv_ok by apply len_nonzero.
Qed.

(** X4.  The engagement block never raises, and its keys are, in the order
    of the dataset, the platforms with records whose name is "youtube",
    "reddit" or "google_news": no other platform ever gets an entry. *)
Theorem engagement_block_keys (data : Dataset) (Hkeys : NoDup (keys data)) :
  exists stats,
    _analyze_engagement data = Ok stats /\
    keys stats
    = map fst (filter (fun entry => has_records entry
                                    && has_engagement_shape (fst entry)) data) /\
    Forall (fun k => k = "youtube" \/ k = "reddit" \/ k = "google_news") (keys stats).
Proof.
  destruct (_analyze_engagement_total data) as [stats Hstats].
  exists stats. split; [exact Hstats|].
  rewrite engagement_loop in Hstats.
  assert (Hkeys' : keys stats
                   = map fst (filter (fun entry => has_records entry
                                      && has_engagement_shape (fst entry)) data)).
  { rewrite (platform_loop_key_order _ _ _ _ Hkeys (fresh_start data) Hstats).
    simpl app. f_equal. apply filter_ext. intros [Q its].
    unfold stores, has_records. cbn [fst snd].
    destruct its as [|it its]; [reflexivity|]. cbn [andb].
    apply engagement_body_stores. }
  split; [exact Hkeys'|]. rewrite Hkeys'.
  rewrite Forall_forall. intros k Hk. apply in_map_iff in Hk.
  destruct Hk as [[Q its] [<- Hin]]. apply filter_In in Hin.
  destruct Hin as [_ Hshape]. apply andb_true_iff in Hshape.
  destruct Hshape as [_ Hshape]. unfold has_engagement_shape in Hshape. cbn [fst] in *.
  rewrite !orb_true_iff, !String.eqb_eq in Hshape. tauto.
Qed.

Lemma stores_always {V : Type} (body : string -> list item -> result (option V))
    (data : Dataset) :
  (forall P it items, exists v, body P (it :: items) = Ok (Some v)) ->
  filter (stores body) data = filter has_records data.
Proof.
  intros Hsome. apply filter_ext. intros [Q its].
  unfold stores, has_records. cbn [fst snd].
  destruct its as [|it its]; [reflexivity|].
  destruct (Hsome Q it its) as [v ->]. reflexivity.
Qed.

Lemma stores_on_success {V : Type} (body : string -> list item -> result (option V))
    (data : Dataset) acc r :
  (forall P items o, body P items = Ok o -> o <> None) ->
  for_each (platform_step body) data acc = Ok r ->
  filter (stores body) data = filter has_records data.
Proof.
  intros Hsome Hrun. apply filter_ext_in. intros [Q its] Hin.
  unfold stores, has_records. cbn [fst snd].
  destruct its as [|it its]; [reflexivity|].
  destruct (platform_loop_bodies body data acc r Q (it :: its) Hrun Hin
              ltac:(discriminate)) as [o Ho].
  rewrite Ho. destruct o; [reflexivity|]. now destruct (Hsome _ _ _ Ho).
Qed.

Lemma platforms_body_some {L : Libraries} P items o :
  platforms_body P items = Ok o -> o <> None.
Proof.
  unfold platforms_body. destruct (_get_date_range items); cbn; congruence.
Qed.

(** X5.  On a dataset no platform of which mixes naive and aware
    timestamps, the posting-time, keyword and platform blocks of the result
    have the same keys: the platforms that have at least one record, in the
    order of the dataset. *)
Theorem block_keys_follow_the_dataset {L : Libraries} (entropy : nat -> nat)
    (data : Dataset) (Hkeys : NoDup (keys data)) (Hclean : clean data) :
  keys (best_posting_times (analyze entropy data))
  = map fst (filter has_records data) /\
  keys (keyword_performance (analyze entropy data))
  = map fst (filter has_records data) /\
  keys (platform_insights (analyze entropy data))
  = map fst (filter has_records data).
Proof.
  destruct (analyze_blocks entropy data Hclean) as (Ht & _ & _ & Hk & Hp).
  split; [|split].
  - rewrite Ht. unfold _analyze_posting_times.
    now rewrite (posting_loop_key_order entropy data [] 0%nat Hkeys (fresh_start data)).
  - rewrite keywords_loop in Hk.
    rewrite (platform_loop_key_order _ _ _ _ Hkeys (fresh_start data) Hk).
    cbn [keys map app]. f_equal. apply stores_always. intros P it items.
    unfold keywords_body. rewrite with_averages_value. cbn. eauto.
  - rewrite platforms_loop in Hp.
    rewrite (platform_loop_key_order _ _ _ _ Hkeys (fresh_start data) Hp).
    cbn [keys map app]. f_equal. apply (stores_on_success _ _ _ _ platforms_body_some Hp).
Qed.

(* ================================================================= *)
(** ** More on the posting times *)

Section PostingMore.
Context {L : Libraries}.

(** The records that carry a non-empty [published_at]. *)
Definition stamped (it : item) : bool := truthy (text published_at it).

(** The records whose [published_at], when non-empty, is understood by the
    parser the analyzer picks for it. *)
Definition parsable (it : item) : bool :=
  negb (stamped it) ||
  match parse_published (text published_at it) with Some _ => true | None => false end.

Lemma extract_hours_length entropy items : forall hours drawn,
  List.length (fst (fold_left (extract_hour entropy) items (hours, drawn)))
  = (List.length hours + List.length (filter stamped items))%nat.
Proof.
  induction items as [|it items IH]; intros hours drawn; cbn [fold_left filter].
  - simpl. lia.
  - rewrite extract_hour_unfold. unfold stamped at 1.
    destruct (truthy (text published_at it)).
    + destruct (parse_published _); rewrite IH, length_app; simpl; lia.
    + apply IH.
Qed.

(** When every timestamp parses, the hours are those of the parsed dates
    and the generator is not consulted. *)
Lemma extract_hours_parsed entropy items : forall hours drawn,
  forallb parsable items = true ->
  fold_left (extract_hour entropy) items (hours, drawn)
  = (hours ++ map hour (parsed_dates items), drawn).
Proof.
  induction items as [|it items IH]; intros hours drawn Hall; cbn [fold_left].
  - simpl. now rewrite app_nil_r.
  - cbn [forallb] in Hall. apply andb_true_iff in Hall. destruct Hall as [Hit Hrest].
    rewrite extract_hour_unfold. unfold parsed_dates. cbn [flat_map].
    fold (parsed_dates items). unfold parsable, stamped in Hit.
    destruct (truthy (text published_at it)).
    + destruct (parse_published (text published_at it)) as [dt|]; [|discriminate].
      rewrite (IH _ _ Hrest), <- app_assoc. reflexivity.
    + now rewrite (IH _ _ Hrest).
Qed.

Lemma posting_loop_no_draw e1 e2 data : forall acc d1 d2,
  (forall P items, In (P, items) data -> forallb parsable items = true) ->
  fst (fold_left (posting_times_step e1) data (acc, d1))
  = fst (fold_left (posting_times_step e2) data (acc, d2)).
Proof.
  induction data as [|[Q its] data IH]; intros acc d1 d2 Hall; [reflexivity|].
  cbn [fold_left]. unfold posting_times_step at 2 4.
  assert (Hrest : forall P items, In (P, items) data -> forallb parsable items = true).
  { intros P items Hin. apply (Hall P items). now right. }
  destruct its as [|it its]; [now apply IH|].
  unfold extract_hours.
  rewrite !extract_hours_parsed by (apply (Hall Q); now left).
  now apply IH.
Qed.

(** X6.  On a dataset all of whose non-empty timestamps parse, the random
    generator has no influence: the whole result of [analyze] is the same
    for any two generators, and the posting-time entry of a platform is
    computed from the hours of its parsed timestamps, in the order of its
    records. *)
Theorem parsable_timestamps_need_no_entropy (e1 e2 : nat -> nat) (data : Dataset)
    (Hparse : forall P items, In (P, items) data -> forallb parsable items = true) :
  analyze e1 data = analyze e2 data /\
  (forall P items,
      NoDup (keys data) -> dict_get P data = Some items -> items <> [] ->
      dict_get P (_analyze_posting_times e1 data)
      = Some (posting_entry_of (map hour (parsed_dates items)))).
Proof.
  split.
  - assert (Htimes : _analyze_posting_times e1 data = _analyze_posting_times e2 data)
      by apply (posting_loop_no_draw e1 e2 data [] 0%nat 0%nat Hparse).
    unfold analyze, analyze_body. now rewrite Htimes.
  - intros P items Hnd Hget Hne. apply dict_get_In in Hget.
    destruct (posting_loop_entry e1 data [] 0%nat P items Hnd Hget Hne)
      as [drawn Hentry].
    unfold _analyze_posting_times. etransitivity; [exact Hentry|].
    unfold extract_hours.
    now rewrite (extract_hours_parsed e1 items [] drawn (Hparse P items Hget)).
Qed.

(** X7.  The [sample_size] of the posting-time entry of a platform is the
    number of its records that carry a non-empty [published_at], whether or
    not it parses; the entry is the fixed default exactly when there is no
    such record. *)
Theorem sample_size_counts_timestamps (entropy : nat -> nat) (data : Dataset)
    (P : string) (items : list item)
    (Hkeys : NoDup (keys data)) (Hget : dict_get P data = Some items)
    (Hne : items <> []) :
  exists e,
    dict_get P (_analyze_posting_times entropy data) = Some e /\
    sample_size e = List.length (filter stamped items) /\
    (e = default_times <-> filter stamped items = []).
Proof.
  apply dict_get_In in Hget.
  destruct (posting_loop_entry entropy data [] 0%nat P items Hkeys Hget Hne)
    as [drawn Hentry].
  eexists. split; [exact Hentry|].
  pose proof (extract_hours_length entropy items [] drawn) as Hlen.
  unfold extract_hours.
  destruct (fst (fold_left (extract_hour entropy) items ([], drawn))) as [|h hs] eqn:E.
  - cbn in Hlen. cbn [posting_entry_of default_times sample_size].
    split; [exact Hlen|]. split; [intros _|reflexivity].
    now apply length_zero_iff_nil.
  - destruct (posting_entry_of_spec (h :: hs) ltac:(discriminate)) as (Hsize & _).
    cbv zeta in Hsize. rewrite Hsize. split; [exact Hlen|]. split.
    + intros Hdef. rewrite Hdef in Hsize. cbn in Hsize, Hlen. lia.
    + intros Hnil. rewrite Hnil in Hlen. cbn in Hlen. lia.
Qed.

Lemma idxmax_top (top : Z * nat) (others : list (Z * nat)) :
  Forall (fun x => (snd x <= snd top)%nat) others -> idxmax top others = fst top.
Proof.
  unfold idxmax. induction 1 as [|x others Hx _ IH]; cbn [fold_left]; [reflexivity|].
  destruct (Nat.ltb_spec (snd top) (snd x)); [lia | exact IH].
Qed.

Lemma peak_hour_spec hours :
  hours <> [] ->
  let e := posting_entry_of hours in
  In (peak_hour e) (peak_hours e) /\ In (peak_hour e) hours /\
  forall h, (count_occ Z.eq_dec hours h <= count_occ Z.eq_dec hours (peak_hour e))%nat.
Proof.
  intros Hne. unfold posting_entry_of.
  destruct hours as [|h0 hs]; [contradiction|].
  set (hours := h0 :: hs) in *.
  pose proof (value_counts_sorted hours) as Hsorted.
  pose proof (value_counts_count hours) as Hcount.
  pose proof (value_counts_In hours) as Hin.
  destruct (value_counts hours) as [|top others] eqn:Hvc.
  { exfalso. apply (proj2 (Hin h0)). now left. }
  cbn [peak_hour peak_hours].
  inversion Hsorted as [|? ? _ Htop]; subst.
  rewrite (idxmax_top top others Htop).
  assert (Htopc : snd top = count_occ Z.eq_dec hours (fst top)).
  { destruct top as [h c]. apply (Hcount h c). now left. }
  split; [|split].
  - apply (Permutation_in _ (Permutation_sym (sort_asc_perm _))). now left.
  - apply Hin. now left.
  - intros h. rewrite <- Htopc.
    destruct (count_occ Z.eq_dec hours h) as [|n] eqn:Hn; [lia|].
    assert (Hrow : In (h, S n) (top :: others)).
    { apply Hcount. rewrite Hn. split; [reflexivity | lia]. }
    destruct Hrow as [Heq|Hrow]; [rewrite Heq; simpl; lia|].
    rewrite Forall_forall in Htop. apply (Htop _ Hrow).
Qed.

(** X8.  [peak_hour] is always one of the [peak_hours].  When at least
    one hour was extracted it is a most frequent of the hours extracted
    from the records of the platform: no hour occurs more often. *)
Theorem peak_hour_is_most_frequent
    (entropy : nat -> nat) (data : Dataset) (P : string) (e : posting_entry)
    (Hentry : dict_get P (_analyze_posting_times entropy data) = Some e) :
  In (peak_hour e) (peak_hours e) /\
  ((0 < sample_size e)%nat ->
   exists items drawn hours,
     In (P, items) data /\
     hours = fst (extract_hours entropy items drawn) /\
     List.length hours = sample_size e /\
     In (peak_hour e) hours /\
     forall h, (count_occ Z.eq_dec hours h
                <= count_occ Z.eq_dec hours (peak_hour e))%nat).
Proof.
  destruct (posting_entry_default_or_hours _ _ _ _ Hentry)
    as (items & drawn & Hplatform & -> & _).
  destruct (fst (extract_hours entropy items drawn)) as [|h0 hs] eqn:Hhours.
  { cbn. split; [auto | lia]. }
  destruct (peak_hour_spec (h0 :: hs) ltac:(discriminate)) as (Hpeak & Hin & Hmost).
  destruct (posting_entry_of_spec (h0 :: hs) ltac:(discriminate)) as (Hsize & _).
  split; [exact Hpeak|]. intros _.
  exists items, drawn, (h0 :: hs). rewrite Hhours. auto.
Qed.

End PostingMore.

(* ================================================================= *)
(** ** More on the engagement block *)

(** X9.  For the platform "reddit" the engagement entry holds the means of
    upvotes and of comments, computed in double precision and truncated to
    integers, the double nearest to the ratio of the sum of comments to the
    sum of upvotes (0 when the sum of upvotes is not positive, so that no
    division raises) and the number of records.  A mean so computed is the
    truncated exact mean whenever the sum is below [2^53] in absolute
    value. *)
Theorem forum_engagement_entry (data : Dataset) (items : list item)
    (Hkeys : NoDup (keys data)) (Hget : dict_get "reddit" data = Some items)
    (Hne : items <> []) :
  let us := map (metric upvotes) items in
  let cs := map (metric comments) items in
  let avg_upvotes := int_of (Float.round (inject_Z (sum us) / inject_Z (len items))) in
  let avg_comments := int_of (Float.round (inject_Z (sum cs) / inject_Z (len items))) in
  exists stats,
    _analyze_engagement data = Ok stats /\
    dict_get "reddit" stats
    = Some (ForumStats avg_upvotes avg_comments
              (if 0 <? sum us then Float.round (inject_Z (sum cs) / inject_Z (sum us))
               else inject_Z 0)
              (List.length items)) /\
    (Z.abs (sum us) < 2 ^ 53 -> avg_upvotes = Z.quot (sum us) (len items)) /\
    (Z.abs (sum cs) < 2 ^ 53 -> avg_comments = Z.quot (sum cs) (len items)).
Proof.
  intros us cs avg_upvotes avg_comments.
  destruct (engagement_entry_of data "reddit" items Hkeys Hget Hne)
    as (stats & o & Hstats & Ho & Hentry).
  exists stats. split; [exact Hstats|]. rewrite Hentry. clear Hentry.
  destruct items as [|it items]; [contradiction|].
  unfold engagement_body in Ho. cbn [String.eqb Ascii.eqb Bool.eqb] in Ho.
  fold us cs in Ho.
  assert (Hlu : len us = len (it :: items)) by apply len_map.
  assert (Hlc : len cs = len (it :: items)) by apply len_map.
  rewrite Hlu, Hlc, !truediv_ok in Ho by apply len_nonzero. cbn [bind] in Ho.
  rewrite guarded_ratio_value in Ho. cbn [bind] in Ho.
  split; [now inversion Ho|].
  split; intros Hsmall; apply FloatFacts.int_of_round; try assumption; apply len_pos.
Qed.

Lemma sum_bounds (l : list Z) lo hi :
  Forall (fun v => lo <= v <= hi) l -> lo * len l <= sum l <= hi * len l.
Proof.
  induction 1 as [|v l Hv _ IH]; [cbn; lia|].
  rewrite sum_cons. unfold len in *. cbn [List.length]. rewrite Nat2Z.inj_succ. lia.
Qed.

Lemma quot_between a n lo hi :
  0 < n -> lo * n <= a <= hi * n -> lo <= Z.quot a n <= hi.
Proof.
  intros Hn [Hlo Hhi]. split.
  - rewrite <- (Z.quot_mul lo n) by lia. apply Z.quot_le_mono; lia.
  - rewrite <- (Z.quot_mul hi n) by lia. apply Z.quot_le_mono; lia.
Qed.

(** X10.  In every "youtube" engagement entry whose views add up to less
    than [2^53] in absolute value the mean of the views lies between the
    smallest and the largest view count; in every such entry the two are
    view counts of records of the platform, and [total_items] is the number
    of those records. *)
Theorem video_mean_within_bounds (data : Dataset) (items : list item)
    (Hkeys : NoDup (keys data)) (Hget : dict_get "youtube" data = Some items)
    (Hne : items <> []) :
  exists stats avg_views avg_likes ratio max_views min_views,
    _analyze_engagement data = Ok stats /\
    dict_get "youtube" stats
    = Some (VideoStats avg_views avg_likes ratio max_views min_views
              (List.length items)) /\
    (Z.abs (sum (map (metric views) items)) < 2 ^ 53 ->
     min_views <= avg_views <= max_views) /\
    min_views <= max_views /\
    (exists it, In it items /\ metric views it = min_views) /\
    (exists it, In it items /\ metric views it = max_views).
Proof.
  destruct (engagement_entry_of data "youtube" items Hkeys Hget Hne)
    as (stats & o & Hstats & Ho & Hentry).
  destruct items as [|it items]; [contradiction|].
  unfold engagement_body in Ho. cbn [String.eqb Ascii.eqb Bool.eqb] in Ho.
  set (vs := map (metric views) (it :: items)) in *.
  set (ls := map (metric likes) (it :: items)) in *.
  assert (Hlv : len vs = len (it :: items)) by apply len_map.
  assert (Hll : len ls = len (it :: items)) by apply len_map.
  rewrite Hlv, Hll, !truediv_ok in Ho by apply len_nonzero. cbn [bind] in Ho.
  destruct (guarded_ratio_ok (sum ls) (sum vs)) as [q Hq].
  rewrite Hq in Ho. cbn [bind] in Ho.
  destruct (fold_max_spec (map (metric views) items) (metric views it)) as [Hmx1 Hmx2].
  destruct (fold_min_spec (map (metric views) items) (metric views it)) as [Hmn1 Hmn2].
  change (metric views it :: map (metric views) items) with vs in Hmx1, Hmx2, Hmn1, Hmn2.
  unfold py_max, py_min in Ho. unfold vs at 2 3 in Ho. cbn [map bind] in Ho.
  injection Ho as Ho. rewrite <- Ho in Hentry.
  eexists stats, _, _, _, _, _. split; [exact Hstats|].
  split; [exact Hentry|]. split; [|split; [|split]].
  - intros Hsmall.
    match goal with |- _ <= ?avg <= _ =>
      replace avg with (Z.quot (sum vs) (len (it :: items)))
        by (symmetry; apply FloatFacts.int_of_round; [apply len_pos | exact Hsmall])
    end.
    apply quot_between; [apply len_pos|]. rewrite <- Hlv. apply sum_bounds.
    rewrite Forall_forall in *. intros v Hv.
    specialize (Hmx2 v Hv). specialize (Hmn2 v Hv). lia.
  - rewrite Forall_forall in Hmx2. apply Hmx2. exact Hmn1.
  - apply in_map_iff in Hmn1. destruct Hmn1 as [x [Hx Hin]]. eauto.
  - apply in_map_iff in Hmx1. destruct Hmx1 as [x [Hx Hin]]. eauto.
Qed.

(* ================================================================= *)
(** ** The platform summaries *)

Lemma NoDup_firstn {A : Type} (n : nat) (l : list A) : NoDup l -> NoDup (firstn n l).
Proof.
  intros Hnd. rewrite <- (firstn_skipn n l) in Hnd.
  apply (NoDup_app_remove_r _ _ Hnd).
Qed.

Lemma most_common_nodup (tokens : list string) (n : nat) :
  NoDup (map fst (most_common n (Counter String.eqb tokens))).
Proof.
  destruct (Counter_spec String.eqb String.eqb_spec string_dec tokens) as [Hnd _].
  unfold most_common. rewrite <- firstn_map. apply NoDup_firstn.
  apply (Permutation_NoDup (Permutation_sym
           (Permutation_map fst (sort_desc_perm (Counter String.eqb tokens))))).
  exact Hnd.
Qed.

(** X11.  [_get_top_keywords] returns at most five keywords, all distinct
    and each the non-empty [keyword] of some record; they are the
    best-ranked of the keywords of the records -- more frequent ones first
    and, among equally frequent ones, the one met first -- and a record
    without keyword counts for nothing (it is not counted as "unknown"). *)
Theorem top_keywords_ranked (items : list item) :
  let kws := filter truthy (map (text keyword) items) in
  let top := _get_top_keywords items in
  List.length top = Nat.min 5 (List.length (first_seen String.eqb kws)) /\
  NoDup top /\
  Forall (fun k => k <> EmptyString /\ exists it, In it items /\ keyword it = Some k) top /\
  StronglySorted (outranks kws) top /\
  (forall w k, In w kws -> ~ In w top -> In k top -> outranks kws k w).
Proof.
  intros kws top.
  assert (Htop : top = map fst (most_common 5 (Counter String.eqb kws))).
  { unfold top, _get_top_keywords. fold kws. now destruct kws. }
  destruct (most_common_ranked kws 5) as (Hin & Hsorted & Hlen & Hmax).
  cbv zeta in Hin, Hsorted, Hlen, Hmax. rewrite <- Htop in *.
  split; [exact Hlen|]. split; [rewrite Htop; apply most_common_nodup|].
  split; [|split; assumption].
  rewrite Forall_forall in *. intros k Hk. specialize (Hin k Hk).
  unfold kws in Hin. apply filter_In in Hin. destruct Hin as [Hmap Htruthy].
  split; [intros ->; discriminate|].
  apply in_map_iff in Hmap. destruct Hmap as [it [Hit Hitems]].
  exists it. split; [assumption|]. unfold text in Hit.
  destruct (keyword it) as [s|]; [now subst | subst; discriminate].
Qed.

Section Summaries.
Context {L : Libraries}.

(** X12.  The date range is "Unknown" when no record has a timestamp that
    parses.  When the parsed timestamps are all naive or all aware it is
    "<first> to <last>", the days of an earliest and of a latest of them.
    When they are of both kinds the comparison raises a [TypeError]. *)
Theorem date_range_spec (items : list item) :
  let dates := parsed_dates items in
  (dates = [] -> _get_date_range items = Ok "Unknown") /\
  (dates <> [] -> same_kind dates = true ->
   exists lo hi,
     In lo dates /\ In hi dates /\
     Forall (fun d => instant lo <= instant d <= instant hi) dates /\
     _get_date_range items = Ok (date_str lo +++ " to " +++ date_str hi)) /\
  (same_kind dates = false -> _get_date_range items = Raise TypeError).
Proof.
  intros dates. split; [|split].
  - unfold _get_date_range. fold dates. now intros ->.
  - intros Hne Hkind. unfold _get_date_range. fold dates.
    destruct dates as [|d rest]; [contradiction|]. cbn [same_kind] in Hkind.
    destruct (min_from_ok rest d Hkind) as (lo & -> & Hlo & Hmin).
    destruct (max_from_ok rest d Hkind) as (hi & -> & Hhi & Hmax).
    exists lo, hi. repeat split; try assumption.
    rewrite Forall_forall in *. intros x Hx.
    specialize (Hmin x Hx). specialize (Hmax x Hx). lia.
  - apply _get_date_range_mixed.
Qed.

Lemma insert_dated_perm x s : forall r,
  insert_dated x s = Ok r -> Permutation r (x :: s).
Proof.
  induction s as [|y s IH]; intros r Hr; simpl in Hr.
  - now inversion Hr.
  - destruct (dt_lt (fst y) (fst x)) as [[|]|]; cbn [bind] in Hr; [| |discriminate].
    + destruct (insert_dated x s) as [r'|]; cbn [bind] in Hr; [|discriminate].
      inversion Hr; subst. rewrite (IH r' eq_refl). apply perm_swap.
    + now inversion Hr.
Qed.

Lemma sort_dated_perm l : forall s, sort_dated l = Ok s -> Permutation s l.
Proof.
  induction l as [|x l IH]; intros s Hs; simpl in Hs.
  - now inversion Hs.
  - destruct (sort_dated l) as [s'|]; cbn [bind] in Hs; [|discriminate].
    rewrite (insert_dated_perm _ _ _ Hs). constructor. now apply IH.
Qed.

Lemma sum_zeros (l : list Z) : Forall (fun v => v = 0) l -> sum l = 0.
Proof.
  intros H.
  assert (Hb : 0 * len l <= sum l <= 0 * len l).
  { apply sum_bounds. rewrite Forall_forall in *. intros v Hv.
    rewrite (H v Hv). lia. }
  lia.
Qed.

Lemma compare_halves_zeros first_half second_half :
  Forall (fun v => v = 0) first_half -> Forall (fun v => v = 0) second_half ->
  compare_halves first_half second_half = Ok "Stable".
Proof.
  intros H1 H2.
  destruct first_half as [|a f]; [reflexivity|].
  destruct second_half as [|b s]; [reflexivity|].
  rewrite compare_halves_value by discriminate. cbv zeta.
  rewrite (sum_zeros _ H1), (sum_zeros _ H2), !float_zero. reflexivity.
Qed.

(** X13.  The trend reads views or upvotes only when the [platform] field
    of the first record contains "youtube" or "reddit".  When it contains
    neither (or is absent), every engagement is 0 and the trend is
    "Insufficient data" below five records and "Stable" otherwise: never
    "Increasing" or "Decreasing", whatever the metrics and the dates. *)
Theorem trend_without_platform_tag (items : list item) (it0 : item)
    (Hfirst : hd_error items = Some it0)
    (Hvideo : Text.contains "youtube" (text platform it0) = false)
    (Hforum : Text.contains "reddit" (text platform it0) = false) :
  _get_engagement_trend items
  = if (List.length items <? 5)%nat then "Insufficient data" else "Stable".
Proof.
  unfold _get_engagement_trend.
  destruct (List.length items <? 5)%nat; [reflexivity|].
  unfold trend_of_dated.
  destruct (5 <=? List.length (dated_items items))%nat; [|reflexivity].
  destruct (sort_dated (dated_items items)) as [sorted|e] eqn:Hs; cbn [bind];
    [|reflexivity].
  assert (Hzero : Forall (fun v => v = 0) (map snd sorted)).
  { apply sort_dated_perm in Hs.
    apply (Permutation_Forall (Permutation_sym (Permutation_map snd Hs))).
    rewrite dated_items_engagement.
    destruct items as [|it items]; [discriminate|]. inversion Hfirst; subst it.
    rewrite Forall_forall. intros v Hv. apply in_map_iff in Hv.
    destruct Hv as [x [<- _]]. unfold trend_engagement. now rewrite Hvideo, Hforum. }
  rewrite compare_halves_zeros; [reflexivity| |];
    rewrite Forall_forall in *; intros v Hv; apply Hzero;
    apply in_map_iff in Hv; destruct Hv as [x [<- Hx]]; apply in_map.
  - apply (In_firstn_In _ _ _ Hx).
  - apply (In_skipn_In _ _ _ Hx).
Qed.

(** X14.  On a dataset no platform of which mixes naive and aware
    timestamps, the summary of a platform with records is computed from
    the records of that platform alone: their number, their date range,
    their top keywords and their engagement trend. *)
Theorem platform_summary_entry (entropy : nat -> nat) (data : Dataset)
    (P : string) (items : list item)
    (Hkeys : NoDup (keys data)) (Hclean : clean data)
    (Hget : dict_get P data = Some items) (Hne : items <> []) :
  exists range,
    _get_date_range items = Ok range /\
    dict_get P (platform_insights (analyze entropy data))
    = Some (mk_platform_summary (List.length items) range
              (_get_top_keywords items) (_get_engagement_trend items)).
Proof.
  destruct (analyze_blocks entropy data Hclean) as (_ & _ & _ & _ & Hp).
  rewrite platforms_loop in Hp. apply dict_get_In in Hget.
  destruct (platform_loop_entry _ _ _ _ _ _ Hkeys Hp Hget Hne) as (o & Ho & Hentry).
  unfold platforms_body in Ho.
  destruct (_get_date_range items) as [range|]; cbn [bind] in Ho; [|discriminate].
  exists range. split; [reflexivity|]. rewrite Hentry. now inversion Ho.
Qed.

End Summaries.

(* ================================================================= *)
(** ** Which records can be viral *)

Lemma filter_all {A : Type} (f : A -> bool) (l : list A) :
  List.length (filter f l) = List.length l -> Forall (fun x => f x = true) l.
Proof.
  induction l as [|x l IH]; simpl; intros Hlen; [constructor|].
  pose proof (filter_length_le f l) as Hle.
  destruct (f x) eqn:E; simpl in Hlen; [|lia].
  constructor; [assumption | apply IH; lia].
Qed.

Lemma sum_above (vs : list Z) s n :
  vs <> [] -> Forall (fun v => s < v * n) vs -> s * len vs < sum vs * n.
Proof.
  intros Hne H. induction H as [|v vs Hv Hvs IH]; [contradiction|].
  rewrite sum_cons. unfold len in *. cbn [List.length]. rewrite Nat2Z.inj_succ.
  destruct vs as [|w vs].
  - cbn. cbn in Hv. lia.
  - specialize (IH ltac:(discriminate)). lia.
Qed.

Lemma above_mean_strict (items : list item) :
  items <> [] -> (List.length (above_mean items) < List.length items)%nat.
Proof.
  intros Hne. pose proof (filter_length_le
    (fun it => sum (map (metric views) items) <? metric views it * len items) items)
    as Hle.
  unfold above_mean.
  destruct (Nat.eq_dec
    (List.length (filter (fun it => sum (map (metric views) items)
                                    <? metric views it * len items) items))
    (List.length items)) as [Heq|Hneq]; [exfalso | lia].
  apply filter_all in Heq.
  assert (Hall : Forall (fun v => sum (map (metric views) items) < v * len items)
                        (map (metric views) items)).
  { rewrite Forall_forall in *. intros v Hv. apply in_map_iff in Hv.
    destruct Hv as [it [<- Hit]]. apply Z.ltb_lt. now apply Heq. }
  apply sum_above in Hall.
  - rewrite len_map in Hall. lia.
  - destruct items; [contradiction | discriminate].
Qed.

Section ViralBounds.
Context {L : Libraries}.

(** X15.  When the views of the "youtube" records add up to less than
    [2^53] (and are not negative in total), the viral records are those
    strictly above the arithmetic mean, and at least one record is not
    viral: at most [min 5 (n - 1)] titles are reported for [n] records.
    When moreover all records have the same number of views -- in
    particular when there is only one record -- none is viral and both
    lists of the block are empty. *)
Theorem not_every_video_is_viral (data : Dataset) (items : list item)
    (Hget : dict_get "youtube" data = Some items) (Hne : items <> [])
    (Hsmall : 0 <= sum (map (metric views) items) < 2 ^ 53) :
  exists titles kws,
    _analyze_viral_patterns data
    = Ok [ ("high_engagement_titles", PList titles);
           ("common_keywords_in_viral", PList kws);
           ("content_length_pattern", PEmptyDict);
           ("emotional_triggers", PList []) ] /\
    filter (fun it => Qlt_bool (Float.round (inject_Z (sum (map (metric views) items))
                                             / inject_Z (len (map (metric views) items))))
                               (inject_Z (metric views it)))
           items
    = above_mean items /\
    (List.length (above_mean items) < List.length items)%nat /\
    (List.length titles <= Nat.min 5 (List.length items - 1))%nat /\
    ((forall a b, In a items -> In b items -> metric views a = metric views b) ->
     above_mean items = [] /\ titles = [] /\ kws = []).
Proof.
  pose proof (_analyze_viral_patterns_value data) as Hvalue. cbv zeta in Hvalue.
  rewrite Hget in Hvalue. rewrite (viral_above_mean items Hsmall) in Hvalue.
  eexists. eexists. split; [exact Hvalue|].
  split; [exact (viral_above_mean items Hsmall)|].
  pose proof (above_mean_strict items Hne) as Hstrict.
  split; [exact Hstrict|]. split.
  - rewrite length_map.
    etransitivity; [apply filter_length_le|].
    rewrite length_map, length_firstn. lia.
  - intros Hsame.
    assert (Hnone : above_mean items = []).
    { destruct (above_mean items) as [|v viral] eqn:Hviral; [reflexivity|].
      exfalso.
      assert (Hv : In v (above_mean items)) by (rewrite Hviral; now left).
      unfold above_mean in Hv. apply filter_In in Hv. destruct Hv as [Hin Hlt].
      apply Z.ltb_lt in Hlt.
      assert (Hb : metric views v * len (map (metric views) items)
                   <= sum (map (metric views) items)
                   <= metric views v * len (map (metric views) items)).
      { apply sum_bounds. rewrite Forall_forall. intros x Hx. apply in_map_iff in Hx.
        destruct Hx as [it [<- Hit]]. rewrite (Hsame it v Hit Hin). lia. }
      rewrite len_map in Hb. lia. }
    rewrite Hnone. cbn [filter map firstn String.concat].
    rewrite (str_lower_ascii EmptyString eq_refl). repeat split; reflexivity.
Qed.

End ViralBounds.

(* ================================================================= *)
(** ** From the analysis to the recommendations *)

(** X16.  [get_recommendations] never returns an empty list: it holds
    between one and five recommendations, and when none of the four rules
    fires it is the four generic recommendations. *)
Theorem recommendations_never_empty (insights : Insights) :
  (1 <= List.length (get_recommendations insights) <= 5)%nat /\
  (posting_rule_spec (best_posting_times insights) = [] ->
   viral_rule_spec (viral_content_patterns insights) = [] ->
   platform_rule_spec (engagement_insights insights) = [] ->
   flat_map keyword_rule_spec (keyword_performance insights) = [] ->
   get_recommendations insights = generic_recommendations).
Proof.
  unfold get_recommendations.
  rewrite posting_rule_loop, viral_rule_value, platform_rule_value, keyword_rule_loop.
  split.
  - rewrite length_firstn.
    match goal with |- context [match ?r with [] => _ | _ :: _ => _ end] =>
      destruct r as [|r0 recs] end; cbn [List.length generic_recommendations]; lia.
  - intros -> -> -> ->. reflexivity.
Qed.

Lemma time_range_truthy peak : truthy (time_range peak) = true.
Proof.
  unfold time_range.
  destruct (2 <=? List.length peak)%nat; destruct (Text.of_Z (hd 0 peak)); reflexivity.
Qed.

Lemma all_truthy_posting (times : dict posting_entry) :
  Forall (fun entry => truthy (best_time_range (snd entry)) = true) times ->
  posting_rule_spec times
  = map (fun entry => posting_recommendation (fst entry) (best_time_range (snd entry)))
        times.
Proof.
  intros Hall. unfold posting_rule_spec.
  induction Hall as [|entry times Hentry _ IH]; [reflexivity|].
  cbn [filter]. rewrite <- truthy_nonempty, Hentry. cbn [map]. now rewrite IH.
Qed.

Section Composition.
Context {L : Libraries}.

Lemma posting_entry_of_truthy hours :
  truthy (best_time_range (posting_entry_of hours)) = true.
Proof.
  unfold posting_entry_of. destruct hours as [|h hs]; [reflexivity|].
  destruct (value_counts (h :: hs)); [reflexivity|].
  cbn [best_time_range]. apply time_range_truthy.
Qed.

Lemma posting_loop_truthy entropy data : forall acc drawn,
  Forall (fun entry => truthy (best_time_range (snd entry)) = true) acc ->
  Forall (fun entry => truthy (best_time_range (snd entry)) = true)
         (fst (fold_left (posting_times_step entropy) data (acc, drawn))).
Proof.
  induction data as [|[Q its] data IH]; intros acc drawn Hacc; [exact Hacc|].
  cbn [fold_left]. unfold posting_times_step at 2.
  destruct its as [|it its]; [now apply IH|].
  destruct (extract_hours entropy (it :: its) drawn) as [hours drawn'].
  apply IH.
  apply (Forall_dict_set (fun e => truthy (best_time_range e) = true));
    [apply posting_entry_of_truthy | exact Hacc].
Qed.

(** X17.  On a dataset no platform of which mixes naive and aware
    timestamps, every platform with records has a posting-time entry with
    a non-empty range, so the recommendations of the analysis begin with
    one posting recommendation per platform with records, in the order of
    the dataset, before any other recommendation and up to the cut at
    five. *)
Theorem recommendations_lead_with_posting_times (entropy : nat -> nat)
    (data : Dataset) (Hkeys : NoDup (keys data)) (Hclean : clean data) :
  let times := best_posting_times (analyze entropy data) in
  let posting :=
    map (fun entry => posting_recommendation (fst entry) (best_time_range (snd entry)))
        times in
  keys times = map fst (filter has_records data) /\
  Forall (fun entry => best_time_range (snd entry) <> EmptyString) times /\
  (filter has_records data <> [] ->
   exists others,
     get_recommendations (analyze entropy data) = firstn 5 (posting ++ others)).
Proof.
  intros times posting.
  destruct (analyze_blocks entropy data Hclean) as (Ht & _).
  assert (Htruthy : Forall (fun entry => truthy (best_time_range (snd entry)) = true)
                           times).
  { unfold times. rewrite Ht. apply posting_loop_truthy. constructor. }
  assert (Hk : keys times = map fst (filter has_records data)).
  { unfold times. rewrite Ht. unfold _analyze_posting_times.
    now rewrite (posting_loop_key_order entropy data [] 0%nat Hkeys (fresh_start data)). }
  split; [exact Hk|]. split.
  - rewrite Forall_forall in *. intros entry Hin Hnil.
    specialize (Htruthy entry Hin). rewrite Hnil in Htruthy. discriminate.
  - intros Hsome. unfold get_recommendations. fold times.
    rewrite posting_rule_loop, viral_rule_value, platform_rule_value, keyword_rule_loop.
    rewrite (all_truthy_posting times Htruthy). fold posting. cbn [app].
    rewrite <- !app_assoc.
    exists (viral_rule_spec (viral_content_patterns (analyze entropy data))
            ++ platform_rule_spec (engagement_insights (analyze entropy data))
            ++ flat_map keyword_rule_spec (keyword_performance (analyze entropy data))).
    destruct posting as [|r recs] eqn:Hposting; [exfalso | reflexivity].
    unfold posting in Hposting. apply map_eq_nil in Hposting.
    rewrite Hposting in Hk. cbn in Hk. symmetry in Hk. apply map_eq_nil in Hk.
    contradiction.
Qed.

Lemma posting_loop_skip entropy data : forall acc drawn,
  (forall P items, In (P, items) data -> items = []) ->
  fold_left (posting_times_step entropy) data (acc, drawn) = (acc, drawn).
Proof.
  induction data as [|[Q its] data IH]; intros acc drawn Hall; [reflexivity|].
  cbn [fold_left]. rewrite (Hall Q its) by now left. cbn [posting_times_step].
  apply IH. intros P items Hin. apply (Hall P items). now right.
Qed.

Lemma platform_loop_skip {V : Type} (body : string -> list item -> result (option V))
    data : forall acc,
  (forall P items, In (P, items) data -> items = []) ->
  for_each (platform_step body) data acc = Ok acc.
Proof.
  induction data as [|[Q its] data IH]; intros acc Hall; [reflexivity|].
  cbn [for_each]. rewrite (Hall Q its) by now left. cbn [platform_step bind].
  apply IH. intros P items Hin. apply (Hall P items). now right.
Qed.

(** X18.  When no platform of the dataset has a record, the analysis
    completes with empty blocks -- except for the viral block, which keeps
    its four keys with empty values -- and the recommendations are the four
    generic ones. *)
Theorem nothing_to_analyze (entropy : nat -> nat) (data : Dataset)
    (Hempty : forall P items, In (P, items) data -> items = []) :
  analyze entropy data = mk_insights [] initial_patterns [] [] [] /\
  get_recommendations (analyze entropy data) = generic_recommendations.
Proof.
  assert (Hvalue : analyze entropy data = mk_insights [] initial_patterns [] [] []).
  { assert (Htimes : _analyze_posting_times entropy data = []).
    { unfold _analyze_posting_times.
      exact (f_equal fst (posting_loop_skip entropy data [] 0%nat Hempty)). }
    assert (Hviral : _analyze_viral_patterns data = Ok initial_patterns).
    { unfold _analyze_viral_patterns.
      destruct (dict_get "youtube" data) as [its|] eqn:Hget; [|reflexivity].
      apply dict_get_In in Hget. rewrite (Hempty _ _ Hget). reflexivity. }
    unfold analyze, analyze_body.
    rewrite Htimes, Hviral, engagement_loop, keywords_loop, platforms_loop.
    rewrite !platform_loop_skip by exact Hempty. reflexivity. }
  split; [exact Hvalue|]. rewrite Hvalue. reflexivity.
Qed.

(** *** The analyzer object after a fault *)

(** The attribute [self.insights] of a fresh analyzer after [analyze]: the
    blocks are assigned one after the other, so those assigned before an
    exception stay.  A block that was not assigned is read by
    [get_recommendations] through [.get(key, {})], that is as an empty
    block. *)
Definition insights_attribute (entropy : nat -> nat) (data : Dataset) : Insights :=
  let times := _analyze_posting_times entropy data in
  match _analyze_viral_patterns data with
  | Raise _ => mk_insights times [] [] [] []
  | Ok patterns =>
      match _analyze_engagement data with
      | Raise _ => mk_insights times patterns [] [] []
      | Ok engagement =>
          match _analyze_keywords data with
          | Raise _ => mk_insights times patterns engagement [] []
          | Ok keywords =>
              match _analyze_platforms data with
              | Raise _ => mk_insights times patterns engagement keywords []
              | Ok platforms => mk_insights times patterns engagement keywords platforms
              end
          end
      end
  end.

(** X19.  [get_recommendations] reads the attribute of the analyzer, not
    the value [analyze] returned.  The two agree when the [try] block
    completes.  When it raises -- some platform mixes naive and aware
    timestamps -- [analyze] returns the all-empty insights, but the
    attribute keeps the four blocks computed before the platform summaries,
    and since [get_recommendations] does not read the platform summaries
    the recommendations of the analyzer are in both cases those of the four
    blocks. *)
Theorem recommendations_after_a_fault (entropy : nat -> nat) (data : Dataset) :
  exists patterns engagement keywords,
    _analyze_viral_patterns data = Ok patterns /\
    _analyze_engagement data = Ok engagement /\
    _analyze_keywords data = Ok keywords /\
    (clean data -> insights_attribute entropy data = analyze entropy data) /\
    (~ clean data ->
     analyze entropy data = empty_insights /\
     insights_attribute entropy data
     = mk_insights (_analyze_posting_times entropy data) patterns engagement keywords
                   []) /\
    get_recommendations (insights_attribute entropy data)
    = get_recommendations
        (mk_insights (_analyze_posting_times entropy data) patterns engagement keywords
                     []).
Proof.
  destruct (_analyze_viral_patterns_total data) as [vp Hvp].
  destruct (_analyze_engagement_total data) as [ei Hei].
  destruct (_analyze_keywords_total data) as [kp Hkp].
  exists vp, ei, kp. split; [exact Hvp|]. split; [exact Hei|]. split; [exact Hkp|].
  pose proof (analyze_body_ok_iff_clean entropy data) as Hiff.
  unfold insights_attribute, analyze, analyze_body in *.
  rewrite Hvp, Hei, Hkp in *. cbn [bind] in *.
  destruct (_analyze_platforms data) as [pi|e]; cbn [bind] in *.
  - split; [reflexivity|]. split; [|reflexivity].
    intros Hnot. exfalso. apply Hnot, Hiff. eauto.
  - split; [|split; [split|]; reflexivity].
    intros Hclean. apply Hiff in Hclean. destruct Hclean as [ins Hins]. discriminate.
Qed.

End Composition.

(* ================================================================= *)
(** ** The content generator reads the insights *)

(** [ContentGenerator._extract_time_insight] of
    [content_generator_new.py]: the entry of the platform in
    [best_posting_times], if there is one with a non-empty range. *)
Definition _extract_time_insight (insights : Insights) (platform_name : string)
  : string :=
  match dict_get platform_name (best_posting_times insights) with
  | Some times =>
      if truthy (best_time_range times)
      then "Best posting time: " +++ best_time_range times
      else "Post during business hours (9 AM - 5 PM)"
  | None => "Post during business hours (9 AM - 5 PM)"
  end.

(** [ContentGenerator._extract_keyword_insight]. *)
Definition _extract_keyword_insight (insights : Insights) : string :=
  match viral_keywords_of (viral_content_patterns insights) with
  | [] => "Focus on value-driven content"
  | viral => "Trending keywords: " +++ String.concat ", " (firstn 3 viral)
  end.

Section Generator.
Context {L : Libraries}.

(** X20.  What the content generator says about posting times when it is
    given the result of [analyze].  For a platform with records of a
    dataset that does not mix naive and aware timestamps it names the range
    of the posting-time entry of that platform; for a platform without
    records, and for every platform when the analysis failed, it falls back
    to the business hours. *)
Theorem time_insight_of_analysis (entropy : nat -> nat) (data : Dataset)
    (P : string) (Hkeys : NoDup (keys data)) :
  (forall items,
      clean data -> dict_get P data = Some items -> items <> [] ->
      exists e,
        dict_get P (_analyze_posting_times entropy data) = Some e /\
        _extract_time_insight (analyze entropy data) P
        = "Best posting time: " +++ best_time_range e) /\
  (dict_get P data = None \/ dict_get P data = Some [] \/ ~ clean data ->
   _extract_time_insight (analyze entropy data) P
   = "Post during business hours (9 AM - 5 PM)").
Proof.
  split.
  - intros items Hclean Hget Hne. apply dict_get_In in Hget.
    destruct (analyze_blocks entropy data Hclean) as (Ht & _).
    destruct (posting_loop_entry entropy data [] 0%nat P items Hkeys Hget Hne)
      as [drawn Hentry].
    eexists. split; [exact Hentry|].
    unfold _extract_time_insight. rewrite Ht. unfold _analyze_posting_times.
    replace (dict_get P (fst (fold_left (posting_times_step entropy) data ([], 0%nat))))
      with (Some (posting_entry_of (fst (extract_hours entropy items drawn))))
      by (symmetry; exact Hentry).
    now rewrite posting_entry_of_truthy.
  - intros Hcases. unfold _extract_time_insight.
    destruct (dict_get P (best_posting_times (analyze entropy data))) as [e|] eqn:He;
      [exfalso | reflexivity].
    assert (Hkey : has_key P (best_posting_times (analyze entropy data)))
      by (apply has_key_get; eauto).
    unfold analyze in Hkey.
    destruct (analyze_body entropy data) as [ins|err] eqn:Hbody;
      [|destruct Hkey].
    destruct (analyze_body_inv _ _ _ Hbody) as (Ht & _). rewrite Ht in Hkey.
    apply posting_loop_keys in Hkey.
    destruct Hkey as [[]|(items & Hin & Hne)].
    destruct Hcases as [Hnone|[Hnil|Hnot]].
    + apply Hne, (absent_or_empty data P Hkeys (or_introl Hnone) items Hin).
    + apply Hne, (absent_or_empty data P Hkeys (or_intror Hnil) items Hin).
    + apply Hnot, (analyze_body_ok_iff_clean entropy data). eauto.
Qed.

(** X21.  What the content generator says about keywords when it is given
    the result of [analyze]: the first three of the ranked words of the
    titles of the viral "youtube" records, joined by commas, when the
    analysis completed and found such words; the fixed sentence otherwise.
    The viral records are those above the mean of the views computed in
    double precision, and the words are the maximal runs of at least four
    word characters of the lowercased titles.  The generator names the
    same keywords as the keyword recommendation of
    [get_recommendations]. *)
Theorem keyword_insight_of_analysis (entropy : nat -> nat) (data : Dataset) :
  let youtube_data :=
    match dict_get "youtube" data with Some items => items | None => [] end in
  let views_of := map (metric views) youtube_data in
  let mean := Float.round (inject_Z (sum views_of) / inject_Z (len views_of)) in
  let viral :=
    filter (fun it => Qlt_bool mean (inject_Z (metric views it))) youtube_data in
  exists runs,
    maximal_runs word_char
      (Text.chars (str_lower (String.concat " "
                                (filter truthy (map (text title) viral)))))
      runs /\
    let tokens := map (String.concat EmptyString)
                      (filter (fun run => (4 <=? List.length run)%nat) runs) in
    let kws := map fst (most_common 10 (Counter String.eqb tokens)) in
    (clean data ->
     dict_get "common_keywords_in_viral" (viral_content_patterns (analyze entropy data))
     = Some (PList kws) /\
     _extract_keyword_insight (analyze entropy data)
     = match kws with
       | [] => "Focus on value-driven content"
       | _ :: _ => "Trending keywords: " +++ String.concat ", " (firstn 3 kws)
       end /\
     viral_rule_spec (viral_content_patterns (analyze entropy data))
     = match kws with
       | [] => []
       | _ :: _ => ["🔥 Include these keywords in content: "
                    +++ String.concat ", " (firstn 3 kws)]
       end) /\
    (~ clean data ->
     _extract_keyword_insight (analyze entropy data) = "Focus on value-driven content").
Proof.
  intros youtube_data views_of mean viral.
  destruct (findall_words4_spec word_char
              (str_lower (String.concat " " (filter truthy (map (text title) viral)))))
    as (runs & Hruns & Htokens).
  exists runs. split; [exact Hruns|]. cbv zeta. unfold words_of in Htokens.
  rewrite <- Htokens.
  set (kws := map fst (most_common 10 (Counter String.eqb _))).
  split.
  - intros Hclean.
    destruct (analyze_blocks entropy data Hclean) as (_ & Hv & _).
    rewrite _analyze_viral_patterns_value in Hv. cbv zeta in Hv.
    fold youtube_data in Hv. unfold rounded_mean in Hv.
    fold views_of in Hv. fold mean in Hv. fold viral in Hv. fold kws in Hv.
    injection Hv as Hv.
    unfold _extract_keyword_insight, viral_rule_spec, viral_keywords_of.
    rewrite <- Hv. cbn [dict_get String.eqb Ascii.eqb Bool.eqb].
    split; [reflexivity|]. now destruct kws.
  - intros Hnot. unfold analyze.
    destruct (analyze_body entropy data) as [ins|e] eqn:Hbody; [|reflexivity].
    exfalso. apply Hnot, (analyze_body_ok_iff_clean entropy data). eauto.
Qed.

End Generator.

(* ================================================================= *)
(** ** The further properties on the concrete datasets *)

Import Examples.

(** The one post of the test dataset. *)
Definition main_posts : list item :=
  [ post "Social Media Discussion" "2024-01-14T16:45:00" "social media" 250 45 ].

(** Two platforms and no record. *)
Definition vacant_data : Dataset := [("youtube", []); ("reddit", [])].

Lemma vacant_data_has_no_record :
  forall P items, In (P, items) vacant_data -> items = [].
Proof. intros P items [H|[H|[]]]; now inversion H. Qed.

Lemma main_data_parsable :
  forall P items, In (P, items) main_data ->
                  forallb (parsable (L := Reference.libraries)) items = true.
Proof.
  intros P items [H|[H|[]]]; inversion H; subst; vm_compute; reflexivity.
Qed.

(** X1, at the videos of the test dataset. *)
Lemma keyword_groups_witness :
  exists kp stats,
    _analyze_keywords main_data = Ok kp /\
    dict_get "youtube" kp = Some stats /\
    keys stats = first_seen String.eqb (map keyword_of main_videos) /\
    (forall k,
       dict_get k stats
       = match group k main_videos with
         | [] => None
         | g => Some (mk_keyword_stats
                        (List.length g)
                        (sum (map (keyword_engagement "youtube") g))
                        (int_of (Float.round
                                   (inject_Z (sum (map (keyword_engagement "youtube") g))
                                    / inject_Z (len g)))))
         end) /\
    (forall k st,
       dict_get k stats = Some st ->
       Z.abs (total_engagement st) < 2 ^ 53 ->
       avg_engagement st = Z.quot (total_engagement st) (Z.of_nat (count st))).
Proof.
  exact (keyword_groups main_data "youtube" main_videos main_data_keys eq_refl
           ltac:(discriminate)).
Defined.

(** X2, at the videos of the test dataset. *)
Lemma keyword_groups_partition_witness :
  exists kp stats,
    _analyze_keywords main_data = Ok kp /\
    dict_get "youtube" kp = Some stats /\
    total_of (fun st => Z.of_nat (count st)) stats = len main_videos /\
    total_of total_engagement stats
    = sum (map (keyword_engagement "youtube") main_videos).
Proof.
  exact (keyword_groups_partition main_data "youtube" main_videos main_data_keys
           eq_refl ltac:(discriminate)).
Defined.

(** X3, at a news dataset. *)
Lemma no_keyword_signal_elsewhere_witness :
  exists kp stats,
    _analyze_keywords news_data = Ok kp /\
    dict_get "google_news" kp = Some stats /\
    Forall (fun entry => total_engagement (snd entry) = 0 /\
                         avg_engagement (snd entry) = 0) stats /\
    forall recs, keyword_rule recs ("google_news", stats) = recs.
Proof.
  exact (no_keyword_signal_elsewhere news_data "google_news" news_items
           (single_key _ _) eq_refl
           ltac:(discriminate) ltac:(discriminate) ltac:(discriminate)).
Defined.

(** X4, at the test dataset. *)
Lemma engagement_block_keys_witness :
  exists stats,
    _analyze_engagement main_data = Ok stats /\
    keys stats
    = map fst (filter (fun entry => has_records entry
                                    && has_engagement_shape (fst entry)) main_data) /\
    Forall (fun k => k = "youtube" \/ k = "reddit" \/ k = "google_news") (keys stats).
Proof. exact (engagement_block_keys main_data main_data_keys). Defined.

(** X5, at the test dataset. *)
Lemma block_keys_follow_the_dataset_witness :
  keys (best_posting_times (analyze (L := Reference.libraries) no_entropy main_data))
  = map fst (filter has_records main_data) /\
  keys (keyword_performance (analyze (L := Reference.libraries) no_entropy main_data))
  = map fst (filter has_records main_data) /\
  keys (platform_insights (analyze (L := Reference.libraries) no_entropy main_data))
  = map fst (filter has_records main_data).
Proof.
  exact (block_keys_follow_the_dataset (L := Reference.libraries) no_entropy main_data
           main_data_keys main_data_clean).
Defined.

(** X6, at the test dataset, for a generator that always answers 0 and one
    that always answers 5. *)
Lemma parsable_timestamps_need_no_entropy_witness :
  analyze (L := Reference.libraries) no_entropy main_data
  = analyze (L := Reference.libraries) (fun _ => 5%nat) main_data /\
  (forall P items,
      NoDup (keys main_data) -> dict_get P main_data = Some items -> items <> [] ->
      dict_get P (_analyze_posting_times (L := Reference.libraries) no_entropy main_data)
      = Some (posting_entry_of (L := Reference.libraries)
                (map hour (parsed_dates (L := Reference.libraries) items)))).
Proof.
  exact (parsable_timestamps_need_no_entropy (L := Reference.libraries)
           no_entropy (fun _ => 5%nat) main_data main_data_parsable).
Defined.

(** X7, at the videos of the test dataset. *)
Lemma sample_size_counts_timestamps_witness :
  exists e,
    dict_get "youtube"
      (_analyze_posting_times (L := Reference.libraries) no_entropy main_data)
    = Some e /\
    sample_size e = List.length (filter stamped main_videos) /\
    (e = default_times <-> filter stamped main_videos = []).
Proof.
  exact (sample_size_counts_timestamps (L := Reference.libraries) no_entropy main_data
           "youtube" main_videos main_data_keys eq_refl ltac:(discriminate)).
Defined.

(** X8, at the "youtube" entry of the test dataset. *)
Lemma peak_hour_is_most_frequent_witness :
  dict_get "youtube"
    (_analyze_posting_times (L := Reference.libraries) no_entropy main_data)
  = Some (mk_posting_entry [10; 14] "10:00 - 14:00" 2 14) /\
  In 14 [10; 14].
Proof.
  assert (Hentry : dict_get "youtube"
                     (_analyze_posting_times (L := Reference.libraries) no_entropy
                                             main_data)
                   = Some (mk_posting_entry [10; 14] "10:00 - 14:00" 2 14))
    by (vm_compute; reflexivity).
  split; [exact Hentry|].
  exact (proj1 (peak_hour_is_most_frequent (L := Reference.libraries) no_entropy
                  main_data "youtube"
                  (mk_posting_entry [10; 14] "10:00 - 14:00" 2 14) Hentry)).
Defined.

(** X9, at the post of the test dataset. *)
Lemma forum_engagement_entry_witness :
  exists stats,
    _analyze_engagement main_data = Ok stats /\
    dict_get "reddit" stats
    = Some (ForumStats 250 45 (Float.round (45 # 250)) 1) /\
    (Z.abs 250 < 2 ^ 53 -> 250 = Z.quot 250 1) /\
    (Z.abs 45 < 2 ^ 53 -> 45 = Z.quot 45 1).
Proof.
  exact (forum_engagement_entry main_data main_posts main_data_keys eq_refl
           ltac:(discriminate)).
Defined.

(** X10, at the videos of the test dataset. *)
Lemma video_mean_within_bounds_witness :
  exists stats avg_views avg_likes ratio max_views min_views,
    _analyze_engagement main_data = Ok stats /\
    dict_get "youtube" stats
    = Some (VideoStats avg_views avg_likes ratio max_views min_views
              (List.length main_videos)) /\
    min_views <= avg_views <= max_views /\
    (exists it, In it main_videos /\ metric views it = min_views) /\
    (exists it, In it main_videos /\ metric views it = max_views).
Proof.
  destruct (video_mean_within_bounds main_data main_videos main_data_keys eq_refl
              ltac:(discriminate))
    as (stats & avg_views & avg_likes & ratio & max_views & min_views
        & Hstats & Hentry & Hmean & _ & Hmin & Hmax).
  exists stats, avg_views, avg_likes, ratio, max_views, min_views.
  refine (conj Hstats (conj Hentry (conj (Hmean _) (conj Hmin Hmax)))).
  vm_compute. reflexivity.
Defined.

(** X13, at six videos without a [platform] field. *)
Lemma trend_without_platform_tag_witness :
  _get_engagement_trend (L := Reference.libraries) (rising None)
  = if (List.length (rising None) <? 5)%nat then "Insufficient data" else "Stable".
Proof.
  exact (trend_without_platform_tag (L := Reference.libraries) (rising None)
           (video "v1" "2024-01-01T10:00:00" None 100 1) eq_refl eq_refl eq_refl).
Defined.

(** X14, at the videos of the test dataset. *)
Lemma platform_summary_entry_witness :
  exists range,
    _get_date_range (L := Reference.libraries) main_videos = Ok range /\
    dict_get "youtube"
      (platform_insights (analyze (L := Reference.libraries) no_entropy main_data))
    = Some (mk_platform_summary (List.length main_videos) range
              (_get_top_keywords main_videos)
              (_get_engagement_trend (L := Reference.libraries) main_videos)).
Proof.
  exact (platform_summary_entry (L := Reference.libraries) no_entropy main_data
           "youtube" main_videos main_data_keys main_data_clean eq_refl
           ltac:(discriminate)).
Defined.

Lemma main_videos_small : 0 <= sum (map (metric views) main_videos) < 2 ^ 53.
Proof. split; [apply Z.leb_le | apply Z.ltb_lt]; vm_compute; reflexivity. Qed.

(** X15, at the videos of the test dataset. *)
Lemma not_every_video_is_viral_witness :
  exists titles kws,
    _analyze_viral_patterns (L := Reference.libraries) main_data
    = Ok [ ("high_engagement_titles", PList titles);
           ("common_keywords_in_viral", PList kws);
           ("content_length_pattern", PEmptyDict);
           ("emotional_triggers", PList []) ] /\
    filter (fun it =>
              Qlt_bool (Float.round
                          (inject_Z (sum (map (metric views) main_videos))
                           / inject_Z (len (map (metric views) main_videos))))
                       (inject_Z (metric views it)))
           main_videos
    = above_mean main_videos /\
    (List.length (above_mean main_videos) < List.length main_videos)%nat /\
    (List.length titles <= Nat.min 5 (List.length main_videos - 1))%nat /\
    ((forall a b, In a main_videos -> In b main_videos ->
                  metric views a = metric views b) ->
     above_mean main_videos = [] /\ titles = [] /\ kws = []).
Proof.
  exact (not_every_video_is_viral (L := Reference.libraries) main_data main_videos
           eq_refl ltac:(discriminate) main_videos_small).
Defined.

(** X17, at the test dataset. *)
Lemma recommendations_lead_with_posting_times_witness :
  let times :=
    best_posting_times (analyze (L := Reference.libraries) no_entropy main_data) in
  let posting :=
    map (fun entry => posting_recommendation (fst entry) (best_time_range (snd entry)))
        times in
  keys times = map fst (filter has_records main_data) /\
  Forall (fun entry => best_time_range (snd entry) <> EmptyString) times /\
  (filter has_records main_data <> [] ->
   exists others,
     get_recommendations (analyze (L := Reference.libraries) no_entropy main_data)
     = firstn 5 (posting ++ others)).
Proof.
  exact (recommendations_lead_with_posting_times (L := Reference.libraries) no_entropy
           main_data main_data_keys main_data_clean).
Defined.

(** X18, at a dataset of two platforms without records. *)
Lemma nothing_to_analyze_witness :
  analyze (L := Reference.libraries) no_entropy vacant_data
  = mk_insights [] initial_patterns [] [] [] /\
  get_recommendations (analyze (L := Reference.libraries) no_entropy vacant_data)
  = generic_recommendations.
Proof.
  exact (nothing_to_analyze (L := Reference.libraries) no_entropy vacant_data
           vacant_data_has_no_record).
Defined.

(** X20, at the test dataset. *)
Lemma time_insight_of_analysis_witness :
  (forall items,
      clean (L := Reference.libraries) main_data ->
      dict_get "youtube" main_data = Some items -> items <> [] ->
      exists e,
        dict_get "youtube"
          (_analyze_posting_times (L := Reference.libraries) no_entropy main_data)
        = Some e /\
        _extract_time_insight
          (analyze (L := Reference.libraries) no_entropy main_data) "youtube"
        = "Best posting time: " +++ best_time_range e) /\
  (dict_get "youtube" main_data = None \/ dict_get "youtube" main_data = Some [] \/
   ~ clean (L := Reference.libraries) main_data ->
   _extract_time_insight
     (analyze (L := Reference.libraries) no_entropy main_data) "youtube"
   = "Post during business hours (9 AM - 5 PM)").
Proof.
  exact (time_insight_of_analysis (L := Reference.libraries) no_entropy main_data
           "youtube" main_data_keys).
Defined.

Lemma accented_videos_clean : clean (L := Reference.libraries) accented_videos.
Proof.
  intros P items [H|[]]; inversion H; subst; vm_compute; reflexivity.
Qed.

(** X21, at two videos whose titles have accents. *)
Lemma keyword_insight_of_analysis_witness :
  exists kws,
    dict_get "common_keywords_in_viral"
      (viral_content_patterns
         (analyze (L := Reference.libraries) no_entropy accented_videos))
    = Some (PList kws) /\
    _extract_keyword_insight
      (analyze (L := Reference.libraries) no_entropy accented_videos)
    = match kws with
      | [] => "Focus on value-driven content"
      | _ :: _ => "Trending keywords: " +++ String.concat ", " (firstn 3 kws)
      end.
Proof.
  destruct (keyword_insight_of_analysis (L := Reference.libraries) no_entropy
              accented_videos) as (runs & _ & Hclean & _).
  destruct (Hclean accented_videos_clean) as (Hkws & Hinsight & _).
  eexists. exact (conj Hkws Hinsight).
Defined.

(** The analyzer object after a fault: on the dataset that mixes an aware
    and a naive timestamp [analyze] returns the all-empty insights, whose
    recommendations would be the generic ones, while the recommendations
    the analyzer gives are those of the blocks it had computed. *)
Example recommendations_of_mixed_data :
  analyze (L := Reference.libraries) no_entropy mixed_data = empty_insights /\
  get_recommendations (analyze (L := Reference.libraries) no_entropy mixed_data)
  = generic_recommendations /\
  get_recommendations (insights_attribute (L := Reference.libraries) no_entropy mixed_data)
  = [ "📅 Post on youtube between 10:00 - 14:00 for maximum reach";
      "🔥 Include these keywords in content: recap";
      "🎯 Focus on youtube for highest engagement (avg: 200)";
      "🔑 On youtube, 'marketing' performs best (200 avg engagement)" ].
Proof. split; [|split]; vm_compute; reflexivity. Qed.

(** The content generator on the result of the test dataset. *)
Example generator_insights_of_main_data :
  _extract_time_insight
    (analyze (L := Reference.libraries) no_entropy main_data) "youtube"
  = "Best posting time: 10:00 - 14:00" /\
  _extract_time_insight
    (analyze (L := Reference.libraries) no_entropy main_data) "twitter"
  = "Post during business hours (9 AM - 5 PM)" /\
  _extract_keyword_insight (analyze (L := Reference.libraries) no_entropy main_data)
  = "Trending keywords: marketing, trends".
Proof. split; [|split]; vm_compute; reflexivity. Qed.

(** The content generator on titles with accents. *)
Example generator_insights_of_accented_titles :
  _extract_keyword_insight
    (analyze (L := Reference.libraries) no_entropy accented_videos)
  = "Trending keywords: énorme, café, über".
Proof. vm_compute. reflexivity. Qed.

